(** * Unied editing core: a shallow embedding of [main.c]

    The C program keeps one global [EditorState E]; every function below takes
    the state as an argument and returns the new one.  C [int]s are modelled
    as [Z] (signed overflow is undefined behaviour in C, so there is no
    wrap-around to reproduce), [char] as [ascii], heap buffers as lists whose
    length is the number of allocated cells.  Allocation is assumed to
    succeed: the branches taken when [malloc]/[realloc]/[strdup] return NULL
    are not modelled.  Cells returned by [malloc] hold an arbitrary value,
    a variable of the enclosing section.

    Two accesses that the C code makes without a test are modelled as
    faults: [editor_line_insert_char] and [editor_line_delete_char] move the
    cells of [hl] even when it is still NULL, and [editor_duplicate_line]
    reads its row through a pointer taken before [editor_insert_line] may
    have moved the array of rows.  The functions that reach one of them
    return an [option], with [None] for the fault. *)

From Stdlib Require Import ZArith Ascii String Bool Lia.
From stdpp Require Import base tactics option list.

Local Open Scope Z_scope.

(** ** Configuration constants *)

Definition MAX_LINE_LENGTH_BUFFER : Z := 256.
Definition MAX_STATUS_MESSAGE_LENGTH : Z := 256.
Definition MAX_UNDO_HISTORY : Z := 100.
Definition COMMAND_TIMEOUT_MS : Z := 1500.
Definition MAX_COMMAND_SEQUENCE_LENGTH : Z := 10.

(** Key codes of <ncurses.h> used by the dispatcher. *)
Definition KEY_BACKSPACE : Z := 263.
Definition KEY_ENTER : Z := 343.

(** ** Characters *)

Definition NUL : ascii := "000"%char.

Definition code (c : ascii) : Z := Z.of_N (N_of_ascii c).

(** The conversion [(char)c] of an [int]. *)
Definition char_of_int (c : Z) : ascii := ascii_of_N (Z.to_N (c mod 256)).

Definition chr_eqb (a b : ascii) : bool := Ascii.eqb a b.

Definition in_range (lo hi : ascii) (c : ascii) : bool :=
  (code lo <=? code c) && (code c <=? code hi).

(** <ctype.h> in the "C" locale. *)
Definition isdigit (c : ascii) : bool := in_range "0" "9" c.
Definition isupper (c : ascii) : bool := in_range "A" "Z" c.
Definition islower (c : ascii) : bool := in_range "a" "z" c.
Definition isalpha (c : ascii) : bool := isupper c || islower c.
Definition isalnum (c : ascii) : bool := isalpha c || isdigit c.
Definition isxdigit (c : ascii) : bool :=
  isdigit c || in_range "a" "f" c || in_range "A" "F" c.
Definition isspace (c : ascii) : bool :=
  chr_eqb c " " || in_range "009" "013" c.
Definition tolower (c : ascii) : ascii :=
  if isupper c then char_of_int (code c + 32) else c.
(** [isprint] takes the key as an [int]; the key codes of ncurses lie above
    255, outside the characters, and are not printable. *)
Definition isprint (key : Z) : bool := (32 <=? key) && (key <=? 126).

(** ** Arrays and blocks of memory

    Reads outside a buffer return a default value and writes outside it are
    dropped; in C both are undefined behaviour, and the theorems below state
    the bounds under which the model is the program. *)

Section Arrays.
Context {A : Type}.

Definition zlen (a : list A) : Z := Z.of_nat (length a).

Definition array_get (d : A) (a : list A) (i : Z) : A :=
  if i <? 0 then d else default d (a !! Z.to_nat i).

Definition array_set (a : list A) (i : Z) (v : A) : list A :=
  if i <? 0 then a else <[Z.to_nat i := v]> a.

(** The [n] cells starting at offset [off]. *)
Definition block_read (a : list A) (off n : Z) : list A :=
  take (Z.to_nat n) (drop (Z.to_nat off) a).

(** Overwrite the cells starting at offset [off] with [data]. *)
Definition block_write (a : list A) (off : Z) (data : list A) : list A :=
  take (length a)
       (take (Z.to_nat off) a ++ data ++ drop (Z.to_nat off + length data) a).

(** [memmove(&a[dst], &a[src], n)] inside one buffer. *)
Definition memmove (a : list A) (dst src n : Z) : list A :=
  block_write a dst (block_read a src n).

(** [memcpy(&a[dst], s, n)] from another buffer [s]. *)
Definition memcpy (a : list A) (dst : Z) (s : list A) (n : Z) : list A :=
  block_write a dst (block_read s 0 n).

(** [malloc(n)]: [n] cells of arbitrary content. *)
Definition malloc (junk : A) (n : Z) : list A := replicate (Z.to_nat n) junk.

(** [realloc(a, n)]: the old cells, then arbitrary ones. *)
Definition realloc (junk : A) (a : list A) (n : Z) : list A :=
  take (Z.to_nat n) a ++ replicate (Z.to_nat n - length a) junk.
End Arrays.

(** C strings: the characters before the first NUL. *)
Fixpoint cstr (s : list ascii) : list ascii :=
  match s with
  | [] => []
  | c :: s' => if chr_eqb c NUL then [] else c :: cstr s'
  end.

Definition strlen (s : list ascii) : Z := zlen (cstr s).

(** [strdup(s)]: a fresh NUL-terminated copy. *)
Definition strdup (s : list ascii) : list ascii := cstr s ++ [NUL].

(** ** Data model *)

Inductive HighlightType : Type :=
  | HL_NORMAL
  | HL_COMMENT
  | HL_STRING
  | HL_NUMBER
  | HL_OPERATOR
  | HL_KEYWORD.

Record EditorLine : Type := mkEditorLine {
  chars : list ascii;                  (* buffer of [allocated] cells *)
  size : Z;
  allocated : Z;
  hl : option (list HighlightType);    (* [None] is the NULL pointer *)
  hl_revision : Z
}.

Record CommandState : Type := mkCommandState {
  cmd_sequence : list ascii;           (* char sequence[MAX_COMMAND_SEQUENCE_LENGTH] *)
  cmd_length : Z;
  cmd_last_key_time : Z;
  cmd_active : bool;
  cmd_show_help : bool
}.

Inductive UndoType : Type :=
  | UNDO_INSERT_CHAR
  | UNDO_DELETE_CHAR
  | UNDO_INSERT_EMPTY_LINE
  | UNDO_SPLIT_LINE
  | UNDO_JOIN_LINES
  | UNDO_INSERT_BLOCK
  | UNDO_DELETE_BLOCK
  | UNDO_MODIFY_LINE_CASE.

Record UndoAction : Type := mkUndoAction {
  ua_type : UndoType;
  ua_y : Z;
  ua_x : Z;
  char_val : ascii;
  text_content : option (list ascii);  (* NUL-terminated, [None] is NULL *)
  text_len : Z;
  num_lines_affected : Z
}.

(** The part of [EditorState] that the editing core reads and writes.  The
    [lines] list holds the [num_lines] live entries of the C array. *)
Record EditorState : Type := mkEditorState {
  lines : list EditorLine;
  allocated_lines : Z;
  cursor_x : Z;
  cursor_y : Z;
  dirty : bool;
  status_message : list ascii;
  in_multiline_comment_global : bool;
  dirty_line_start : Z;
  dirty_line_end : Z;
  cmd : CommandState;
  creative_mode : bool;
  is_code_file : bool;
  visual_mode : bool;
  visual_start_x : Z;
  visual_start_y : Z;
  undo_history : list UndoAction;      (* UndoAction undo_history[MAX_UNDO_HISTORY] *)
  undo_head : Z;
  redo_history : list UndoAction;
  redo_head : Z
}.

Definition num_lines (E : EditorState) : Z := zlen (lines E).

(** *** Field updates *)

Definition set_chars (v : list ascii) (l : EditorLine) : EditorLine :=
  mkEditorLine v (size l) (allocated l) (hl l) (hl_revision l).
Definition set_size (v : Z) (l : EditorLine) : EditorLine :=
  mkEditorLine (chars l) v (allocated l) (hl l) (hl_revision l).
Definition set_allocated (v : Z) (l : EditorLine) : EditorLine :=
  mkEditorLine (chars l) (size l) v (hl l) (hl_revision l).
Definition set_hl (v : option (list HighlightType)) (l : EditorLine) : EditorLine :=
  mkEditorLine (chars l) (size l) (allocated l) v (hl_revision l).
Definition bump_revision (l : EditorLine) : EditorLine :=
  mkEditorLine (chars l) (size l) (allocated l) (hl l) (hl_revision l + 1).

Definition set_lines (v : list EditorLine) (E : EditorState) : EditorState :=
  mkEditorState v (allocated_lines E) (cursor_x E) (cursor_y E) (dirty E)
    (status_message E) (in_multiline_comment_global E) (dirty_line_start E)
    (dirty_line_end E) (cmd E) (creative_mode E) (is_code_file E)
    (visual_mode E) (visual_start_x E) (visual_start_y E) (undo_history E)
    (undo_head E) (redo_history E) (redo_head E).
Definition set_allocated_lines (v : Z) (E : EditorState) : EditorState :=
  mkEditorState (lines E) v (cursor_x E) (cursor_y E) (dirty E)
    (status_message E) (in_multiline_comment_global E) (dirty_line_start E)
    (dirty_line_end E) (cmd E) (creative_mode E) (is_code_file E)
    (visual_mode E) (visual_start_x E) (visual_start_y E) (undo_history E)
    (undo_head E) (redo_history E) (redo_head E).
Definition set_cursor_x (v : Z) (E : EditorState) : EditorState :=
  mkEditorState (lines E) (allocated_lines E) v (cursor_y E) (dirty E)
    (status_message E) (in_multiline_comment_global E) (dirty_line_start E)
    (dirty_line_end E) (cmd E) (creative_mode E) (is_code_file E)
    (visual_mode E) (visual_start_x E) (visual_start_y E) (undo_history E)
    (undo_head E) (redo_history E) (redo_head E).
Definition set_cursor_y (v : Z) (E : EditorState) : EditorState :=
  mkEditorState (lines E) (allocated_lines E) (cursor_x E) v (dirty E)
    (status_message E) (in_multiline_comment_global E) (dirty_line_start E)
    (dirty_line_end E) (cmd E) (creative_mode E) (is_code_file E)
    (visual_mode E) (visual_start_x E) (visual_start_y E) (undo_history E)
    (undo_head E) (redo_history E) (redo_head E).
Definition set_dirty (v : bool) (E : EditorState) : EditorState :=
  mkEditorState (lines E) (allocated_lines E) (cursor_x E) (cursor_y E) v
    (status_message E) (in_multiline_comment_global E) (dirty_line_start E)
    (dirty_line_end E) (cmd E) (creative_mode E) (is_code_file E)
    (visual_mode E) (visual_start_x E) (visual_start_y E) (undo_history E)
    (undo_head E) (redo_history E) (redo_head E).
Definition set_status (v : list ascii) (E : EditorState) : EditorState :=
  mkEditorState (lines E) (allocated_lines E) (cursor_x E) (cursor_y E) (dirty E)
    v (in_multiline_comment_global E) (dirty_line_start E)
    (dirty_line_end E) (cmd E) (creative_mode E) (is_code_file E)
    (visual_mode E) (visual_start_x E) (visual_start_y E) (undo_history E)
    (undo_head E) (redo_history E) (redo_head E).
Definition set_in_multiline_comment_global (v : bool) (E : EditorState) : EditorState :=
  mkEditorState (lines E) (allocated_lines E) (cursor_x E) (cursor_y E) (dirty E)
    (status_message E) v (dirty_line_start E)
    (dirty_line_end E) (cmd E) (creative_mode E) (is_code_file E)
    (visual_mode E) (visual_start_x E) (visual_start_y E) (undo_history E)
    (undo_head E) (redo_history E) (redo_head E).
Definition set_dirty_range (s e : Z) (E : EditorState) : EditorState :=
  mkEditorState (lines E) (allocated_lines E) (cursor_x E) (cursor_y E) (dirty E)
    (status_message E) (in_multiline_comment_global E) s
    e (cmd E) (creative_mode E) (is_code_file E)
    (visual_mode E) (visual_start_x E) (visual_start_y E) (undo_history E)
    (undo_head E) (redo_history E) (redo_head E).
Definition set_cmd (v : CommandState) (E : EditorState) : EditorState :=
  mkEditorState (lines E) (allocated_lines E) (cursor_x E) (cursor_y E) (dirty E)
    (status_message E) (in_multiline_comment_global E) (dirty_line_start E)
    (dirty_line_end E) v (creative_mode E) (is_code_file E)
    (visual_mode E) (visual_start_x E) (visual_start_y E) (undo_history E)
    (undo_head E) (redo_history E) (redo_head E).
Definition set_creative_mode (v : bool) (E : EditorState) : EditorState :=
  mkEditorState (lines E) (allocated_lines E) (cursor_x E) (cursor_y E) (dirty E)
    (status_message E) (in_multiline_comment_global E) (dirty_line_start E)
    (dirty_line_end E) (cmd E) v (is_code_file E)
    (visual_mode E) (visual_start_x E) (visual_start_y E) (undo_history E)
    (undo_head E) (redo_history E) (redo_head E).
Definition set_is_code_file (v : bool) (E : EditorState) : EditorState :=
  mkEditorState (lines E) (allocated_lines E) (cursor_x E) (cursor_y E) (dirty E)
    (status_message E) (in_multiline_comment_global E) (dirty_line_start E)
    (dirty_line_end E) (cmd E) (creative_mode E) v
    (visual_mode E) (visual_start_x E) (visual_start_y E) (undo_history E)
    (undo_head E) (redo_history E) (redo_head E).
Definition set_undo (h : list UndoAction) (head : Z) (E : EditorState) : EditorState :=
  mkEditorState (lines E) (allocated_lines E) (cursor_x E) (cursor_y E) (dirty E)
    (status_message E) (in_multiline_comment_global E) (dirty_line_start E)
    (dirty_line_end E) (cmd E) (creative_mode E) (is_code_file E)
    (visual_mode E) (visual_start_x E) (visual_start_y E) h
    head (redo_history E) (redo_head E).
Definition set_redo (h : list UndoAction) (head : Z) (E : EditorState) : EditorState :=
  mkEditorState (lines E) (allocated_lines E) (cursor_x E) (cursor_y E) (dirty E)
    (status_message E) (in_multiline_comment_global E) (dirty_line_start E)
    (dirty_line_end E) (cmd E) (creative_mode E) (is_code_file E)
    (visual_mode E) (visual_start_x E) (visual_start_y E) (undo_history E)
    (undo_head E) h head.

(** The text of a line: its first [size] characters. *)
Definition line_text (l : EditorLine) : list ascii := take (Z.to_nat (size l)) (chars l).

(** The document as the user sees it. *)
Definition document (E : EditorState) : list (list ascii) := map line_text (lines E).

(** A line whose recorded fields describe its buffer: the buffer has
    [allocated] cells, [size] characters fit before a terminating NUL. *)
Definition line_ok (l : EditorLine) : Prop :=
  zlen (chars l) = allocated l /\
  0 <= size l < allocated l /\
  array_get NUL (chars l) (size l) = NUL.

(** An all-zero [EditorLine], the value read outside the [lines] array. *)
Definition null_line : EditorLine := mkEditorLine [] 0 0 None 0.

Definition get_line (E : EditorState) (row : Z) : EditorLine :=
  array_get null_line (lines E) row.

(** Apply [f] to [E.lines[row]] in place. *)
Definition update_line (row : Z) (f : EditorLine -> EditorLine) (E : EditorState) : EditorState :=
  set_lines (array_set (lines E) row (f (get_line E row))) E.

(** [set_status_message]: the formatted text, cut to the size of the buffer. *)
Definition set_status_message (msg : string) (E : EditorState) : EditorState :=
  set_status (take (Z.to_nat (MAX_STATUS_MESSAGE_LENGTH - 1)) (list_ascii_of_string msg)) E.

(** [for (int i = start; ...; i++) body] run for [n] iterations. *)
Fixpoint for_loop {S : Type} (n : nat) (i : Z) (body : Z -> S -> S) (s : S) : S :=
  match n with
  | O => s
  | Datatypes.S n' => for_loop n' (i + 1) body (body i s)
  end.

(** [&buf[off]]: the buffer seen from offset [off] on. *)
Definition ptr_at {A : Type} (buf : list A) (off : Z) : list A := drop (Z.to_nat off) buf.

(** ** The editing core *)

Section Editor.
(** The content of freshly allocated cells. *)
Variable junk_char : ascii.
Variable junk_hl : HighlightType.

(** *** Line buffer *)

Definition realloc_hl (h : option (list HighlightType)) (n : Z) : option (list HighlightType) :=
  Some (match h with
        | None => malloc junk_hl n
        | Some b => realloc junk_hl b n
        end).

(** The recurring three statements
    [chars = realloc(chars, n); hl = realloc(hl, n); allocated = n]. *)
Definition realloc_line (n : Z) (line : EditorLine) : EditorLine :=
  mkEditorLine (realloc junk_char (chars line) n) (size line) n
               (realloc_hl (hl line) n) (hl_revision line).

(** The two character operations move the cells of [hl] without testing
    the pointer.  A line whose [hl] is still NULL (every line is created
    that way, and gets its buffer from [update_highlighting] or from a
    growth of the line) makes the call fault: the result is [None]. *)
Definition editor_line_insert_char (line : EditorLine) (at_ : Z) (c : Z)
  : option EditorLine :=
  if (at_ <? 0) || (size line <? at_) then Some line
  else
    let line :=
      if allocated line <? size line + 2
      then realloc_line (if allocated line =? 0 then MAX_LINE_LENGTH_BUFFER
                         else allocated line * 2) line
      else line in
    let n := size line - at_ + 1 in
    let cs := memmove (chars line) (at_ + 1) at_ n in
    match hl line with
    | None => None
    | Some b =>
        let h := memmove b (at_ + 1) at_ n in
        let cs := array_set cs at_ (char_of_int c) in
        let sz := size line + 1 in
        let cs := array_set cs sz NUL in
        Some (mkEditorLine cs sz (allocated line) (Some h) (hl_revision line + 1))
    end.

Definition editor_line_delete_char (line : EditorLine) (at_ : Z) : option EditorLine :=
  if (at_ <? 0) || (size line <=? at_) then Some line
  else
    let n := size line - at_ in
    let cs := memmove (chars line) at_ (at_ + 1) n in
    match hl line with
    | None => None
    | Some b =>
        let h := memmove b at_ (at_ + 1) n in
        let sz := size line - 1 in
        let cs := array_set cs sz NUL in
        Some (mkEditorLine cs sz (allocated line) (Some h) (hl_revision line + 1))
    end.

(** A call [f(&E.lines[row])] of an operation that may fault. *)
Definition on_line (row : Z) (f : EditorLine -> option EditorLine) (E : EditorState)
  : option EditorState :=
  match f (get_line E row) with
  | Some line => Some (set_lines (array_set (lines E) row line) E)
  | None => None
  end.

Definition mark_lines_dirty (start end_ : Z) (E : EditorState) : EditorState :=
  let start := if start <? 0 then 0 else start in
  let end_ := if num_lines E <=? end_ then num_lines E - 1 else end_ in
  let ds := if (dirty_line_start E =? -1) || (start <? dirty_line_start E)
            then start else dirty_line_start E in
  let de := if dirty_line_end E <? end_ then end_ else dirty_line_end E in
  set_dirty_range ds de E.

Definition editor_insert_line (at_ : Z) (s : list ascii) (len : Z) (E : EditorState) : EditorState :=
  if (at_ <? 0) || (num_lines E <? at_) then E
  else
    let E :=
      if allocated_lines E <? num_lines E + 1
      then set_allocated_lines (if allocated_lines E =? 0 then 16
                                else allocated_lines E * 2) E
      else E in
    let alloc := if len + 1 <? MAX_LINE_LENGTH_BUFFER
                 then MAX_LINE_LENGTH_BUFFER else len + 1 in
    let cs := malloc junk_char alloc in
    let cs := memcpy cs 0 s len in
    let cs := array_set cs len NUL in
    let new_line := mkEditorLine cs len alloc None 0 in
    let E := set_lines (take (Z.to_nat at_) (lines E) ++
                        new_line :: drop (Z.to_nat at_) (lines E)) E in
    let E := set_dirty true E in
    mark_lines_dirty at_ (num_lines E) E.

Definition editor_delete_line (at_ : Z) (E : EditorState) : EditorState :=
  if (at_ <? 0) || (num_lines E <=? at_) then E
  else
    let E := set_lines (take (Z.to_nat at_) (lines E) ++
                        drop (Z.to_nat (at_ + 1)) (lines E)) E in
    let E := set_dirty true E in
    mark_lines_dirty at_ (num_lines E) E.

(** [line->size = x; line->chars[x] = '\0'; line->hl_revision++]. *)
Definition truncate_line (x : Z) (line : EditorLine) : EditorLine :=
  bump_revision (set_chars (array_set (chars line) x NUL) (set_size x line)).

(** Append the first [n] characters found at [src] and a NUL to [dst],
    growing [dst] by exactly what is missing: the statements shared by
    every place that joins two lines. *)
Definition append_to_line (dst : EditorLine) (src : list ascii) (n : Z) : EditorLine :=
  let dst :=
    if allocated dst <? size dst + n + 1
    then realloc_line (allocated dst + n + 1) dst
    else dst in
  let cs := memcpy (chars dst) (size dst) src (n + 1) in
  bump_revision (set_size (size dst + n) (set_chars cs dst)).

(** *** Undo and redo logs *)

Definition null_action : UndoAction :=
  mkUndoAction UNDO_INSERT_CHAR 0 0 NUL None 0 0.

Definition free_undo_action (a : UndoAction) : UndoAction :=
  mkUndoAction (ua_type a) (ua_y a) (ua_x a) (char_val a) None
               (text_len a) (num_lines_affected a).

(** The entry written into a history slot: the fields of [action] with a
    private copy of its text. *)
Definition stored (action : UndoAction) : UndoAction :=
  mkUndoAction (ua_type action) (ua_y action) (ua_x action) (char_val action)
               (strdup <$> text_content action)
               (text_len action) (num_lines_affected action).

(** Evict slot 0 of a full history and move the others down by one. *)
Definition evict_oldest (h : list UndoAction) : list UndoAction :=
  let h := array_set h 0 (free_undo_action (array_get null_action h 0)) in
  for_loop (Z.to_nat (MAX_UNDO_HISTORY - 1)) 0
           (fun i h => array_set h i (array_get null_action h (i + 1))) h.

Definition clear_redo_history (E : EditorState) : EditorState :=
  let h := for_loop (Z.to_nat (redo_head E)) 0
             (fun i h => array_set h i (free_undo_action (array_get null_action h i)))
             (redo_history E) in
  set_redo h 0 E.

Definition push_undo_action (action : UndoAction) (E : EditorState) : EditorState :=
  let E :=
    if undo_head E =? MAX_UNDO_HISTORY
    then set_undo (evict_oldest (undo_history E)) (undo_head E - 1) E
    else E in
  let h := array_set (undo_history E) (undo_head E) (stored action) in
  let E := set_undo h (undo_head E + 1) E in
  clear_redo_history E.

Definition push_redo_action (action : UndoAction) (E : EditorState) : EditorState :=
  let E :=
    if redo_head E =? MAX_UNDO_HISTORY
    then set_redo (evict_oldest (redo_history E)) (redo_head E - 1) E
    else E in
  let h := array_set (redo_history E) (redo_head E) (stored action) in
  set_redo h (redo_head E + 1) E.

(** The live entries of the two logs, oldest first. *)
Definition undo_log (E : EditorState) : list UndoAction :=
  take (Z.to_nat (undo_head E)) (undo_history E).
Definition redo_log (E : EditorState) : list UndoAction :=
  take (Z.to_nat (redo_head E)) (redo_history E).

(** *** Character-level editing at the cursor *)

Definition editor_insert_char (c : Z) (E : EditorState) : option EditorState :=
  let ua := mkUndoAction UNDO_DELETE_CHAR (cursor_y E) (cursor_x E)
                         (char_of_int c) None 0 0 in
  let E := push_undo_action ua E in
  let E := if cursor_y E =? num_lines E
           then editor_insert_line (num_lines E) [NUL] 0 E else E in
  (fun E =>
     let E := set_cursor_x (cursor_x E + 1) E in
     let E := set_dirty true E in
     mark_lines_dirty (cursor_y E) (cursor_y E) E) <$>
    on_line (cursor_y E) (fun line => editor_line_insert_char line (cursor_x E) c) E.

Definition editor_delete_char (E : EditorState) : option EditorState :=
  if cursor_y E =? num_lines E then Some E
  else if (cursor_x E =? 0) && (cursor_y E =? 0) then Some E
  else
    let E := mark_lines_dirty (cursor_y E) (cursor_y E) E in
    let line := get_line E (cursor_y E) in
    set_dirty true <$>
      if 0 <? cursor_x E then
        let ua := mkUndoAction UNDO_INSERT_CHAR (cursor_y E) (cursor_x E - 1)
                    (array_get NUL (chars line) (cursor_x E - 1)) None 0 0 in
        let E := push_undo_action ua E in
        (fun E => set_cursor_x (cursor_x E - 1) E) <$>
          on_line (cursor_y E)
                  (fun line => editor_line_delete_char line (cursor_x E - 1)) E
      else
        let merged_line_content := strdup (chars line) in
        let prev_line_size := size (get_line E (cursor_y E - 1)) in
        let ua := mkUndoAction UNDO_JOIN_LINES (cursor_y E - 1) prev_line_size NUL
                    (Some merged_line_content) (size line) 0 in
        let E := push_undo_action ua E in
        let E := update_line (cursor_y E - 1)
                   (fun prev_line => append_to_line prev_line (chars line) (size line)) E in
        let E := editor_delete_line (cursor_y E) E in
        let E := set_cursor_y (cursor_y E - 1) E in
        Some (mark_lines_dirty (cursor_y E) (cursor_y E + 1) E).

Definition editor_insert_newline (E : EditorState) : EditorState :=
  let E :=
    if cursor_x E =? 0 then
      let ua := mkUndoAction UNDO_INSERT_EMPTY_LINE (cursor_y E) 0 NUL None 0 0 in
      let E := push_undo_action ua E in
      editor_insert_line (cursor_y E) [NUL] 0 E
    else
      let split_off_content :=
        strdup (ptr_at (chars (get_line E (cursor_y E))) (cursor_x E)) in
      let split_off_len := strlen split_off_content in
      let ua := mkUndoAction UNDO_SPLIT_LINE (cursor_y E) (cursor_x E) NUL
                  (Some split_off_content) split_off_len 0 in
      let E := push_undo_action ua E in
      let line := get_line E (cursor_y E) in
      let E := editor_insert_line (cursor_y E + 1) (ptr_at (chars line) (cursor_x E))
                                  (size line - cursor_x E) E in
      update_line (cursor_y E) (truncate_line (cursor_x E)) E in
  let E := set_cursor_y (cursor_y E + 1) E in
  let E := set_cursor_x 0 E in
  let E := set_dirty true E in
  mark_lines_dirty (cursor_y E - 1) (cursor_y E) E.

(** *** Selection and block operations *)

(** The four out-parameters [(sy, sx, ey, ex)]. *)
Definition get_normalized_selection_coords (E : EditorState) : Z * Z * Z * Z :=
  if visual_start_y E <? cursor_y E then
    (visual_start_y E, visual_start_x E, cursor_y E, cursor_x E)
  else if cursor_y E <? visual_start_y E then
    (cursor_y E, cursor_x E, visual_start_y E, visual_start_x E)
  else if visual_start_x E <? cursor_x E then
    (visual_start_y E, visual_start_x E, cursor_y E, cursor_x E)
  else
    (visual_start_y E, cursor_x E, cursor_y E, visual_start_x E).

(** Columns of row [y] covered by the range. *)
Definition selection_cols (E : EditorState) (sy sx ey ex y : Z) : Z * Z :=
  let start_col := if y =? sy then sx else 0 in
  let end_col := if y =? ey then ex else size (get_line E y) in
  let end_col := if end_col <? start_col then start_col else end_col in
  (start_col, end_col).

(** Returns the buffer (or NULL) and the value left in the out-parameter [num_lines]. *)
Definition get_selection_content (E : EditorState) (sy sx ey ex : Z)
  : option (list ascii) * Z :=
  if (sy <? 0) || (num_lines E <=? sy) || (ey <? 0) || (num_lines E <=? ey)
  then (None, 0)
  else
    let rows := Z.to_nat (ey - sy + 1) in
    let '(total_len, n) :=
      for_loop rows sy
        (fun y '(total_len, n) =>
           let '(start_col, end_col) := selection_cols E sy sx ey ex y in
           let total_len := total_len + (end_col - start_col) in
           let total_len := if y <? ey then total_len + 1 else total_len in
           (total_len, n + 1))
        (0, 0) in
    if total_len =? 0 then (None, n)
    else
      let buffer := malloc junk_char (total_len + 1) in
      let '(buffer, ptr) :=
        for_loop rows sy
          (fun y '(buffer, ptr) =>
             let '(start_col, end_col) := selection_cols E sy sx ey ex y in
             let buffer := memcpy buffer ptr
                             (ptr_at (chars (get_line E y)) start_col)
                             (end_col - start_col) in
             let ptr := ptr + (end_col - start_col) in
             if y <? ey then (array_set buffer ptr "010"%char, ptr + 1)
             else (buffer, ptr))
          (buffer, 0) in
      (Some (array_set buffer ptr NUL), n).

(** [strchr(s, c) - s], when [c] occurs in the C string [s]. *)
Fixpoint strchr (s : list ascii) (c : ascii) : option Z :=
  match s with
  | [] => None
  | d :: s' =>
      if chr_eqb d c then Some 0
      else if chr_eqb d NUL then None
      else Z.succ <$> strchr s' c
  end.

(** Splice [segment_len] characters found at [seg] into a line at [x]. *)
Definition splice_into_line (x : Z) (seg : list ascii) (segment_len : Z)
           (target_line : EditorLine) : EditorLine :=
  let target_line :=
    if allocated target_line <? size target_line + segment_len + 1
    then realloc_line (allocated target_line + segment_len + 1) target_line
    else target_line in
  let cs := memmove (chars target_line) (x + segment_len) x (size target_line - x + 1) in
  let cs := memcpy cs x seg segment_len in
  let sz := size target_line + segment_len in
  let cs := array_set cs sz NUL in
  bump_revision (set_size sz (set_chars cs target_line)).

(** The loop over the segments of the text, run until [current_segment]
    points at the terminating NUL; every iteration consumes at least one
    character of the text, and [fuel] bounds their number. *)
Fixpoint insert_segments (fuel : nat) (current_segment : list ascii)
         (current_y current_x : Z) (E : EditorState) : Z * Z * EditorState :=
  match fuel with
  | O => (current_y, current_x, E)
  | Datatypes.S fuel' =>
      if chr_eqb (array_get NUL current_segment 0) NUL then (current_y, current_x, E)
      else
        let newline_pos := strchr current_segment "010"%char in
        let segment_len :=
          match newline_pos with
          | Some p => p
          | None => strlen current_segment
          end in
        let E :=
          if num_lines E <=? current_y
          then editor_insert_line current_y current_segment segment_len E
          else update_line current_y
                 (splice_into_line current_x current_segment segment_len) E in
        let current_segment := ptr_at current_segment segment_len in
        match newline_pos with
        | Some _ => insert_segments fuel' (ptr_at current_segment 1) (current_y + 1) 0 E
        | None => insert_segments fuel' current_segment current_y
                                  (current_x + segment_len) E
        end
  end.

Definition editor_insert_text_block (y x : Z) (text : list ascii) (text_len : Z)
           (E : EditorState) : EditorState :=
  if text_len =? 0 then E
  else
    let temp_text := strdup text in
    let '(original_line_remainder, E) :=
      if (y <? num_lines E) && (x <? size (get_line E y))
      then (Some (strdup (ptr_at (chars (get_line E y)) x)),
            update_line y (truncate_line x) E)
      else (None, E) in
    let original_line_remainder_len :=
      match original_line_remainder with
      | Some r => strlen r
      | None => 0
      end in
    let '(current_y, current_x, E) :=
      insert_segments (length temp_text) temp_text y x E in
    let E :=
      match original_line_remainder with
      | Some r =>
          if 0 <? original_line_remainder_len then
            if num_lines E <=? current_y
            then editor_insert_line current_y r original_line_remainder_len E
            else update_line current_y
                   (fun target_line =>
                      append_to_line target_line r original_line_remainder_len) E
          else E
      | None => E
      end in
    mark_lines_dirty y current_y E.

Definition editor_delete_text_block (sy sx ey ex : Z) (E : EditorState) : EditorState :=
  if (sy <? 0) || (num_lines E <=? sy) || (ey <? 0) || (num_lines E <=? ey) then E
  else
    let E :=
      if sy =? ey then
        update_line sy
          (fun line =>
             let cs := memmove (chars line) sx ex (size line - ex + 1) in
             bump_revision (set_size (size line - (ex - sx)) (set_chars cs line))) E
      else
        let E := update_line sy (truncate_line sx) E in
        let end_line := get_line E ey in
        let E := update_line sy
                   (fun start_line =>
                      append_to_line start_line (ptr_at (chars end_line) ex)
                                     (size end_line - ex)) E in
        for_loop (Z.to_nat (ey - sy)) 0 (fun _ E => editor_delete_line (sy + 1) E) E in
    mark_lines_dirty sy (num_lines E) E.

(** *** Undo and redo *)

(** The text of an action; dereferencing a NULL [text_content] is
    undefined in C and reads as the empty string here. *)
Definition text_of (a : UndoAction) : list ascii := default [NUL] (text_content a).

(** The scan that leaves [last_line_start] after the last newline. *)
Fixpoint last_line_start (temp_ptr start : list ascii) : list ascii :=
  match temp_ptr with
  | [] => start
  | c :: rest =>
      if chr_eqb c NUL then start
      else if chr_eqb c "010"%char then last_line_start rest rest
      else last_line_start rest start
  end.

(** The block [(sy, sx, ey, ex)] that a block action covers. *)
Definition block_coords (a : UndoAction) : Z * Z * Z * Z :=
  let sy := ua_y a in
  let sx := ua_x a in
  let ey := sy + num_lines_affected a - 1 in
  let ex :=
    if num_lines_affected a =? 1 then sx + text_len a
    else strlen (last_line_start (text_of a) (text_of a)) in
  (sy, sx, ey, ex).

(** [free(chars); chars = strdup(text); size = len; allocated = len + 1;
    hl_revision++]. *)
Definition replace_line_content (text : list ascii) (len : Z) (line : EditorLine)
  : EditorLine :=
  mkEditorLine (strdup text) len (len + 1) (hl line) (hl_revision line + 1).

Definition set_cursor (y x : Z) (E : EditorState) : EditorState :=
  set_cursor_x x (set_cursor_y y E).

(** The result of the [switch] of [editor_undo] and of [editor_redo]: the
    state and the two variables that hold the content saved for the
    inverse action. *)
Definition Switched : Type := EditorState * option (list ascii) * Z.

Definition editor_undo (E : EditorState) : option EditorState :=
  if undo_head E =? 0 then Some (set_status_message "Nothing to undo." E)
  else
    let E := set_undo (undo_history E) (undo_head E - 1) E in
    let ua := array_get null_action (undo_history E) (undo_head E) in
    let original_cursor_y := cursor_y E in
    let original_cursor_x := cursor_x E in
    match
      match ua_type ua return option Switched with
      | UNDO_INSERT_CHAR =>
          (fun E => (set_cursor (ua_y ua) (ua_x ua) E, None, 0)) <$>
            on_line (ua_y ua) (fun line => editor_line_delete_char line (ua_x ua)) E
      | UNDO_DELETE_CHAR =>
          (fun E => (set_cursor (ua_y ua) (ua_x ua + 1) E, None, 0)) <$>
            on_line (ua_y ua)
                    (fun line => editor_line_insert_char line (ua_x ua)
                                                         (code (char_val ua))) E
      | UNDO_INSERT_EMPTY_LINE =>
          Some (let E := editor_delete_line (ua_y ua) E in
                let E := set_cursor (ua_y ua) 0 E in
                let E :=
                  if num_lines E =? 0
                  then set_cursor 0 0 (editor_insert_line 0 [NUL] 0 E)
                  else if num_lines E <=? cursor_y E
                       then set_cursor_y (num_lines E - 1) E
                       else E in
                (E, None, 0))
      | UNDO_SPLIT_LINE =>
          Some (let next_line := get_line E (ua_y ua + 1) in
                let E := update_line (ua_y ua)
                           (fun line_to_join =>
                              append_to_line line_to_join (chars next_line) (size next_line)) E in
                let E := editor_delete_line (ua_y ua + 1) E in
                (set_cursor (ua_y ua) (ua_x ua) E, None, 0))
      | UNDO_JOIN_LINES =>
          Some (let E := editor_insert_line (ua_y ua + 1) (text_of ua) (text_len ua) E in
                let E := update_line (ua_y ua) (truncate_line (ua_x ua)) E in
                (set_cursor (ua_y ua + 1) 0 E, None, 0))
      | UNDO_INSERT_BLOCK =>
          Some (let '(sy, sx, ey, ex) := block_coords ua in
                let E := editor_delete_text_block sy sx ey ex E in
                (set_cursor sy sx E, None, 0))
      | UNDO_DELETE_BLOCK =>
          Some (let E := editor_insert_text_block (ua_y ua) (ua_x ua) (text_of ua)
                                                  (text_len ua) E in
                (set_cursor (ua_y ua) (ua_x ua) E, None, 0))
      | UNDO_MODIFY_LINE_CASE =>
          Some (let line := get_line E (ua_y ua) in
                let content := strdup (chars line) in
                let len := size line in
                let E := update_line (ua_y ua)
                           (replace_line_content (text_of ua) (text_len ua)) E in
                (set_cursor (ua_y ua) (ua_x ua) E, Some content, len))
      end
    with
    | None => None
    | Some (E, current_content_for_redo, current_len_for_redo) =>
        let E := set_dirty true E in
        let E := mark_lines_dirty 0 (num_lines E - 1) E in
        let E := set_status_message "Undo successful." E in
        let redo_ua :=
          let y := original_cursor_y in
          let x := original_cursor_x in
          let copy := strdup <$> text_content ua in
          match ua_type ua with
          | UNDO_INSERT_CHAR =>
              mkUndoAction UNDO_DELETE_CHAR y x (char_val ua) None
                           (text_len ua) (num_lines_affected ua)
          | UNDO_DELETE_CHAR =>
              mkUndoAction UNDO_INSERT_CHAR y x (char_val ua) None
                           (text_len ua) (num_lines_affected ua)
          | UNDO_INSERT_EMPTY_LINE =>
              mkUndoAction UNDO_INSERT_EMPTY_LINE y x (char_val ua) None 0 0
          | UNDO_SPLIT_LINE =>
              mkUndoAction UNDO_SPLIT_LINE y x (char_val ua) copy (text_len ua) 0
          | UNDO_JOIN_LINES =>
              mkUndoAction UNDO_JOIN_LINES y x (char_val ua) copy (text_len ua) 0
          | UNDO_INSERT_BLOCK =>
              mkUndoAction UNDO_INSERT_BLOCK y x (char_val ua) copy
                           (text_len ua) (num_lines_affected ua)
          | UNDO_DELETE_BLOCK =>
              mkUndoAction UNDO_DELETE_BLOCK y x (char_val ua) copy
                           (text_len ua) (num_lines_affected ua)
          | UNDO_MODIFY_LINE_CASE =>
              mkUndoAction UNDO_MODIFY_LINE_CASE y x (char_val ua)
                           current_content_for_redo current_len_for_redo 1
          end in
        Some (push_redo_action redo_ua E)
    end.

Definition editor_redo (E : EditorState) : option EditorState :=
  if redo_head E =? 0 then Some (set_status_message "Nothing to redo." E)
  else
    let E := set_redo (redo_history E) (redo_head E - 1) E in
    let ra := array_get null_action (redo_history E) (redo_head E) in
    let original_cursor_y := cursor_y E in
    let original_cursor_x := cursor_x E in
    match
      match ua_type ra return option Switched with
      | UNDO_INSERT_CHAR =>
          (fun E => (set_cursor (ua_y ra) (ua_x ra + 1) E, None, 0)) <$>
            on_line (ua_y ra)
                    (fun line => editor_line_insert_char line (ua_x ra)
                                                         (code (char_val ra))) E
      | UNDO_DELETE_CHAR =>
          (fun E => (set_cursor (ua_y ra) (ua_x ra) E, None, 0)) <$>
            on_line (ua_y ra) (fun line => editor_line_delete_char line (ua_x ra)) E
      | UNDO_INSERT_EMPTY_LINE =>
          Some (let E := editor_insert_line (ua_y ra) [NUL] 0 E in
                (set_cursor (ua_y ra + 1) 0 E, None, 0))
      | UNDO_SPLIT_LINE =>
          Some (let line := get_line E (ua_y ra) in
                let E := editor_insert_line (ua_y ra + 1) (ptr_at (chars line) (ua_x ra))
                                            (size line - ua_x ra) E in
                let E := update_line (ua_y ra) (truncate_line (ua_x ra)) E in
                (set_cursor (ua_y ra + 1) 0 E, None, 0))
      | UNDO_JOIN_LINES =>
          Some (let E := set_cursor_x (size (get_line E (ua_y ra))) E in
                let line_to_delete := get_line E (ua_y ra + 1) in
                let E := update_line (ua_y ra)
                           (fun prev_line =>
                              append_to_line prev_line (chars line_to_delete)
                                             (size line_to_delete)) E in
                let E := editor_delete_line (ua_y ra + 1) E in
                (set_cursor (ua_y ra) (ua_x ra) E, None, 0))
      | UNDO_INSERT_BLOCK =>
          Some (let E := editor_insert_text_block (ua_y ra) (ua_x ra) (text_of ra)
                                                  (text_len ra) E in
                (set_cursor (ua_y ra) (ua_x ra) E, None, 0))
      | UNDO_DELETE_BLOCK =>
          Some (let '(sy, sx, ey, ex) := block_coords ra in
                let E := editor_delete_text_block sy sx ey ex E in
                (set_cursor sy sx E, None, 0))
      | UNDO_MODIFY_LINE_CASE =>
          Some (let line := get_line E (ua_y ra) in
                let content := strdup (chars line) in
                let len := size line in
                let E := update_line (ua_y ra)
                           (replace_line_content (text_of ra) (text_len ra)) E in
                (set_cursor (ua_y ra) (ua_x ra) E, Some content, len))
      end
    with
    | None => None
    | Some (E, current_content_for_undo, current_len_for_undo) =>
        let E := set_dirty true E in
        let E := mark_lines_dirty 0 (num_lines E - 1) E in
        let E := set_status_message "Redo successful." E in
        let undo_ra :=
          let y := original_cursor_y in
          let x := original_cursor_x in
          let copy := strdup <$> text_content ra in
          match ua_type ra with
          | UNDO_INSERT_CHAR =>
              mkUndoAction UNDO_DELETE_CHAR y x (char_val ra) None
                           (text_len ra) (num_lines_affected ra)
          | UNDO_DELETE_CHAR =>
              mkUndoAction UNDO_INSERT_CHAR y x (char_val ra) None
                           (text_len ra) (num_lines_affected ra)
          | UNDO_INSERT_EMPTY_LINE =>
              mkUndoAction UNDO_INSERT_EMPTY_LINE y x (char_val ra) None 0 0
          | UNDO_SPLIT_LINE =>
              mkUndoAction UNDO_SPLIT_LINE y x (char_val ra) copy (text_len ra) 0
          | UNDO_JOIN_LINES =>
              mkUndoAction UNDO_JOIN_LINES y x (char_val ra) copy (text_len ra) 0
          | UNDO_INSERT_BLOCK =>
              mkUndoAction UNDO_INSERT_BLOCK y x (char_val ra) copy
                           (text_len ra) (num_lines_affected ra)
          | UNDO_DELETE_BLOCK =>
              mkUndoAction UNDO_DELETE_BLOCK y x (char_val ra) copy
                           (text_len ra) (num_lines_affected ra)
          | UNDO_MODIFY_LINE_CASE =>
              mkUndoAction UNDO_MODIFY_LINE_CASE y x (char_val ra)
                           current_content_for_undo current_len_for_undo 1
          end in
        Some (push_undo_action undo_ra E)
    end.

(** *** Incremental highlighter *)

Definition is_operator_char (c : ascii) : bool :=
  existsb (chr_eqb c)
          (list_ascii_of_string "+-*/%=<>!&|^~?:;,.()[]{}").

Definition is_double_operator (str : list ascii) (index : Z) : bool :=
  if chr_eqb (array_get NUL str (index + 1)) NUL then false
  else
    let c1 := array_get NUL str index in
    let c2 := array_get NUL str (index + 1) in
    existsb (fun p : ascii * ascii => chr_eqb c1 (fst p) && chr_eqb c2 (snd p))
      [("=", "="); ("!", "="); ("&", "&"); ("|", "|"); ("+", "+"); ("-", "-");
       ("<", "="); (">", "="); ("<", "<"); (">", ">"); ("+", "="); ("-", "=");
       ("*", "="); ("/", "="); ("%", "="); ("&", "="); ("|", "="); ("^", "=");
       ("-", ">")]%char.

(** The local variables of [update_highlighting] that its main loop
    carries, and whether the loop was left by [break]. *)
Record HlLoop : Type := mkHlLoop {
  hl_i : Z;
  hl_tags : list HighlightType;
  in_multiline_comment_this_line : bool;
  in_string : bool;
  string_quote_char : ascii;
  first_word_on_line_highlighted : bool;
  hl_break : bool
}.

(** [for (k = from; k < to; k++) tags[k] = t]. *)
Definition fill_tags (tags : list HighlightType) (from to : Z) (t : HighlightType)
  : list HighlightType :=
  for_loop (Z.to_nat (to - from)) from (fun k tags => array_set tags k t) tags.

(** The condition of the loop that scans a numeric literal. *)
Definition number_char (cs : list ascii) (start_num i : Z) : bool :=
  let c := array_get NUL cs i in
  let p := array_get NUL cs (i - 1) in
  isdigit c || chr_eqb c "." || chr_eqb (tolower c) "x" ||
  ((start_num <? i) && chr_eqb (tolower p) "x" && isxdigit c) ||
  chr_eqb (tolower c) "e" || chr_eqb (tolower c) "f" ||
  ((start_num <? i) && (chr_eqb p "e" || chr_eqb p "E") &&
   (chr_eqb c "+" || chr_eqb c "-")).

Fixpoint scan_number (fuel : nat) (cs : list ascii) (sz start_num i : Z)
         (tags : list HighlightType) : Z * list HighlightType :=
  match fuel with
  | O => (i, tags)
  | Datatypes.S fuel' =>
      if (i <? sz) && number_char cs start_num i
      then scan_number fuel' cs sz start_num (i + 1) (array_set tags i HL_NUMBER)
      else (i, tags)
  end.

Definition word_char (c : ascii) : bool := isalnum c || chr_eqb c "_".

Fixpoint scan_word (fuel : nat) (cs : list ascii) (sz i : Z) : Z :=
  match fuel with
  | O => i
  | Datatypes.S fuel' =>
      if (i <? sz) && word_char (array_get NUL cs i)
      then scan_word fuel' cs sz (i + 1)
      else i
  end.

(** The backward scan from [prev_char_idx] down to 0. *)
Fixpoint only_whitespace_before (fuel : nat) (cs : list ascii) (prev_char_idx : Z) : bool :=
  match fuel with
  | O => true
  | Datatypes.S fuel' =>
      if prev_char_idx <? 0 then true
      else if negb (isspace (array_get NUL cs prev_char_idx)) then false
      else only_whitespace_before fuel' cs (prev_char_idx - 1)
  end.

(** One run of the body of the main loop, without the final [i++]. *)
Definition hl_body (cs : list ascii) (sz : Z) (st : HlLoop) : HlLoop :=
  let i := hl_i st in
  let tags := hl_tags st in
  let c := array_get NUL cs i in
  let next_is (d : ascii) := (i + 1 <? sz) && chr_eqb (array_get NUL cs (i + 1)) d in
  if in_multiline_comment_this_line st then
    let tags := array_set tags i HL_COMMENT in
    if chr_eqb c "*" && next_is "/"%char then
      mkHlLoop (i + 1) (array_set tags (i + 1) HL_COMMENT) false (in_string st)
               (string_quote_char st) (first_word_on_line_highlighted st) false
    else
      mkHlLoop i tags true (in_string st) (string_quote_char st)
               (first_word_on_line_highlighted st) false
  else if in_string st then
    let tags := array_set tags i HL_STRING in
    if chr_eqb c "\" && (i + 1 <? sz) then
      mkHlLoop (i + 1) (array_set tags (i + 1) HL_STRING) false true
               (string_quote_char st) (first_word_on_line_highlighted st) false
    else if chr_eqb c (string_quote_char st) then
      mkHlLoop i tags false false NUL (first_word_on_line_highlighted st) false
    else
      mkHlLoop i tags false true (string_quote_char st)
               (first_word_on_line_highlighted st) false
  else if chr_eqb c "'" || chr_eqb c "034" || chr_eqb c "`" then
    mkHlLoop i (array_set tags i HL_STRING) false true c
             (first_word_on_line_highlighted st) false
  else if chr_eqb c "/" && next_is "/"%char then
    mkHlLoop i (fill_tags tags i sz HL_COMMENT) false false (string_quote_char st)
             (first_word_on_line_highlighted st) true
  else if chr_eqb c "#" then
    mkHlLoop i (fill_tags tags i sz HL_COMMENT) false false (string_quote_char st)
             (first_word_on_line_highlighted st) true
  else if chr_eqb c "/" && next_is "*"%char then
    mkHlLoop (i + 1) (fill_tags tags i sz HL_COMMENT) true false (string_quote_char st)
             (first_word_on_line_highlighted st) false
  else if isdigit c then
    let '(j, tags) := scan_number (Z.to_nat (sz - i)) cs sz i i tags in
    mkHlLoop (j - 1) tags false false (string_quote_char st)
             (first_word_on_line_highlighted st) false
  else if is_double_operator cs i then
    mkHlLoop (i + 1) (array_set (array_set tags i HL_OPERATOR) (i + 1) HL_OPERATOR)
             false false (string_quote_char st)
             (first_word_on_line_highlighted st) false
  else if is_operator_char c then
    mkHlLoop i (array_set tags i HL_OPERATOR) false false (string_quote_char st)
             (first_word_on_line_highlighted st) false
  else if word_char c then
    let start := i in
    let j := scan_word (Z.to_nat (sz - i)) cs sz i in
    let '(tags, first) :=
      if negb (first_word_on_line_highlighted st) then
        if only_whitespace_before (Z.to_nat start) cs (start - 1)
        then (fill_tags tags start j HL_KEYWORD, true)
        else (tags, false)
      else (tags, true) in
    (* the closing loop over [start, i) rewrites HL_NORMAL by HL_NORMAL *)
    mkHlLoop (j - 1) tags false false (string_quote_char st) first false
  else st.

(** The main loop: body, then [i++], while [i < size] and no [break]. *)
Fixpoint hl_loop (fuel : nat) (cs : list ascii) (sz : Z) (st : HlLoop) : HlLoop :=
  match fuel with
  | O => st
  | Datatypes.S fuel' =>
      if hl_i st <? sz then
        let st := hl_body cs sz st in
        if hl_break st then st
        else hl_loop fuel' cs sz
               (mkHlLoop (hl_i st + 1) (hl_tags st) (in_multiline_comment_this_line st)
                         (in_string st) (string_quote_char st)
                         (first_word_on_line_highlighted st) false)
      else st
  end.

(** [update_highlighting(&E.lines[row])]. *)
Definition update_highlighting (row : Z) (E : EditorState) : EditorState :=
  let line := get_line E row in
  let tags :=
    match hl line with
    | Some h => if allocated line <? size line + 1
                then malloc junk_hl (allocated line) else h
    | None => malloc junk_hl (allocated line)
    end in
  let tags := fill_tags tags 0 (size line) HL_NORMAL in
  if negb (is_code_file E) then
    let E := update_line row (fun line => bump_revision (set_hl (Some tags) line)) E in
    set_in_multiline_comment_global false E
  else
    let st := hl_loop (Z.to_nat (size line)) (chars line) (size line)
                (mkHlLoop 0 tags (in_multiline_comment_global E) false NUL false false) in
    let E := update_line row
               (fun line => bump_revision (set_hl (Some (hl_tags st)) line)) E in
    set_in_multiline_comment_global (in_multiline_comment_this_line st) E.

(** The highlighting done by [editor_refresh_screen]: the flag is reset,
    then [update_highlighting] runs on the rows above the window and on
    each row of the window as it is drawn, that is on the rows
    [0 .. upto - 1] in order, as far as they exist. *)
Definition highlight_from_top (upto : Z) (E : EditorState) : EditorState :=
  let E := set_in_multiline_comment_global false E in
  for_loop (Z.to_nat upto) 0
           (fun i E => if i <? num_lines E then update_highlighting i E else E) E.

(** The tag of column [col] of row [row]. *)
Definition tag_at (E : EditorState) (row col : Z) : option HighlightType :=
  match hl (get_line E row) with
  | Some h => if col <? 0 then None else h !! Z.to_nat col
  | None => None
  end.

(** *** Command sequence machine *)

Definition reset_command_mode (E : EditorState) : EditorState :=
  let c := mkCommandState (array_set (cmd_sequence (cmd E)) 0 NUL) 0 0 false false in
  let E := set_cmd c E in
  let E := set_creative_mode false E in
  set_status_message "" E.

Definition set_last_key_time (now : Z) (E : EditorState) : EditorState :=
  let c := cmd E in
  set_cmd (mkCommandState (cmd_sequence c) (cmd_length c) now
                          (cmd_active c) (cmd_show_help c)) E.

(** [sequence[length++] = (char)key; sequence[length] = '\0']. *)
Definition append_key (key : Z) (E : EditorState) : EditorState :=
  let c := cmd E in
  let sq := array_set (cmd_sequence c) (cmd_length c) (char_of_int key) in
  let len := cmd_length c + 1 in
  let sq := array_set sq len NUL in
  set_cmd (mkCommandState sq len (cmd_last_key_time c)
                          (cmd_active c) (cmd_show_help c)) E.

(** [length--; sequence[length] = '\0']. *)
Definition drop_last_key (E : EditorState) : EditorState :=
  let c := cmd E in
  let len := cmd_length c - 1 in
  let sq := array_set (cmd_sequence c) len NUL in
  set_cmd (mkCommandState sq len (cmd_last_key_time c)
                          (cmd_active c) (cmd_show_help c)) E.

(** The sequence typed so far, as [printf("%s")] shows it. *)
Definition sequence_text (E : EditorState) : string :=
  string_of_list_ascii (cstr (cmd_sequence (cmd E))).

Section CommandMachine.
(** The three handlers reached from command mode talk to the prompt and
    to the rest of the editor; the machine is modelled over any
    implementation of them. *)
Variable enter_creative_mode : EditorState -> EditorState.
Variable autocomplete_command : EditorState -> EditorState.
Variable execute_command_sequence : EditorState -> EditorState.

(** [now] is the value of [time(NULL)] during the call.  The timeout test
    [now - last_key_time > COMMAND_TIMEOUT_MS / 1000.0] compares an
    integer with 1.5 and is written without the division. *)
Definition handle_command_mode_input (key now : Z) (E : EditorState) : EditorState :=
  if COMMAND_TIMEOUT_MS <? 1000 * (now - cmd_last_key_time (cmd E)) then
    reset_command_mode (set_status_message "Command timeout." E)
  else if (key =? code ":") && (0 <? cmd_length (cmd E)) then
    enter_creative_mode E
  else if key =? code "009" then
    set_last_key_time now (autocomplete_command E)
  else if isprint key && (cmd_length (cmd E) <? MAX_COMMAND_SEQUENCE_LENGTH - 1) then
    set_last_key_time now (append_key key E)
  else if (key =? KEY_ENTER) || (key =? code "010") then
    reset_command_mode (execute_command_sequence E)
  else if (key =? KEY_BACKSPACE) || (key =? 127) then
    if 0 <? cmd_length (cmd E) then
      let E := drop_last_key E in
      let E := set_last_key_time now E in
      set_status_message
        ("Command Mode: " ++ sequence_text E ++ " (Tab: suggestions, Esc: cancel)") E
    else reset_command_mode E
  else if key =? 27 then
    reset_command_mode (set_status_message "Command mode cancelled." E)
  else
    let E := set_status_message
               ("Command Mode: " ++ sequence_text E ++
                " (Invalid key or sequence too long)") E in
    set_last_key_time now E.
End CommandMachine.

(** The typed sequence: the first [length] cells of the array. *)
Definition collected (E : EditorState) : list ascii :=
  take (Z.to_nat (cmd_length (cmd E))) (cmd_sequence (cmd E)).

(** *** Start-up *)

(** The state left by [init_editor]; the global [E] starts zeroed. *)
Definition init_editor : EditorState :=
  let E :=
    mkEditorState [] 0 0 0 false [] false (-1) (-1)
      (mkCommandState (replicate (Z.to_nat MAX_COMMAND_SEQUENCE_LENGTH) NUL) 0 0 false false)
      false false false 0 0
      (replicate (Z.to_nat MAX_UNDO_HISTORY) null_action) 0
      (replicate (Z.to_nat MAX_UNDO_HISTORY) null_action) 0 in
  set_status_message
    "Help: Ctrl+S = Save | Ctrl+O = Open | Ctrl+Q = Quit | Ctrl+H = Help" E.

Definition editor_set_file_type (is_code : bool) (E : EditorState) : EditorState :=
  let E := set_is_code_file is_code E in
  mark_lines_dirty 0 (num_lines E - 1) E.

(** [prompt_file_type], where [is_code] tells whether the answer typed at
    the prompt starts with the letter c. *)
Definition prompt_file_type (is_code : bool) (E : EditorState) : EditorState :=
  let E := editor_set_file_type is_code E in
  set_status_message (if is_code then "File type set to: Code."
                      else "File type set to: Text.") E.

Definition init_undo_redo (E : EditorState) : EditorState :=
  let free_all n h :=
    for_loop (Z.to_nat n) 0
      (fun i h => array_set h i (free_undo_action (array_get null_action h i))) h in
  let E := set_undo (free_all (undo_head E) (undo_history E)) 0 E in
  set_redo (free_all (redo_head E) (redo_history E)) 0 E.

(** [main] without a file argument: one empty line. *)
Definition new_file (is_code : bool) : EditorState :=
  let E := editor_insert_line 0 [NUL] 0 init_editor in
  let E := set_dirty false E in
  let E := set_status_message "NEW FILE - Press Ctrl+S to save. Ctrl+H for help." E in
  let E := mark_lines_dirty 0 0 E in
  prompt_file_type is_code E.

(** [editor_load_file] on a file that opens: [content] lists its lines
    without their line ends.  The message that reports the load is
    replaced at once by the one of [prompt_file_type]. *)
Definition editor_load_file (content : list (list ascii)) (is_code : bool)
           (E : EditorState) : EditorState :=
  let E := set_cursor 0 0 (set_allocated_lines 0 (set_lines [] E)) in
  let E := fold_left
             (fun E line => editor_insert_line (num_lines E) (line ++ [NUL]) (zlen line) E)
             content E in
  let E := set_dirty false E in
  let E := mark_lines_dirty 0 (num_lines E - 1) E in
  let E := prompt_file_type is_code E in
  init_undo_redo E.

(** ** Auxiliary definitions used by the statements *)

(** The line that [editor_insert_line] builds. *)
Definition inserted_line (s : list ascii) (len : Z) : EditorLine :=
  let alloc := if len + 1 <? MAX_LINE_LENGTH_BUFFER
               then MAX_LINE_LENGTH_BUFFER else len + 1 in
  mkEditorLine (array_set (memcpy (malloc junk_char alloc) 0 s len) len NUL)
               len alloc None 0.

(** The state in which the anchor of the selection and the cursor have
    changed places. *)
Definition swap_endpoints (E : EditorState) : EditorState :=
  mkEditorState (lines E) (allocated_lines E) (visual_start_x E) (visual_start_y E)
    (dirty E) (status_message E) (in_multiline_comment_global E)
    (dirty_line_start E) (dirty_line_end E) (cmd E) (creative_mode E)
    (is_code_file E) (visual_mode E) (cursor_x E) (cursor_y E)
    (undo_history E) (undo_head E) (redo_history E) (redo_head E).

(** Document order on positions [(row, col)]. *)
Definition pos_le (y1 x1 y2 x2 : Z) : Prop := y1 < y2 \/ (y1 = y2 /\ x1 <= x2).

(** The case [CTRL('\\')] of the key dispatcher: command mode is entered
    with an empty sequence. *)
Definition enter_command_mode (now : Z) (E : EditorState) : EditorState :=
  let c := mkCommandState (array_set (cmd_sequence (cmd E)) 0 NUL) 0 now true
                          (cmd_show_help (cmd E)) in
  set_status_message "Command Mode: (type command sequence)" (set_cmd c E).

(** What the specification says of Backspace in command mode, for a
    handler [handle] of the keys: the last character goes away, and the
    machine is idle once the sequence is empty. *)
Definition backspace_as_specified (handle : Z -> Z -> EditorState -> EditorState)
           (key now : Z) (E : EditorState) : Prop :=
  let E' := handle key now E in
  collected E' = removelast (collected E) /\
  (collected E' = [] -> cmd_active (cmd E') = false).



(** The line has its tag buffer, with a cell for each of the [allocated]
    characters: the buffer as [update_highlighting] and the growth of a
    line allocate it. *)
Definition hl_allocated (l : EditorLine) : Prop :=
  match hl l with
  | Some h => allocated l <= zlen h
  | None => False
  end.

(** The tag buffer of a line, when there is one, has a cell for every
    character. *)
Definition hl_fits (l : EditorLine) : Prop :=
  match hl l with
  | Some h => size l <= zlen h
  | None => True
  end.

(** *** States used in the examples *)

(** The rows as [editor_refresh_screen] leaves them when the whole file
    is on the screen: every row has been through [update_highlighting] and
    has its [hl] buffer.  The main loop draws the screen before it reads a
    key. *)
Definition highlighted (E : EditorState) : EditorState :=
  highlight_from_top (num_lines E) E.

(** A new file, drawn, in which the letter a has been typed. *)
Definition typed_a : option EditorState :=
  editor_insert_char (code "a") (highlighted (new_file false)).

(** A file of three lines. *)
Definition three_lines : EditorState :=
  editor_load_file (map list_ascii_of_string ["ab"; "cd"; "ef"]%string) false
                   init_editor.

(** The line [hello] with the cursor after its second letter. *)
Definition hello_at_2 : EditorState :=
  set_cursor 0 2 (editor_load_file [list_ascii_of_string "hello"] false init_editor).


(** A hundred actions recorded in a new file: the undo history is full. *)
Definition full_history : EditorState :=
  Nat.iter 100
    (fun E => push_undo_action
                (mkUndoAction UNDO_DELETE_CHAR 0 (undo_head E) "a" None 0 0) E)
    (new_file false).

(** Command mode entered and the key S pressed, with handlers that do
    nothing. *)
Definition one_key_collected : EditorState :=
  handle_command_mode_input id id id (code "S") 0
    (enter_command_mode 0 (new_file false)).


(** ** Cursor keys *)

(** Key codes of curses.h. *)
Definition KEY_DOWN : Z := 258.
Definition KEY_UP : Z := 259.
Definition KEY_LEFT : Z := 260.
Definition KEY_RIGHT : Z := 261.
Definition KEY_DC : Z := 330.

(** The pointer [line] of [editor_move_cursor]: NULL when the cursor is
    on the row after the last one. *)
Definition line_at_cursor (E : EditorState) : option EditorLine :=
  if num_lines E <=? cursor_y E then None else Some (get_line E (cursor_y E)).

Definition editor_move_cursor (key : Z) (E : EditorState) : EditorState :=
  let E := mark_lines_dirty (cursor_y E) (cursor_y E) E in
  let line := line_at_cursor E in
  let E :=
    if key =? KEY_LEFT then
      if 0 <? cursor_x E then set_cursor_x (cursor_x E - 1) E
      else if 0 <? cursor_y E then
        let E := set_cursor_y (cursor_y E - 1) E in
        set_cursor_x (size (get_line E (cursor_y E))) E
      else E
    else if key =? KEY_RIGHT then
      match line with
      | Some l =>
          if cursor_x E <? size l then set_cursor_x (cursor_x E + 1) E
          else if (cursor_x E =? size l) && (cursor_y E <? num_lines E - 1) then
            let E := set_cursor_y (cursor_y E + 1) E in
            set_cursor_x 0 E
          else E
      | None => E
      end
    else if key =? KEY_UP then
      if 0 <? cursor_y E then set_cursor_y (cursor_y E - 1) E else E
    else if key =? KEY_DOWN then
      if cursor_y E <? num_lines E then set_cursor_y (cursor_y E + 1) E else E
    else E in
  let line := line_at_cursor E in
  let line_len := match line with Some l => size l | None => 0 end in
  let E := if line_len <? cursor_x E then set_cursor_x line_len E else E in
  mark_lines_dirty (cursor_y E) (cursor_y E) E.

(** The cursor is on a character of the text, at the end of a row, or at
    column 0 of the row after the last one. *)
Definition cursor_ok (E : EditorState) : Prop :=
  0 <= cursor_y E <= num_lines E /\
  0 <= cursor_x E <=
    (if cursor_y E <? num_lines E then size (get_line E (cursor_y E)) else 0).

(** No row has a negative size. *)
Definition sizes_ok (E : EditorState) : Prop :=
  forall row : Z, 0 <= row < num_lines E -> 0 <= size (get_line E row).

(** The cursor after [editor_move_cursor], as a function of the cursor
    before it. *)
Definition moved_cursor (key : Z) (E : EditorState) : Z * Z :=
  let y := cursor_y E in
  let x := cursor_x E in
  let n := num_lines E in
  let '(y1, x1) :=
    if key =? KEY_LEFT then
      if 0 <? x then (y, x - 1)
      else if 0 <? y then (y - 1, size (get_line E (y - 1))) else (y, x)
    else if key =? KEY_RIGHT then
      if n <=? y then (y, x)
      else if x <? size (get_line E y) then (y, x + 1)
      else if (x =? size (get_line E y)) && (y <? n - 1) then (y + 1, 0)
      else (y, x)
    else if key =? KEY_UP then (if 0 <? y then (y - 1, x) else (y, x))
    else if key =? KEY_DOWN then (if y <? n then (y + 1, x) else (y, x))
    else (y, x) in
  let len := if n <=? y1 then 0 else size (get_line E y1) in
  (y1, if len <? x1 then len else x1).


(** The case [KEY_DC] of [editor_process_keypress]: the Delete key. *)
Definition delete_key (E : EditorState) : option EditorState :=
  if cursor_x E <? size (get_line E (cursor_y E)) then
    (fun E =>
       let E := set_dirty true E in
       mark_lines_dirty (cursor_y E) (cursor_y E) E) <$>
      on_line (cursor_y E) (fun line => editor_line_delete_char line (cursor_x E)) E
  else if cursor_y E <? num_lines E - 1 then
    let deleted_content := strdup (chars (get_line E (cursor_y E + 1))) in
    let current_line_size := size (get_line E (cursor_y E)) in
    let ua := mkUndoAction UNDO_JOIN_LINES (cursor_y E) current_line_size NUL
                (Some deleted_content) (strlen deleted_content) 0 in
    let E := push_undo_action ua E in
    let next_line := get_line E (cursor_y E + 1) in
    let E := update_line (cursor_y E)
               (fun current_line =>
                  append_to_line current_line (chars next_line) (size next_line)) E in
    let E := editor_delete_line (cursor_y E + 1) E in
    let E := set_dirty true E in
    Some (mark_lines_dirty (cursor_y E) (cursor_y E) E)
  else Some E.


(** ** Tabs and rendered columns *)

Definition TAB_STOP : Z := 4.
Definition TAB : ascii := "009"%char.

(** One step of both conversion loops: the rendered column after the
    character [c] drawn at rendered column [rx]. *)
Definition render_step (c : ascii) (rx : Z) : Z :=
  if chr_eqb c TAB then rx + (TAB_STOP - Z.rem rx TAB_STOP) else rx + 1.

Definition editor_row_cx_to_rx (row : option EditorLine) (cx : Z) : Z :=
  match row with
  | None => 0
  | Some row =>
      for_loop (Z.to_nat cx) 0
        (fun i rx => render_step (array_get NUL (chars row) i) rx) 0
  end.

(** The loop of [editor_row_rx_to_cx], which returns from inside. *)
Fixpoint rx_to_cx_loop (fuel : nat) (row : EditorLine) (rx cur_rx cx : Z) : Z :=
  match fuel with
  | O => cx
  | Datatypes.S fuel' =>
      if cx <? size row then
        let cur_rx := render_step (array_get NUL (chars row) cx) cur_rx in
        if rx <? cur_rx then cx
        else rx_to_cx_loop fuel' row rx cur_rx (cx + 1)
      else cx
  end.

Definition editor_row_rx_to_cx (row : option EditorLine) (rx : Z) : Z :=
  match row with
  | None => 0
  | Some row => rx_to_cx_loop (Z.to_nat (size row)) row rx 0 0
  end.


(** The row a, TAB, b, c. *)
Definition tabbed_row : EditorLine :=
  mkEditorLine ("a"%char :: TAB :: "b"%char :: "c"%char :: [NUL]) 4 5 None 0.

(** ** Visual mode *)

Definition set_visual_mode (v : bool) (E : EditorState) : EditorState :=
  mkEditorState (lines E) (allocated_lines E) (cursor_x E) (cursor_y E) (dirty E)
    (status_message E) (in_multiline_comment_global E) (dirty_line_start E)
    (dirty_line_end E) (cmd E) (creative_mode E) (is_code_file E)
    v (visual_start_x E) (visual_start_y E) (undo_history E)
    (undo_head E) (redo_history E) (redo_head E).

Definition set_visual_start (x y : Z) (E : EditorState) : EditorState :=
  mkEditorState (lines E) (allocated_lines E) (cursor_x E) (cursor_y E) (dirty E)
    (status_message E) (in_multiline_comment_global E) (dirty_line_start E)
    (dirty_line_end E) (cmd E) (creative_mode E) (is_code_file E)
    (visual_mode E) x y (undo_history E)
    (undo_head E) (redo_history E) (redo_head E).

Definition is_char_in_selection (E : EditorState) (row col : Z) : bool :=
  if negb (visual_mode E) then false
  else
    let '(sy, sx, ey, ex) := get_normalized_selection_coords E in
    if (row <? sy) || (ey <? row) then false
    else if (row =? sy) && (row =? ey) then (sx <=? col) && (col <? ex)
    else if row =? sy then sx <=? col
    else if row =? ey then col <? ex
    else true.

Definition editor_toggle_visual_mode (E : EditorState) : EditorState :=
  let E := set_visual_mode (negb (visual_mode E)) E in
  let E :=
    if visual_mode E then
      let E := set_visual_start (cursor_x E) (cursor_y E) E in
      set_status_message "Visual Mode ON. Move cursor to select. ESC to cancel." E
    else set_status_message "Visual Mode OFF." E in
  mark_lines_dirty 0 (num_lines E - 1) E.

Definition editor_select_all (E : EditorState) : EditorState :=
  if num_lines E =? 0 then set_status_message "No text to select." E
  else
    let E := set_visual_mode true E in
    let E := set_visual_start 0 0 E in
    let E := set_cursor_y (num_lines E - 1) E in
    let E := set_cursor_x (size (get_line E (num_lines E - 1))) E in
    let E := set_status_message "All text selected. Use Ctrl+C/Ctrl+X to copy/cut." E in
    mark_lines_dirty 0 (num_lines E - 1) E.

(** Strict order of positions, row first. *)
Definition pos_lt (y1 x1 y2 x2 : Z) : Prop := y1 < y2 \/ (y1 = y2 /\ x1 < x2).


(** ** Line commands *)

Definition toupper (c : ascii) : ascii :=
  if islower c then char_of_int (code c - 32) else c.

(** The pointer [line] is taken before the call of [editor_insert_line]
    and used again after it, to fill the undo entry.  When the call has to
    grow the array of rows ([num_lines + 1 > allocated_lines]) the array is
    reallocated and [line] is left pointing into the old one: reading
    through it is a fault, [None].  Otherwise the row at [cursor_y] has
    not moved (the rows from [cursor_y + 1] on have) and [line] still
    points at it. *)
Definition editor_duplicate_line (E : EditorState) : option EditorState :=
  if num_lines E <=? cursor_y E then Some (set_status_message "Nothing to duplicate." E)
  else
    let line := get_line E (cursor_y E) in
    let rows_moved := allocated_lines E <? num_lines E + 1 in
    let E := editor_insert_line (cursor_y E + 1) (chars line) (size line) E in
    if rows_moved then None
    else
      let ua := mkUndoAction UNDO_INSERT_BLOCK (cursor_y E + 1) 0 NUL
                  (Some (strdup (chars line))) (size line) 1 in
      let E := push_undo_action ua E in
      Some (set_status_message "Line duplicated." E).

(** The loop of [editor_change_line_case] over the characters of a line. *)
Definition change_case (to_upper : bool) (line : EditorLine) : EditorLine :=
  set_chars
    (for_loop (Z.to_nat (size line)) 0
       (fun i cs =>
          array_set cs i
            ((if to_upper then toupper else tolower) (array_get NUL cs i)))
       (chars line))
    line.

Definition editor_change_line_case (to_upper : bool) (E : EditorState) : EditorState :=
  if num_lines E <=? cursor_y E then set_status_message "Nothing to change case." E
  else
    let line := get_line E (cursor_y E) in
    let ua := mkUndoAction UNDO_MODIFY_LINE_CASE (cursor_y E) 0 NUL
                (Some (strdup (chars line))) (size line) 1 in
    let E := push_undo_action ua E in
    let E := update_line (cursor_y E) (change_case to_upper) E in
    let E := mark_lines_dirty (cursor_y E) (cursor_y E) E in
    set_status_message
      (if to_upper then "Converted to uppercase." else "Converted to lowercase.") E.


(** ** Recently opened files *)

Definition MAX_RECENT_FILES : Z := 10.

(** The fields [recent_files] and [num_recent_files] of the editor state;
    [add_to_recent_files] reads and writes nothing else. *)
Record RecentFiles : Type := mkRecentFiles {
  recent_files : list (option (list ascii));   (* char *recent_files[MAX_RECENT_FILES] *)
  num_recent_files : Z
}.

(** [strcmp(a, b) == 0]; a read past the end of a buffer sees NUL. *)
Fixpoint strcmp_eq (a b : list ascii) : bool :=
  match a, b with
  | ca :: a', cb :: b' =>
      if chr_eqb ca cb then (if chr_eqb ca NUL then true else strcmp_eq a' b')
      else false
  | [], cb :: _ => chr_eqb NUL cb
  | ca :: _, [] => chr_eqb ca NUL
  | [], [] => true
  end.

(** [for (int j = start; j > 0; j--) body], run for [n] iterations. *)
Fixpoint for_loop_down {S : Type} (n : nat) (j : Z) (body : Z -> S -> S) (s : S) : S :=
  match n with
  | O => s
  | Datatypes.S n' => for_loop_down n' (j - 1) body (body j s)
  end.

(** The search loop: the first index below [num_recent_files] whose entry
    is not NULL and equal to [filename]. *)
Fixpoint find_recent (fuel : nat) (i : Z) (R : RecentFiles) (filename : list ascii)
  : option Z :=
  match fuel with
  | O => None
  | Datatypes.S fuel' =>
      if i <? num_recent_files R then
        match array_get None (recent_files R) i with
        | Some s =>
            if strcmp_eq s filename then Some i
            else find_recent fuel' (i + 1) R filename
        | None => find_recent fuel' (i + 1) R filename
        end
      else None
  end.

(** Move the entries below index [k] one slot up. *)
Definition shift_up_to (k : Z) (rf : list (option (list ascii)))
  : list (option (list ascii)) :=
  for_loop_down (Z.to_nat k) k
    (fun j rf => array_set rf j (array_get None rf (j - 1))) rf.

Definition add_to_recent_files (filename : option (list ascii)) (R : RecentFiles)
  : RecentFiles :=
  match filename with
  | None => R
  | Some filename =>
      match find_recent (Z.to_nat (num_recent_files R)) 0 R filename with
      | Some i =>
          let temp := array_get None (recent_files R) i in
          let rf := shift_up_to i (recent_files R) in
          mkRecentFiles (array_set rf 0 temp) (num_recent_files R)
      | None =>
          let R :=
            if num_recent_files R =? MAX_RECENT_FILES then
              mkRecentFiles (shift_up_to (MAX_RECENT_FILES - 1) (recent_files R))
                            (num_recent_files R - 1)
            else R in
          mkRecentFiles (array_set (recent_files R) 0 (Some (strdup filename)))
                        (num_recent_files R + 1)
      end
  end.

(** No entry below index [n] is the file [filename]. *)
Definition not_listed (filename : list ascii) (R : RecentFiles) (n : Z) : Prop :=
  forall (j : Z) (s : list ascii),
    0 <= j < n -> recent_files R !! Z.to_nat j = Some (Some s) ->
    strcmp_eq s filename = false.


(** A list of recent files with the entries a, b, c, and one with the
    single entry a. *)
Definition recent_abc : RecentFiles :=
  mkRecentFiles
    (map (fun s => Some (strdup (list_ascii_of_string s))) ["a"; "b"; "c"]%string
     ++ replicate 7 None) 3.

Definition recent_a : RecentFiles :=
  mkRecentFiles (Some (strdup (list_ascii_of_string "a")) :: replicate 9 None) 1.


(** ** Completion of command sequences *)

(** [strncasecmp(a, b, n) == 0]; a read past the end of a buffer sees NUL. *)
Fixpoint strncasecmp_eq (a b : list ascii) (n : nat) : bool :=
  match n with
  | O => true
  | Datatypes.S n' =>
      let ca := tolower (hd NUL a) in
      let cb := tolower (hd NUL b) in
      if chr_eqb ca cb then
        if chr_eqb ca NUL then true else strncasecmp_eq (tl a) (tl b) n'
      else false
  end.

(** [strcpy(dst, src)]: the characters of [src] and its terminator. *)
Definition strcpy (dst src : list ascii) : list ascii :=
  memcpy dst 0 src (strlen src + 1).

(** The table [commands] of [autocomplete_command], without its closing
    NULL. *)
Definition command_table : list (list ascii) :=
  map (fun s => list_ascii_of_string s ++ [NUL])
      ["S"; "SA"; "F"; "FN"; "FP"; "R"; "G"; "LN";
       "DU"; "UL"; "LL"; "DL"; "QW"; "I"; "R";
       "KN"; "TC"; "CT"; "Z"; "Y";
       "h"; "j"; "k"; "l"]%string.

Fixpoint autocomplete_loop (commands : list (list ascii)) (E : EditorState)
  : EditorState :=
  match commands with
  | [] => set_status_message ("No autocomplete match for: " ++ sequence_text E) E
  | c :: rest =>
      if strncasecmp_eq c (cmd_sequence (cmd E)) (Z.to_nat (cmd_length (cmd E))) then
        let c0 := cmd E in
        let E := set_cmd (mkCommandState (strcpy (cmd_sequence c0) c) (strlen c)
                            (cmd_last_key_time c0) (cmd_active c0) (cmd_show_help c0)) E in
        set_status_message
          ("Command Mode: " ++ sequence_text E ++ " (Tab: suggestions, Esc: cancel)") E
      else autocomplete_loop rest E
  end.

Definition autocomplete_command (E : EditorState) : EditorState :=
  autocomplete_loop command_table E.


(** A string of the table: NUL-terminated and short enough for the
    sequence buffer. *)
Definition fits_sequence (c : list ascii) : Prop :=
  take (Z.to_nat (strlen c + 1)) c = cstr c ++ [NUL] /\
  strlen c + 1 <= MAX_COMMAND_SEQUENCE_LENGTH.

(** Command mode entered in a new file and the key l pressed. *)
Definition l_key_collected : EditorState :=
  handle_command_mode_input id id id (code "l") 0
    (enter_command_mode 0 (new_file false)).


(** The line after the optional growth of [editor_line_insert_char]. *)
Definition grown (line : EditorLine) : EditorLine :=
  if allocated line <? size line + 2
  then realloc_line (if allocated line =? 0 then MAX_LINE_LENGTH_BUFFER
                     else allocated line * 2) line
  else line.

(** ** Facts about arrays and blocks *)

Lemma zlen_nonneg {A : Type} (a : list A) : 0 <= zlen a.
Proof. unfold zlen. lia. Qed.

Lemma length_array_set {A : Type} (a : list A) (i : Z) (v : A) :
  length (array_set a i v) = length a.
Proof. unfold array_set. destruct (i <? 0); [done | apply length_insert]. Qed.

Lemma zlen_array_set {A : Type} (a : list A) (i : Z) (v : A) :
  zlen (array_set a i v) = zlen a.
Proof. unfold zlen. by rewrite length_array_set. Qed.

Lemma array_get_lookup {A : Type} (d : A) (a : list A) (i : Z) (v : A) :
  0 <= i -> a !! Z.to_nat i = Some v -> array_get d a i = v.
Proof.
  intros Hi Hv. unfold array_get.
  destruct (Z.ltb_spec i 0); [lia |]. by rewrite Hv.
Qed.

Lemma array_get_set_eq {A : Type} (d : A) (a : list A) (i : Z) (v : A) :
  0 <= i < zlen a -> array_get d (array_set a i v) i = v.
Proof.
  unfold zlen. intros Hi. apply array_get_lookup; [lia |].
  unfold array_set. destruct (Z.ltb_spec i 0); [lia |].
  apply list_lookup_insert_eq. lia.
Qed.

Lemma array_get_set_ne {A : Type} (d : A) (a : list A) (i j : Z) (v : A) :
  0 <= j -> i <> j -> array_get d (array_set a i v) j = array_get d a j.
Proof.
  intros Hj Hne. unfold array_get, array_set.
  destruct (Z.ltb_spec j 0); [lia |].
  destruct (Z.ltb_spec i 0); [done |].
  rewrite list_lookup_insert_ne; [done | lia].
Qed.

Lemma take_array_set_ge {A : Type} (a : list A) (i : Z) (v : A) (n : nat) :
  (n <= Z.to_nat i)%nat -> take n (array_set a i v) = take n a.
Proof.
  intros Hn. unfold array_set. destruct (i <? 0); [done |].
  by apply take_insert_ge.
Qed.

Lemma length_block_write {A : Type} (a data : list A) (off : Z) :
  length (block_write a off data) = length a.
Proof.
  unfold block_write. rewrite length_take, !length_app, length_take, length_drop. lia.
Qed.

Lemma block_write_fits {A : Type} (a data : list A) (off : Z) :
  (Z.to_nat off + length data <= length a)%nat ->
  block_write a off data =
  take (Z.to_nat off) a ++ data ++ drop (Z.to_nat off + length data) a.
Proof.
  intros Hfit. unfold block_write. apply take_ge.
  rewrite !length_app, length_take, length_drop. lia.
Qed.

Lemma length_block_read {A : Type} (a : list A) (off n : Z) :
  (Z.to_nat off + Z.to_nat n <= length a)%nat ->
  length (block_read a off n) = Z.to_nat n.
Proof. intros H. unfold block_read. rewrite length_take, length_drop. lia. Qed.

Lemma length_malloc {A : Type} (junk : A) (n : Z) : length (malloc junk n) = Z.to_nat n.
Proof. apply length_replicate. Qed.

Lemma length_realloc {A : Type} (junk : A) (a : list A) (n : Z) :
  length (realloc junk a n) = Z.to_nat n.
Proof.
  unfold realloc. rewrite length_app, length_take, length_replicate. lia.
Qed.

Lemma take_realloc {A : Type} (junk : A) (a : list A) (n : Z) (k : nat) :
  (k <= length a)%nat -> (k <= Z.to_nat n)%nat ->
  take k (realloc junk a n) = take k a.
Proof.
  intros Hk Hn. unfold realloc.
  rewrite take_app_le by (rewrite length_take; lia).
  rewrite take_take. f_equal. lia.
Qed.

Lemma for_loop_snoc {S : Type} (n : nat) (i : Z) (body : Z -> S -> S) (s : S) :
  for_loop (Datatypes.S n) i body s = body (i + Z.of_nat n) (for_loop n i body s).
Proof.
  revert i s. induction n as [| n IH]; intros i s.
  - simpl. by rewrite Z.add_0_r.
  - change (for_loop (Datatypes.S (Datatypes.S n)) i body s)
      with (for_loop (Datatypes.S n) (i + 1) body (body i s)).
    rewrite IH. simpl for_loop. f_equal. lia.
Qed.

(** ** Line buffer: bounds checks and NUL termination *)

Lemma zlen_memmove {A : Type} (a : list A) (dst src n : Z) :
  zlen (memmove a dst src n) = zlen a.
Proof. unfold zlen, memmove. by rewrite length_block_write. Qed.

Lemma zlen_memcpy {A : Type} (a s : list A) (dst n : Z) :
  zlen (memcpy a dst s n) = zlen a.
Proof. unfold zlen, memcpy. by rewrite length_block_write. Qed.

Lemma zlen_realloc {A : Type} (junk : A) (a : list A) (n : Z) :
  0 <= n -> zlen (realloc junk a n) = n.
Proof. intros Hn. unfold zlen. rewrite length_realloc. lia. Qed.

Lemma zlen_malloc {A : Type} (junk : A) (n : Z) : 0 <= n -> zlen (malloc junk n) = n.
Proof. intros Hn. unfold zlen. rewrite length_malloc. lia. Qed.

Lemma line_ok_terminated (cs : list ascii) (sz al : Z)
      (h : option (list HighlightType)) (r : Z) (cs0 : list ascii) :
  cs = array_set cs0 sz NUL -> zlen cs0 = al -> 0 <= sz < al ->
  line_ok (mkEditorLine cs sz al h r).
Proof.
  intros -> Hlen Hsz. unfold line_ok; simpl.
  rewrite zlen_array_set. split; [done |]. split; [done |].
  apply array_get_set_eq. lia.
Qed.

(** [editor_line_insert_char] returns when the index is out of range, when
    the line has to grow (the growth gives it an [hl] buffer) or when the
    line has an [hl] buffer; it faults in the one remaining case. *)
Lemma insert_char_returns (line : EditorLine) (at_ c : Z) :
  (at_ < 0 \/ size line < at_) \/ allocated line < size line + 2 \/ hl line <> None ->
  exists line', editor_line_insert_char line at_ c = Some line'.
Proof.
  intros Hcase. unfold editor_line_insert_char.
  destruct ((at_ <? 0) || (size line <? at_)) eqn:Hguard; [by eexists |].
  destruct (Z.ltb_spec (allocated line) (size line + 2)) as [Hgrow | Hroom].
  - cbn [hl realloc_line realloc_hl]. by eexists.
  - destruct (hl line) eqn:Hhl; [by eexists |].
    destruct Hcase as [? | [? | ?]]; [lia | lia | done].
Qed.

Lemma insert_char_faults (line : EditorLine) (at_ c : Z) :
  0 <= at_ <= size line -> size line + 2 <= allocated line -> hl line = None ->
  editor_line_insert_char line at_ c = None.
Proof.
  intros Hat Hroom Hhl. unfold editor_line_insert_char.
  assert (((at_ <? 0) || (size line <? at_)) = false) as -> by lia.
  destruct (Z.ltb_spec (allocated line) (size line + 2)); [lia |].
  by rewrite Hhl.
Qed.

(** The line that [editor_line_insert_char] returns for an index in
    range. *)
Lemma insert_char_result (line : EditorLine) (at_ c : Z) (line' : EditorLine) :
  0 <= at_ <= size line ->
  editor_line_insert_char line at_ c = Some line' ->
  let g := grown line in
  chars line' =
    array_set
      (array_set (memmove (chars g) (at_ + 1) at_ (size g - at_ + 1)) at_ (char_of_int c))
      (size g + 1) NUL /\
  size line' = size line + 1 /\ allocated line' = allocated g /\
  hl line' <> None.
Proof.
  intros Hat Hres g. unfold editor_line_insert_char in Hres.
  assert (((at_ <? 0) || (size line <? at_)) = false) as Hguard by lia.
  rewrite Hguard in Hres. fold (grown line) in Hres. fold g in Hres.
  assert (Hsz : size g = size line).
  { unfold g, grown. by destruct (allocated line <? size line + 2). }
  destruct (hl g); [| done]. injection Hres as <-. cbn [chars size allocated hl].
  by rewrite Hsz.
Qed.

Lemma delete_char_returns (line : EditorLine) (at_ : Z) :
  (at_ < 0 \/ size line <= at_) \/ hl line <> None ->
  exists line', editor_line_delete_char line at_ = Some line'.
Proof.
  intros Hcase. unfold editor_line_delete_char.
  destruct ((at_ <? 0) || (size line <=? at_)) eqn:Hguard; [by eexists |].
  destruct (hl line) eqn:Hhl; [by eexists |].
  destruct Hcase as [? | ?]; [lia | done].
Qed.

Lemma delete_char_faults (line : EditorLine) (at_ : Z) :
  0 <= at_ < size line -> hl line = None -> editor_line_delete_char line at_ = None.
Proof.
  intros Hat Hhl. unfold editor_line_delete_char.
  assert (((at_ <? 0) || (size line <=? at_)) = false) as -> by lia.
  by rewrite Hhl.
Qed.

Lemma delete_char_result (line : EditorLine) (at_ : Z) (line' : EditorLine) :
  0 <= at_ < size line ->
  editor_line_delete_char line at_ = Some line' ->
  chars line' =
    array_set (memmove (chars line) at_ (at_ + 1) (size line - at_)) (size line - 1) NUL /\
  size line' = size line - 1 /\ allocated line' = allocated line /\
  hl line' <> None.
Proof.
  intros Hat Hres. unfold editor_line_delete_char in Hres.
  assert (((at_ <? 0) || (size line <=? at_)) = false) as Hguard by lia.
  rewrite Hguard in Hres.
  destruct (hl line); [| done]. by injection Hres as <-.
Qed.

Lemma line_ok_insert_char (line : EditorLine) (at_ c : Z) (line' : EditorLine) :
  line_ok line -> editor_line_insert_char line at_ c = Some line' -> line_ok line'.
Proof.
  intros Hok Hres. unfold editor_line_insert_char in Hres.
  destruct ((at_ <? 0) || (size line <? at_)) eqn:Hguard;
    [by injection Hres as <- |].
  destruct Hok as (Hlen & Hsz & _).
  destruct (Z.ltb_spec (allocated line) (size line + 2)) as [Hgrow | Hroom].
  - assert ((allocated line =? 0) = false) as Hz by lia. rewrite Hz in Hres.
    cbn [hl realloc_line realloc_hl] in Hres. injection Hres as <-.
    eapply line_ok_terminated; [reflexivity | | simpl; lia].
    simpl. rewrite zlen_array_set, zlen_memmove. apply zlen_realloc. lia.
  - destruct (hl line); [| done]. injection Hres as <-.
    eapply line_ok_terminated; [reflexivity | | lia].
    by rewrite zlen_array_set, zlen_memmove.
Qed.

Lemma line_ok_delete_char (line : EditorLine) (at_ : Z) (line' : EditorLine) :
  line_ok line -> editor_line_delete_char line at_ = Some line' -> line_ok line'.
Proof.
  intros Hok Hres. unfold editor_line_delete_char in Hres.
  destruct ((at_ <? 0) || (size line <=? at_)) eqn:Hguard;
    [by injection Hres as <- |].
  destruct Hok as (Hlen & Hsz & _).
  destruct (hl line); [| done]. injection Hres as <-.
  eapply line_ok_terminated; [reflexivity | | lia].
  by rewrite zlen_memmove.
Qed.

Lemma hl_allocated_has_hl (line : EditorLine) : hl_allocated line -> hl line <> None.
Proof. unfold hl_allocated. by destruct (hl line). Qed.

(** The two character operations keep the tag buffer as long as the
    character buffer. *)
Lemma hl_allocated_insert_char (line : EditorLine) (at_ c : Z) (line' : EditorLine) :
  0 <= allocated line -> hl_allocated line ->
  editor_line_insert_char line at_ c = Some line' -> hl_allocated line'.
Proof.
  intros Hal Hhl Hres. unfold editor_line_insert_char in Hres.
  destruct ((at_ <? 0) || (size line <? at_)) eqn:Hguard;
    [by injection Hres as <- |].
  destruct (Z.ltb_spec (allocated line) (size line + 2)) as [Hgrow | Hroom].
  - cbn [hl realloc_line realloc_hl allocated size] in Hres. injection Hres as <-.
    unfold hl_allocated. cbn [hl allocated]. rewrite zlen_memmove.
    set (n := if allocated line =? 0 then MAX_LINE_LENGTH_BUFFER else allocated line * 2).
    assert (Hn : 0 <= n).
    { unfold n, MAX_LINE_LENGTH_BUFFER. destruct (allocated line =? 0); lia. }
    destruct (hl line); [rewrite zlen_realloc | rewrite zlen_malloc]; lia.
  - unfold hl_allocated in Hhl. destruct (hl line) as [h |]; [| done].
    injection Hres as <-. unfold hl_allocated. cbn [hl allocated].
    by rewrite zlen_memmove.
Qed.

Lemma hl_allocated_delete_char (line : EditorLine) (at_ : Z) (line' : EditorLine) :
  hl_allocated line -> editor_line_delete_char line at_ = Some line' -> hl_allocated line'.
Proof.
  intros Hhl Hres. unfold editor_line_delete_char in Hres.
  destruct ((at_ <? 0) || (size line <=? at_)) eqn:Hguard;
    [by injection Hres as <- |].
  unfold hl_allocated in Hhl. destruct (hl line) as [h |]; [| done].
  injection Hres as <-. unfold hl_allocated. cbn [hl allocated].
  by rewrite zlen_memmove.
Qed.

Lemma lines_insert_line (at_ : Z) (s : list ascii) (len : Z) (E : EditorState) :
  0 <= at_ <= num_lines E ->
  lines (editor_insert_line at_ s len E) =
  take (Z.to_nat at_) (lines E) ++ inserted_line s len :: drop (Z.to_nat at_) (lines E).
Proof.
  intros Hat. unfold editor_insert_line.
  assert (((at_ <? 0) || (num_lines E <? at_)) = false) as -> by lia.
  by destruct (allocated_lines E <? num_lines E + 1).
Qed.

Lemma line_ok_inserted_line (s : list ascii) (len : Z) :
  0 <= len -> line_ok (inserted_line s len).
Proof.
  intros Hlen. unfold inserted_line, MAX_LINE_LENGTH_BUFFER.
  eapply line_ok_terminated; [reflexivity | |].
  - rewrite zlen_memcpy. apply zlen_malloc.
    destruct (Z.ltb_spec (len + 1) 256); lia.
  - destruct (Z.ltb_spec (len + 1) 256); lia.
Qed.

Lemma get_line_lookup (E : EditorState) (row : Z) (l : EditorLine) :
  0 <= row -> lines E !! Z.to_nat row = Some l -> get_line E row = l.
Proof. intros. unfold get_line. by apply array_get_lookup. Qed.

Lemma get_line_insert_line (at_ : Z) (s : list ascii) (len : Z) (E : EditorState) :
  0 <= at_ <= num_lines E ->
  get_line (editor_insert_line at_ s len E) at_ = inserted_line s len.
Proof.
  intros Hat. apply get_line_lookup; [lia |].
  rewrite lines_insert_line by done.
  unfold num_lines, zlen in Hat.
  rewrite lookup_app_r by (rewrite length_take; lia).
  rewrite length_take. replace (Z.to_nat at_ - _)%nat with 0%nat by lia. done.
Qed.

(** C10. Every line-buffer mutation keeps the NUL terminator in step with
    the recorded size.  Take a line whose buffer has [allocated] cells,
    with [0 <= size < allocated] and [chars[size] = NUL], and whose tag
    buffer has been allocated.  Whatever the index,
    [editor_line_insert_char] and [editor_line_delete_char] return a line
    with [chars[size] = NUL] and [size < allocated], which is again such a
    line.  (On a line whose [hl] is still NULL the two operations fault,
    see [insert_char_faults] and [delete_char_faults]: there is no line
    after the call.)  The line that [editor_insert_line] creates at a
    valid row has the properties too, the other lines being kept as they
    were. *)
Theorem line_mutations_keep_nul_termination :
  forall (line : EditorLine) (E : EditorState) (at_ c : Z) (s : list ascii) (len : Z),
    (line_ok line -> hl_allocated line ->
     exists line', editor_line_insert_char line at_ c = Some line' /\
                   array_get NUL (chars line') (size line') = NUL /\
                   size line' < allocated line' /\
                   line_ok line' /\ hl_allocated line') /\
    (line_ok line -> hl_allocated line ->
     exists line', editor_line_delete_char line at_ = Some line' /\
                   array_get NUL (chars line') (size line') = NUL /\
                   size line' < allocated line' /\
                   line_ok line' /\ hl_allocated line') /\
    (0 <= at_ <= num_lines E -> 0 <= len ->
     let l := get_line (editor_insert_line at_ s len E) at_ in
     array_get NUL (chars l) (size l) = NUL /\
     size l < allocated l /\
     line_ok l /\
     (Forall line_ok (lines E) ->
      Forall line_ok (lines (editor_insert_line at_ s len E)))).
Proof.
  intros line E at_ c s len. split; [| split].
  - intros Hok Hhl.
    destruct (insert_char_returns line at_ c) as [line' Hres].
    { right; right. by apply hl_allocated_has_hl. }
    pose proof (line_ok_insert_char _ _ _ _ Hok Hres) as Hok'.
    exists line'. split; [done |].
    split; [apply Hok' |]. split; [apply Hok' |]. split; [done |].
    apply (hl_allocated_insert_char line at_ c); [| done | done].
    destruct Hok as (_ & ? & _). lia.
  - intros Hok Hhl.
    destruct (delete_char_returns line at_) as [line' Hres].
    { right. by apply hl_allocated_has_hl. }
    pose proof (line_ok_delete_char _ _ _ Hok Hres) as Hok'.
    exists line'. split; [done |].
    split; [apply Hok' |]. split; [apply Hok' |]. split; [done |].
    by apply (hl_allocated_delete_char line at_).
  - intros Hat Hlen. cbv zeta. rewrite get_line_insert_line by done.
    pose proof (line_ok_inserted_line s len Hlen) as Hok.
    split; [apply Hok |]. split; [apply Hok |]. split; [done |].
    intros Hall. rewrite lines_insert_line by done.
    apply Forall_app. split; [by apply Forall_take |].
    apply Forall_cons. split; [done | by apply Forall_drop].
Qed.

(** C7. Index errors are rejected before any mutation: with an index out
    of range each of the four primitives returns, and returns its argument
    unchanged,
    the line for the two character operations and the whole editor state
    (document, sizes, line count and everything else) for the two line
    operations. *)
Theorem index_errors_leave_everything_unchanged :
  forall (line : EditorLine) (E : EditorState) (at_ c : Z) (s : list ascii) (len : Z),
    (at_ < 0 \/ at_ > size line -> editor_line_insert_char line at_ c = Some line) /\
    (at_ < 0 \/ at_ >= size line -> editor_line_delete_char line at_ = Some line) /\
    (at_ < 0 \/ at_ > num_lines E -> editor_insert_line at_ s len E = E) /\
    (at_ < 0 \/ at_ >= num_lines E -> editor_delete_line at_ E = E).
Proof.
  intros line E at_ c s len. repeat split; intros Hbad.
  - unfold editor_line_insert_char.
    by assert (((at_ <? 0) || (size line <? at_)) = true) as -> by lia.
  - unfold editor_line_delete_char.
    by assert (((at_ <? 0) || (size line <=? at_)) = true) as -> by lia.
  - unfold editor_insert_line.
    by assert (((at_ <? 0) || (num_lines E <? at_)) = true) as -> by lia.
  - unfold editor_delete_line.
    by assert (((at_ <? 0) || (num_lines E <=? at_)) = true) as -> by lia.
Qed.

(** ** Cursor-level deletion at the edges *)

(** C9. [editor_delete_char] with the cursor at row 0, column 0, or with
    the cursor row equal to the number of lines, returns, and returns the
    editor state it was given: document, cursor, dirty flag and both logs are
    unchanged and no undo action is pushed. *)
Theorem delete_char_at_edges_is_noop :
  forall E : EditorState,
    (cursor_x E = 0 /\ cursor_y E = 0) \/ cursor_y E = num_lines E ->
    editor_delete_char E = Some E.
Proof.
  intros E Hedge. unfold editor_delete_char.
  destruct (Z.eqb_spec (cursor_y E) (num_lines E)) as [| Hrow]; [done |].
  destruct Hedge as [[Hx Hy] | Hy]; [| done].
  by rewrite Hx, Hy.
Qed.

(** ** Selection normalization *)

(** C4. [get_normalized_selection_coords] gives the same [(sy, sx, ey, ex)]
    when the anchor and the cursor are exchanged, and its result is
    ordered: [(sy, sx) <= (ey, ex)] in document order, rows first and
    columns on equal rows. *)
Theorem normalized_selection_symmetric_and_ordered :
  forall E : EditorState,
    get_normalized_selection_coords (swap_endpoints E) =
    get_normalized_selection_coords E /\
    let '(sy, sx, ey, ex) := get_normalized_selection_coords E in
    pos_le sy sx ey ex.
Proof.
  intros E. unfold get_normalized_selection_coords, swap_endpoints, pos_le; simpl.
  destruct (Z.ltb_spec (visual_start_y E) (cursor_y E));
    destruct (Z.ltb_spec (cursor_y E) (visual_start_y E));
    destruct (Z.ltb_spec (visual_start_x E) (cursor_x E));
    destruct (Z.ltb_spec (cursor_x E) (visual_start_x E));
    (split; [repeat f_equal; lia | lia]).
Qed.

(** ** Undo log: capacity and pruning of the redo log *)

Lemma length_for_loop_set {A : Type} (f : Z -> list A -> A) (n : nat) (i : Z)
      (h : list A) :
  length (for_loop n i (fun k h => array_set h k (f k h)) h) = length h.
Proof.
  revert i h. induction n as [| n IH]; intros i h; simpl; [done |].
  by rewrite IH, length_array_set.
Qed.

(** The loop [for (i = 0; i < k; i++) h[i] = h[i + 1]], cell by cell. *)
Lemma shift_loop_lookup (h : list UndoAction) (k : nat) :
  (k < length h)%nat ->
  forall j : nat,
    for_loop k 0 (fun i h => array_set h i (array_get null_action h (i + 1))) h !! j =
    if decide (j < k)%nat then h !! Datatypes.S j else h !! j.
Proof.
  induction k as [| k IH]; intros Hk j.
  - cbn [for_loop]. case_decide; [lia | done].
  - rewrite for_loop_snoc, Z.add_0_l.
    specialize (IH ltac:(lia)).
    set (prev := for_loop k 0 _ h) in *.
    assert (Hlen : length prev = length h)
      by apply (length_for_loop_set (fun i h => array_get null_action h (i + 1))).
    destruct (lookup_lt_is_Some_2 h (Datatypes.S k) Hk) as [x Hx].
    assert (Hread : array_get null_action prev (Z.of_nat k + 1) = x).
    { apply array_get_lookup; [lia |].
      replace (Z.to_nat (Z.of_nat k + 1)) with (Datatypes.S k) by lia.
      rewrite IH. case_decide; [lia | done]. }
    rewrite Hread. unfold array_set.
    destruct (Z.ltb_spec (Z.of_nat k) 0); [lia |]. rewrite Nat2Z.id.
    destruct (decide (j = k)) as [-> | Hne].
    + rewrite list_lookup_insert_eq by lia. case_decide; [done | lia].
    + rewrite list_lookup_insert_ne by done. rewrite IH.
      repeat case_decide; try lia; done.
Qed.

Lemma evict_oldest_log (h : list UndoAction) :
  length h = Z.to_nat MAX_UNDO_HISTORY ->
  length (evict_oldest h) = length h /\
  take (Z.to_nat (MAX_UNDO_HISTORY - 1)) (evict_oldest h) = drop 1 h.
Proof.
  unfold evict_oldest, MAX_UNDO_HISTORY. intros Hlen.
  set (h0 := array_set h 0 _).
  assert (Hlen0 : length h0 = length h) by apply length_array_set.
  split.
  - by rewrite (length_for_loop_set (fun i h => array_get null_action h (i + 1))).
  - apply list_eq. intros j. rewrite lookup_take, lookup_drop.
    case_decide as Hj.
    + rewrite shift_loop_lookup by lia. case_decide; [| lia].
      unfold h0, array_set. simpl. by rewrite list_lookup_insert_ne.
    + symmetry. apply lookup_ge_None_2. lia.
Qed.

Lemma log_push (h : list UndoAction) (n : Z) (v : UndoAction) :
  0 <= n < zlen h ->
  take (Z.to_nat (n + 1)) (array_set h n v) = take (Z.to_nat n) h ++ [v].
Proof.
  unfold zlen. intros Hn. unfold array_set.
  destruct (Z.ltb_spec n 0); [lia |].
  replace (Z.to_nat (n + 1)) with (Datatypes.S (Z.to_nat n)) by lia.
  rewrite (take_S_r _ _ v) by (apply list_lookup_insert_eq; lia).
  by rewrite take_insert_ge.
Qed.

Lemma redo_cleared (E : EditorState) :
  redo_head (clear_redo_history E) = 0 /\ redo_log (clear_redo_history E) = [] /\
  undo_history (clear_redo_history E) = undo_history E /\
  undo_head (clear_redo_history E) = undo_head E.
Proof. by unfold redo_log, clear_redo_history. Qed.

(** C3. After [push_undo_action], on a history array of
    [MAX_UNDO_HISTORY] slots holding between 0 and [MAX_UNDO_HISTORY]
    entries: the redo log is empty; the undo log holds at most
    [MAX_UNDO_HISTORY] entries; below capacity the new entry is appended
    to the old ones; at capacity the oldest entry is gone, the others
    follow in their order and the new entry is last. *)
Theorem push_undo_bounded_evicts_oldest_clears_redo :
  forall (action : UndoAction) (E : EditorState),
    zlen (undo_history E) = MAX_UNDO_HISTORY ->
    0 <= undo_head E <= MAX_UNDO_HISTORY ->
    let E' := push_undo_action action E in
    redo_head E' = 0 /\ redo_log E' = [] /\
    0 < undo_head E' <= MAX_UNDO_HISTORY /\
    zlen (undo_log E') = undo_head E' /\
    (undo_head E < MAX_UNDO_HISTORY ->
     undo_log E' = undo_log E ++ [stored action]) /\
    (undo_head E = MAX_UNDO_HISTORY ->
     undo_log E' = drop 1 (undo_log E) ++ [stored action]).
Proof.
  intros action E Hlen Hhead E'. subst E'. unfold push_undo_action.
  match goal with |- context [clear_redo_history ?X] =>
    destruct (redo_cleared X) as (-> & -> & Hh & Hn) end.
  unfold undo_log. rewrite Hh, Hn. clear Hh Hn.
  unfold MAX_UNDO_HISTORY, zlen in *.
  destruct (Z.eqb_spec (undo_head E) 100) as [Hfull | Hroom]; simpl.
  - destruct (evict_oldest_log (undo_history E)) as [Hl Ht];
      [unfold MAX_UNDO_HISTORY; lia |]. unfold MAX_UNDO_HISTORY in Ht.
    rewrite Hfull. change (100 - 1 + 1) with (99 + 1).
    rewrite log_push by (unfold zlen; lia).
    rewrite Ht.
    rewrite (take_ge (undo_history E)) by lia.
    repeat split; try done; try lia.
    rewrite length_app, length_drop. simpl. lia.
  - rewrite log_push by (unfold zlen; lia).
    repeat split; try done; try lia.
    rewrite length_app, length_take. simpl. lia.
Qed.

(** ** Command sequence machine: Backspace *)

Lemma collected_drop_last_key (E : EditorState) :
  1 <= cmd_length (cmd E) <= zlen (cmd_sequence (cmd E)) ->
  collected (drop_last_key E) = removelast (collected E).
Proof.
  unfold zlen. intros Hlen. unfold collected, drop_last_key; simpl.
  rewrite take_array_set_ge by lia.
  replace (Z.to_nat (cmd_length (cmd E)))
    with (Datatypes.S (Z.to_nat (cmd_length (cmd E) - 1))) by lia.
  symmetry. apply removelast_firstn. lia.
Qed.

(** C8, as the code has it. Backspace ([KEY_BACKSPACE] or 127) arriving
    before the timeout, in a machine whose sequence array has
    [MAX_COMMAND_SEQUENCE_LENGTH] cells: with one character or more
    collected, the last one is removed, the sequence stays NUL-terminated
    and the active flag is left as it was, so the machine stays in command
    mode also when the sequence has become empty; with nothing collected,
    the machine is reset to the idle state. *)
Theorem backspace_removes_last_key_and_stays_active :
  forall (enter_creative_mode autocomplete_command execute_command_sequence
            : EditorState -> EditorState)
         (key now : Z) (E : EditorState),
    key = KEY_BACKSPACE \/ key = 127 ->
    1000 * (now - cmd_last_key_time (cmd E)) <= COMMAND_TIMEOUT_MS ->
    zlen (cmd_sequence (cmd E)) = MAX_COMMAND_SEQUENCE_LENGTH ->
    let E' := handle_command_mode_input enter_creative_mode autocomplete_command
                execute_command_sequence key now E in
    (1 <= cmd_length (cmd E) < MAX_COMMAND_SEQUENCE_LENGTH ->
     cmd_length (cmd E') = cmd_length (cmd E) - 1 /\
     collected E' = removelast (collected E) /\
     array_get NUL (cmd_sequence (cmd E')) (cmd_length (cmd E')) = NUL /\
     cmd_active (cmd E') = cmd_active (cmd E)) /\
    (cmd_length (cmd E) = 0 ->
     cmd_active (cmd E') = false /\ cmd_length (cmd E') = 0 /\ collected E' = []).
Proof.
  intros ecm ac ecs key now E Hkey Htime Hlen E'. subst E'.
  unfold handle_command_mode_input, COMMAND_TIMEOUT_MS, MAX_COMMAND_SEQUENCE_LENGTH,
    KEY_BACKSPACE, KEY_ENTER, isprint in *.
  destruct (Z.ltb_spec 1500 (1000 * (now - cmd_last_key_time (cmd E)))); [lia |].
  assert (Hother : (key =? code ":") = false /\ (key =? code "009") = false /\
                   ((32 <=? key) && (key <=? 126)) = false /\
                   ((key =? 343) || (key =? code "010")) = false /\
                   ((key =? 263) || (key =? 127)) = true).
  { change (code ":") with 58. change (code "009") with 9.
    change (code "010") with 10. destruct Hkey; subst key; done. }
  destruct Hother as (-> & -> & -> & -> & ->). simpl.
  split.
  - intros Hn. destruct (Z.ltb_spec 0 (cmd_length (cmd E))); [| lia].
    split; [done |]. split.
    + change (collected (drop_last_key E) = removelast (collected E)).
      apply collected_drop_last_key. lia.
    + split; [| done]. simpl. apply array_get_set_eq. lia.
  - intros Hn. rewrite Hn. simpl. done.
Qed.

(** ** Splitting a line and joining it again *)

Lemma push_undo_keeps_document (a : UndoAction) (E : EditorState) :
  lines (push_undo_action a E) = lines E /\
  cursor_x (push_undo_action a E) = cursor_x E /\
  cursor_y (push_undo_action a E) = cursor_y E.
Proof. unfold push_undo_action. by destruct (undo_head E =? MAX_UNDO_HISTORY). Qed.

Lemma array_get_middle {A : Type} (d : A) (pre post : list A) (x : A) (i : Z) :
  i = zlen pre -> array_get d (pre ++ x :: post) i = x.
Proof.
  unfold zlen. intros ->. apply array_get_lookup; [lia |].
  rewrite Nat2Z.id. by rewrite list_lookup_middle.
Qed.

Lemma array_set_middle {A : Type} (pre post : list A) (x v : A) (i : Z) :
  i = zlen pre -> array_set (pre ++ x :: post) i v = pre ++ v :: post.
Proof.
  unfold zlen. intros ->. unfold array_set.
  destruct (Z.ltb_spec (Z.of_nat (length pre)) 0); [lia |].
  rewrite Nat2Z.id. rewrite insert_app_r_alt by lia.
  by rewrite Nat.sub_diag.
Qed.

Lemma insert_line_keeps_cursor (at_ : Z) (s : list ascii) (len : Z) (E : EditorState) :
  cursor_x (editor_insert_line at_ s len E) = cursor_x E /\
  cursor_y (editor_insert_line at_ s len E) = cursor_y E.
Proof.
  unfold editor_insert_line.
  destruct ((at_ <? 0) || (num_lines E <? at_)); [done |].
  by destruct (allocated_lines E <? num_lines E + 1).
Qed.

Lemma take_drop_after_middle {A : Type} (pre post : list A) (x : A) (n : nat) :
  n = Datatypes.S (length pre) ->
  take n (pre ++ x :: post) = pre ++ [x] /\ drop n (pre ++ x :: post) = post.
Proof.
  intros ->. rewrite cons_middle, app_assoc. split.
  - apply take_app_length'. rewrite length_app. simpl. lia.
  - apply drop_app_length'. rewrite length_app. simpl. lia.
Qed.

Ltac line_simpl :=
  cbn [truncate_line bump_revision set_chars set_size set_hl set_allocated
       size allocated chars hl hl_revision].

Ltac state_simpl :=
  cbn [lines cursor_x cursor_y mark_lines_dirty set_dirty_range set_dirty
       set_cursor_x set_cursor_y update_line set_lines set_cursor
       set_in_multiline_comment_global in_multiline_comment_global is_code_file].

Lemma insert_newline_lines (E : EditorState) (pre post : list EditorLine)
      (L : EditorLine) :
  lines E = pre ++ L :: post -> cursor_y E = zlen pre -> cursor_x E <> 0 ->
  lines (editor_insert_newline E) =
    pre ++ truncate_line (cursor_x E) L
        :: inserted_line (ptr_at (chars L) (cursor_x E)) (size L - cursor_x E)
        :: post /\
  cursor_y (editor_insert_newline E) = cursor_y E + 1 /\
  cursor_x (editor_insert_newline E) = 0.
Proof.
  intros Hls Hy Hx. unfold editor_insert_newline.
  destruct (Z.eqb_spec (cursor_x E) 0) as [| _]; [done |].
  set (ua := mkUndoAction UNDO_SPLIT_LINE _ _ _ _ _ _).
  destruct (push_undo_keeps_document ua E) as (Hl & Hcx & Hcy).
  set (E0 := push_undo_action ua E) in *.
  assert (HL : get_line E0 (cursor_y E0) = L).
  { unfold get_line. rewrite Hl, Hls, Hcy. by apply array_get_middle. }
  rewrite HL, Hcx, Hcy.
  set (E1 := editor_insert_line _ _ _ E0).
  destruct (insert_line_keeps_cursor (cursor_y E + 1) (ptr_at (chars L) (cursor_x E))
              (size L - cursor_x E) E0) as (Hcx1 & Hcy1).
  fold E1 in Hcx1, Hcy1.
  assert (Hl1 : lines E1 = pre ++ L :: inserted_line (ptr_at (chars L) (cursor_x E))
                                       (size L - cursor_x E) :: post).
  { unfold E1. rewrite lines_insert_line.
    - rewrite Hl, Hls.
      destruct (take_drop_after_middle pre post L (Z.to_nat (cursor_y E + 1)))
        as (-> & ->); [unfold zlen in Hy; lia |].
      by rewrite <- app_assoc.
    - unfold num_lines. rewrite Hl, Hls. unfold zlen in *.
      rewrite length_app. simpl. lia. }
  state_simpl. rewrite Hcx1, Hcy1, Hcx, Hcy.
  split; [| done].
  unfold get_line. rewrite Hl1.
  rewrite (array_get_middle _ pre _ L) by done.
  by apply array_set_middle.
Qed.

Lemma lines_delete_line (at_ : Z) (E : EditorState) :
  0 <= at_ < num_lines E ->
  lines (editor_delete_line at_ E) =
    take (Z.to_nat at_) (lines E) ++ drop (Z.to_nat (at_ + 1)) (lines E) /\
  cursor_x (editor_delete_line at_ E) = cursor_x E /\
  cursor_y (editor_delete_line at_ E) = cursor_y E.
Proof.
  intros Hat. unfold editor_delete_line.
  by assert (((at_ <? 0) || (num_lines E <=? at_)) = false) as -> by lia.
Qed.

Lemma delete_char_join_lines (E : EditorState) (pre post : list EditorLine)
      (P Nl : EditorLine) :
  lines E = pre ++ P :: Nl :: post -> cursor_y E = zlen pre + 1 -> cursor_x E = 0 ->
  exists E', editor_delete_char E = Some E' /\
    lines E' = pre ++ append_to_line P (chars Nl) (size Nl) :: post /\
    cursor_y E' = zlen pre /\ cursor_x E' = 0.
Proof.
  intros Hls Hy Hx. unfold editor_delete_char.
  assert (Hn : num_lines E = zlen pre + 2 + zlen post).
  { unfold num_lines, zlen. rewrite Hls, length_app. simpl. lia. }
  pose proof (zlen_nonneg pre) as Hpre. pose proof (zlen_nonneg post) as Hpost.
  destruct (Z.eqb_spec (cursor_y E) (num_lines E)) as [| _]; [lia |].
  destruct (Z.eqb_spec (cursor_y E) 0) as [| _]; [lia |].
  rewrite andb_false_r.
  set (Ed := mark_lines_dirty (cursor_y E) (cursor_y E) E).
  assert (Hd : lines Ed = lines E /\ cursor_x Ed = cursor_x E /\ cursor_y Ed = cursor_y E)
    by done.
  destruct Hd as (Hld & Hxd & Hyd).
  rewrite Hxd, Hx. change (0 <? 0) with false. cbv iota.
  eexists. split; [reflexivity |].
  set (line := get_line Ed (cursor_y Ed)).
  assert (Hline : line = Nl).
  { unfold line, get_line. rewrite Hld, Hls, Hyd.
    rewrite (cons_middle P), app_assoc. apply array_get_middle.
    rewrite Hy. unfold zlen. rewrite length_app. simpl. lia. }
  rewrite Hline. clearbody line. clear Hline line.
  set (ua := mkUndoAction UNDO_JOIN_LINES _ _ _ _ _ _).
  destruct (push_undo_keeps_document ua Ed) as (Hl & Hcx & Hcy).
  set (E0 := push_undo_action ua Ed) in *.
  rewrite Hcy, Hyd, Hy.
  replace (zlen pre + 1 - 1) with (zlen pre) by lia.
  set (E1 := update_line (zlen pre) _ E0).
  assert (Hl1 : lines E1 = pre ++ append_to_line P (chars Nl) (size Nl) :: Nl :: post).
  { unfold E1. state_simpl. unfold get_line. rewrite Hl, Hld, Hls.
    rewrite array_get_middle by done. by apply array_set_middle. }
  assert (Hy1 : cursor_y E1 = zlen pre + 1) by (unfold E1; state_simpl; lia).
  assert (Hx1 : cursor_x E1 = 0) by (unfold E1; state_simpl; lia).
  rewrite Hy1.
  destruct (lines_delete_line (zlen pre + 1) E1) as (Hl2 & Hx2 & Hy2).
  { unfold num_lines. rewrite Hl1. unfold zlen. rewrite length_app. simpl. lia. }
  state_simpl. rewrite Hl2, Hy2, Hy1, Hl1, Hx2, Hx1. split; [| split; [lia | done]].
  set (J := append_to_line P (chars Nl) (size Nl)).
  assert (Ht : take (Z.to_nat (zlen pre + 1)) (pre ++ J :: Nl :: post) = pre ++ [J]).
  { apply take_drop_after_middle. unfold zlen. lia. }
  assert (Hdr : drop (Z.to_nat (zlen pre + 1 + 1)) (pre ++ J :: Nl :: post) = post).
  { rewrite (cons_middle J), app_assoc. apply take_drop_after_middle.
    unfold zlen. rewrite length_app. simpl. lia. }
  rewrite Ht, Hdr. by rewrite <- app_assoc.
Qed.

Lemma take_block_write {A : Type} (a data : list A) (off : Z) (k n : nat) :
  (Z.to_nat off + length data <= length a)%nat -> (k <= length data)%nat ->
  n = (Z.to_nat off + k)%nat ->
  take n (block_write a off data) = take (Z.to_nat off) a ++ take k data.
Proof.
  intros Hfit Hk ->. rewrite block_write_fits by done.
  rewrite take_app_add' by (rewrite length_take; lia).
  by rewrite take_app_le.
Qed.

Lemma lookup_block_write {A : Type} (a data : list A) (off : Z) (k : nat) :
  (Z.to_nat off + length data <= length a)%nat -> (k < length data)%nat ->
  block_write a off data !! (Z.to_nat off + k)%nat = data !! k.
Proof.
  intros Hfit Hk. rewrite block_write_fits by done.
  rewrite lookup_app_r by (rewrite length_take; lia).
  rewrite length_take.
  replace (Z.to_nat off + k - Z.to_nat off `min` length a)%nat with k by lia.
  by rewrite lookup_app_l.
Qed.

Lemma block_read_0 {A : Type} (a : list A) (n : Z) :
  block_read a 0 n = take (Z.to_nat n) a.
Proof. done. Qed.

(** The text of the line built by [editor_insert_line]. *)
Lemma inserted_line_text (s : list ascii) (len : Z) :
  0 <= len <= zlen s ->
  take (Z.to_nat len) (chars (inserted_line s len)) = take (Z.to_nat len) s /\
  chars (inserted_line s len) !! Z.to_nat len = Some NUL /\
  (Z.to_nat len < length (chars (inserted_line s len)))%nat.
Proof.
  unfold zlen. intros Hlen. unfold inserted_line, MAX_LINE_LENGTH_BUFFER.
  cbn [chars]. set (alloc := if len + 1 <? 256 then 256 else len + 1).
  assert (Halloc : len + 1 <= alloc)
    by (unfold alloc; destruct (Z.ltb_spec (len + 1) 256); lia).
  set (X := memcpy _ 0 s len).
  assert (HX : length X = Z.to_nat alloc).
  { unfold X, memcpy. by rewrite length_block_write, length_malloc. }
  split; [| split].
  - rewrite take_array_set_ge by lia.
    unfold X, memcpy. rewrite block_read_0.
    rewrite (take_block_write _ _ 0 (Z.to_nat len)).
    + simpl. rewrite take_take. f_equal. lia.
    + rewrite length_malloc, length_take. lia.
    + rewrite length_take. lia.
    + simpl. lia.
  - unfold array_set. destruct (Z.ltb_spec len 0); [lia |].
    apply list_lookup_insert_eq. lia.
  - rewrite length_array_set. lia.
Qed.

(** Joining the two halves of a split line gives the line back. *)
Lemma split_join_line (L : EditorLine) (c : Z) :
  line_ok L -> 0 < c <= size L ->
  let NL := inserted_line (ptr_at (chars L) c) (size L - c) in
  let J := append_to_line (truncate_line c L) (chars NL) (size NL) in
  size J = size L /\ line_text J = line_text L /\ line_ok J.
Proof.
  intros (Hlen & Hsz & Hnul) Hc NL J. unfold zlen in Hlen.
  set (n := size L - c) in *.
  assert (Hn : n = size L - c) by done. clearbody n.
  destruct (inserted_line_text (ptr_at (chars L) c) n) as (Htxt & Hend & Hroom).
  { unfold ptr_at, zlen. rewrite length_drop. lia. }
  fold NL in Htxt, Hend, Hroom.
  assert (HsNL : size NL = n) by done.
  unfold J, append_to_line. rewrite HsNL.
  cbn [truncate_line bump_revision set_chars set_size size allocated chars hl
       hl_revision].
  destruct (Z.ltb_spec (allocated L) (c + n + 1)) as [| _]; [lia |].
  cbn [truncate_line bump_revision set_chars set_size size allocated chars hl
       hl_revision].
  set (T := array_set (chars L) c NUL).
  assert (HT : length T = length (chars L)) by apply length_array_set.
  set (data := block_read (chars NL) 0 (n + 1)).
  assert (Hdata : length data = Z.to_nat (n + 1)).
  { unfold data. rewrite block_read_0, length_take. lia. }
  unfold memcpy. fold data.
  split; [lia |]. split.
  - unfold line_text. line_simpl.
    rewrite (take_block_write _ _ _ (Z.to_nat n)) by lia.
    unfold T. rewrite take_array_set_ge by lia.
    unfold data. rewrite block_read_0, take_take.
    replace (Z.to_nat n `min` Z.to_nat (n + 1))%nat with (Z.to_nat n) by lia.
    rewrite Htxt. unfold ptr_at. rewrite take_take_drop. f_equal. lia.
  - unfold line_ok. line_simpl. unfold zlen.
    rewrite length_block_write, HT. split; [lia |]. split; [lia |].
    apply array_get_lookup; [lia |].
    replace (Z.to_nat (c + n)) with (Z.to_nat c + Z.to_nat n)%nat by lia.
    rewrite lookup_block_write by lia.
    unfold data. rewrite block_read_0, lookup_take_lt by lia. done.
Qed.

Lemma document_middle (pre post : list EditorLine) (L : EditorLine) (E : EditorState) :
  lines E = pre ++ L :: post ->
  document E = map line_text pre ++ line_text L :: map line_text post.
Proof. intros H. unfold document. by rewrite H, map_app. Qed.

(** C5. Splitting a line of size [n] at a column [c] with [0 < c <= n] by
    [editor_insert_newline] and joining at once by [editor_delete_char]
    (the cursor is then at column 0 of the next row; the call returns)
    gives back the line's content and size; the number of lines and the
    whole document are as before, and the cursor is back on the row of
    the line. *)
Theorem split_then_join_restores_line :
  forall E : EditorState,
    0 <= cursor_y E < num_lines E ->
    line_ok (get_line E (cursor_y E)) ->
    0 < cursor_x E <= size (get_line E (cursor_y E)) ->
    exists E', editor_delete_char (editor_insert_newline E) = Some E' /\
    line_text (get_line E' (cursor_y E)) = line_text (get_line E (cursor_y E)) /\
    size (get_line E' (cursor_y E)) = size (get_line E (cursor_y E)) /\
    num_lines E' = num_lines E /\
    document E' = document E /\
    cursor_y E' = cursor_y E /\
    line_ok (get_line E' (cursor_y E)).
Proof.
  intros E Hy Hok Hx.
  unfold num_lines, zlen in Hy.
  destruct (lookup_lt_is_Some_2 (lines E) (Z.to_nat (cursor_y E))) as [L HL]; [lia |].
  pose proof (take_drop_middle _ _ _ HL) as Hls. symmetry in Hls.
  set (pre := take (Z.to_nat (cursor_y E)) (lines E)) in *.
  set (post := drop (Datatypes.S (Z.to_nat (cursor_y E))) (lines E)) in *.
  assert (Hpre : cursor_y E = zlen pre).
  { unfold zlen, pre. rewrite length_take. lia. }
  assert (HgL : get_line E (cursor_y E) = L) by (apply get_line_lookup; [lia | done]).
  rewrite HgL in *.
  destruct (insert_newline_lines E pre post L Hls Hpre) as (Hl1 & Hy1 & Hx1); [lia |].
  destruct (delete_char_join_lines (editor_insert_newline E) pre post _ _ Hl1)
    as (E' & Hret & Hl2 & Hy2 & _); [lia | done |].
  exists E'. split; [done |].
  destruct (split_join_line L (cursor_x E) Hok Hx) as (Hsz & Htxt & HokJ).
  cbv zeta in Hsz, Htxt, HokJ.
  change (size (inserted_line (ptr_at (chars L) (cursor_x E)) (size L - cursor_x E)))
    with (size L - cursor_x E) in Hl2.
  change (size (inserted_line (ptr_at (chars L) (cursor_x E)) (size L - cursor_x E)))
    with (size L - cursor_x E) in Hsz, Htxt, HokJ.
  assert (HgJ : get_line E' (cursor_y E) = _)
    by (unfold get_line; rewrite Hl2; by apply array_get_middle).
  rewrite HgJ.
  split; [done |]. split; [done |]. split.
  - unfold num_lines, zlen. rewrite Hl2, Hls, !length_app. done.
  - split; [| split; [lia | done]].
    rewrite (document_middle _ _ _ _ Hl2), (document_middle _ _ _ _ Hls).
    by rewrite Htxt.
Qed.

(** ** Highlighter: the inside of a block comment *)





Lemma lookup_array_set {A : Type} (a : list A) (i : Z) (v : A) (j : nat) :
  array_set a i v !! j =
  if decide (0 <= i /\ j = Z.to_nat i /\ (j < length a)%nat) then Some v else a !! j.
Proof.
  unfold array_set. destruct (Z.ltb_spec i 0).
  - case_decide; [lia | done].
  - rewrite list_lookup_insert. repeat case_decide; try done; lia.
Qed.







(** ** Further facts about the highlighter and the logs *)

Lemma lookup_fill_tags (tags : list HighlightType) (from to : Z) (t : HighlightType)
      (j : nat) :
  0 <= from ->
  fill_tags tags from to t !! j =
  if decide (from <= Z.of_nat j < to /\ (j < length tags)%nat) then Some t else tags !! j.
Proof.
  intros Hfrom. unfold fill_tags.
  destruct (Z.le_gt_cases to from) as [Hempty | Hlt].
  { replace (Z.to_nat (to - from)) with 0%nat by lia. cbn [for_loop].
    case_decide; [lia | done]. }
  assert (Hgen : forall n : nat,
            for_loop n from (fun k tags => array_set tags k t) tags !! j =
            if decide (from <= Z.of_nat j < from + Z.of_nat n /\ (j < length tags)%nat)
            then Some t else tags !! j).
  { induction n as [| n IH].
    - cbn [for_loop]. case_decide; [lia | done].
    - rewrite for_loop_snoc, lookup_array_set, IH.
      rewrite (length_for_loop_set (fun _ _ => t)).
      repeat case_decide; try done; lia. }
  rewrite Hgen. repeat case_decide; try done; lia.
Qed.

(** In a file flagged as plain text, [update_highlighting] tags every
    character of the row [HL_NORMAL] and clears the block-comment flag. *)
Theorem plain_text_rows_are_normal :
  forall (E : EditorState) (row : Z),
    is_code_file E = false ->
    0 <= row < num_lines E ->
    line_ok (get_line E row) -> hl_fits (get_line E row) ->
    in_multiline_comment_global (update_highlighting row E) = false /\
    forall col : Z, 0 <= col < size (get_line E row) ->
      tag_at (update_highlighting row E) row col = Some HL_NORMAL.
Proof.
  intros E row Hcode Hrow (Hlen & Hsz & _) Hfits.
  unfold update_highlighting. rewrite Hcode. cbn [negb].
  set (line := get_line E row) in *.
  set (tags0 := match hl line with
                | Some h => if allocated line <? size line + 1
                            then malloc junk_hl (allocated line) else h
                | None => malloc junk_hl (allocated line)
                end).
  assert (Hroom : size line <= zlen tags0).
  { unfold tags0, hl_fits in *. destruct (hl line) as [h |].
    - destruct (allocated line <? size line + 1); [| done].
      rewrite zlen_malloc; lia.
    - rewrite zlen_malloc; lia. }
  state_simpl. split; [done |].
  intros col Hcol. unfold tag_at, get_line. state_simpl.
  rewrite array_get_set_eq by (unfold num_lines in Hrow; lia).
  line_simpl. destruct (Z.ltb_spec col 0); [lia |].
  rewrite lookup_fill_tags by lia. unfold zlen in Hroom.
  case_decide; [done | lia].
Qed.




(** *** The main loop of the highlighter ends within its bound *)

Lemma scan_number_advances (fuel : nat) (cs : list ascii) (sz start_num i : Z)
      (tags : list HighlightType) :
  i <= fst (scan_number fuel cs sz start_num i tags) /\
  ((0 < fuel)%nat -> (i <? sz) && number_char cs start_num i = true ->
   i + 1 <= fst (scan_number fuel cs sz start_num i tags)).
Proof.
  revert i tags. induction fuel as [| fuel IH]; intros i tags.
  - cbn [scan_number fst]. split; [lia | intros; lia].
  - cbn [scan_number].
    destruct ((i <? sz) && number_char cs start_num i).
    + destruct (IH (i + 1) (array_set tags i HL_NUMBER)) as [Hle _].
      split; [lia | intros _ _; lia].
    + cbn [fst]. split; [lia | intros _ Habs; discriminate].
Qed.

Lemma scan_word_advances (fuel : nat) (cs : list ascii) (sz i : Z) :
  i <= scan_word fuel cs sz i /\
  ((0 < fuel)%nat -> (i <? sz) && word_char (array_get NUL cs i) = true ->
   i + 1 <= scan_word fuel cs sz i).
Proof.
  revert i. induction fuel as [| fuel IH]; intros i.
  - cbn [scan_word]. split; [lia | intros; lia].
  - cbn [scan_word].
    destruct ((i <? sz) && word_char (array_get NUL cs i)).
    + destruct (IH (i + 1)) as [Hle _]. split; [lia | intros _ _; lia].
    + split; [lia | intros _ Habs; discriminate].
Qed.

(** The body never moves the index backwards. *)
Lemma hl_body_advances (cs : list ascii) (sz : Z) (st : HlLoop) :
  hl_i st < sz -> hl_i st <= hl_i (hl_body cs sz st).
Proof.
  intros Hlt.
  assert (i_lt : (hl_i st <? sz) = true) by lia.
  assert (Hnum : isdigit (array_get NUL cs (hl_i st)) = true ->
                 hl_i st + 1 <=
                 fst (scan_number (Z.to_nat (sz - hl_i st)) cs sz (hl_i st) (hl_i st)
                                  (hl_tags st))).
  { intros Hdigit. apply scan_number_advances; [lia |].
    rewrite i_lt. unfold number_char. cbv zeta. by rewrite Hdigit. }
  assert (Hword : word_char (array_get NUL cs (hl_i st)) = true ->
                  hl_i st + 1 <= scan_word (Z.to_nat (sz - hl_i st)) cs sz (hl_i st)).
  { intros Hw. apply scan_word_advances; [lia |]. by rewrite i_lt, Hw. }
  unfold hl_body. cbv zeta.
  repeat lazymatch goal with
         | |- _ <= hl_i (if ?b then _ else _) => destruct b eqn:?
         | |- _ <= hl_i (match ?p with (_, _) => _ end) =>
             let H := fresh "Hp" in destruct p eqn:H; try rewrite H in Hnum
         end;
    cbn [hl_i fst] in *; lia.
Qed.

Lemma hl_loop_more_fuel (cs : list ascii) (sz : Z) (fuel extra : nat) (st : HlLoop) :
  sz - hl_i st <= Z.of_nat fuel ->
  hl_loop (fuel + extra) cs sz st = hl_loop fuel cs sz st /\
  (hl_break (hl_loop fuel cs sz st) = true \/ sz <= hl_i (hl_loop fuel cs sz st)).
Proof.
  revert st. induction fuel as [| fuel IH]; intros st Hfuel.
  - cbn [Nat.add hl_loop]. split; [| right; lia].
    destruct extra as [| extra]; [done |]. cbn [hl_loop].
    destruct (Z.ltb_spec (hl_i st) sz); [lia | done].
  - cbn [Nat.add hl_loop].
    destruct (Z.ltb_spec (hl_i st) sz) as [Hlt |]; [| split; [done | right; lia]].
    pose proof (hl_body_advances cs sz st Hlt) as Hadv.
    destruct (hl_break (hl_body cs sz st)) eqn:Hbreak; [split; [done | by left] |].
    apply IH. cbn [hl_i]. lia.
Qed.

(** The bound [size] given to the main loop of [update_highlighting] is
    enough: the loop stops because of a [break] or because the index has
    reached the end of the row, and any larger bound gives the same
    result. *)
Theorem highlighter_loop_ends_within_size :
  forall (cs : list ascii) (sz : Z) (tags : list HighlightType) (in_comment : bool)
         (extra : nat),
    let st0 := mkHlLoop 0 tags in_comment false NUL false false in
    let st := hl_loop (Z.to_nat sz) cs sz st0 in
    hl_loop (Z.to_nat sz + extra) cs sz st0 = st /\
    (hl_break st = true \/ sz <= hl_i st).
Proof.
  intros cs sz tags in_comment extra st0 st.
  apply hl_loop_more_fuel. unfold st0. cbn [hl_i]. lia.
Qed.

(** ** Highlighter: the row that opens a block comment *)













(** ** Undo of a line split *)

Lemma push_undo_top (a : UndoAction) (E : EditorState) :
  zlen (undo_history E) = MAX_UNDO_HISTORY ->
  0 <= undo_head E <= MAX_UNDO_HISTORY ->
  1 <= undo_head (push_undo_action a E) /\
  array_get null_action (undo_history (push_undo_action a E))
            (undo_head (push_undo_action a E) - 1) = stored a.
Proof.
  unfold MAX_UNDO_HISTORY. intros Hlen Hhead. unfold push_undo_action.
  match goal with
  | |- context [clear_redo_history ?X] => destruct (redo_cleared X) as (_ & _ & -> & ->)
  end.
  destruct (Z.eqb_spec (undo_head E) MAX_UNDO_HISTORY) as [Hfull | Hroom];
    unfold MAX_UNDO_HISTORY in *; simpl.
  - split; [lia |].
    replace (undo_head E - 1 + 1 - 1) with (undo_head E - 1) by lia.
    apply array_get_set_eq. unfold zlen in *.
    destruct (evict_oldest_log (undo_history E)) as [-> _];
      [unfold MAX_UNDO_HISTORY; lia | lia].
  - split; [lia |].
    replace (undo_head E + 1 - 1) with (undo_head E) by lia.
    apply array_get_set_eq. lia.
Qed.

Lemma insert_line_keeps_undo_log (at_ : Z) (s : list ascii) (len : Z) (E : EditorState) :
  undo_history (editor_insert_line at_ s len E) = undo_history E /\
  undo_head (editor_insert_line at_ s len E) = undo_head E.
Proof.
  unfold editor_insert_line.
  destruct ((at_ <? 0) || (num_lines E <? at_)); [done |].
  by destruct (allocated_lines E <? num_lines E + 1).
Qed.

(** The entry that a split leaves on top of the undo log. *)
Lemma insert_newline_undo_top (E : EditorState) :
  zlen (undo_history E) = MAX_UNDO_HISTORY ->
  0 <= undo_head E <= MAX_UNDO_HISTORY ->
  cursor_x E <> 0 ->
  let top := array_get null_action (undo_history (editor_insert_newline E))
                       (undo_head (editor_insert_newline E) - 1) in
  1 <= undo_head (editor_insert_newline E) /\
  ua_type top = UNDO_SPLIT_LINE /\ ua_y top = cursor_y E /\ ua_x top = cursor_x E.
Proof.
  intros Hlen Hhead Hx. unfold editor_insert_newline.
  destruct (Z.eqb_spec (cursor_x E) 0) as [| _]; [done |].
  set (ua := mkUndoAction UNDO_SPLIT_LINE _ _ _ _ _ _).
  destruct (push_undo_top ua E Hlen Hhead) as (Hone & Htop).
  set (E0 := push_undo_action ua E) in *.
  set (E1 := editor_insert_line _ _ _ E0).
  destruct (insert_line_keeps_undo_log (cursor_y E0 + 1)
              (ptr_at (chars (get_line E0 (cursor_y E0))) (cursor_x E0))
              (size (get_line E0 (cursor_y E0)) - cursor_x E0) E0) as (Hh & Hn).
  fold E1 in Hh, Hn.
  cbn [undo_history undo_head mark_lines_dirty set_dirty_range set_dirty set_cursor_x
       set_cursor_y update_line set_lines].
  rewrite Hh, Hn, Htop. done.
Qed.

Lemma push_redo_keeps_document (a : UndoAction) (E : EditorState) :
  lines (push_redo_action a E) = lines E /\
  cursor_x (push_redo_action a E) = cursor_x E /\
  cursor_y (push_redo_action a E) = cursor_y E.
Proof. unfold push_redo_action. by destruct (redo_head E =? MAX_UNDO_HISTORY). Qed.

(** Undoing a line split is right: after [editor_insert_newline] at a
    column [c] with [0 < c <= size] of a well-formed line, one [editor_undo]
    returns, gives back the document and puts the cursor where it was. *)
Theorem undo_of_split_restores_document_and_cursor :
  forall E : EditorState,
    zlen (undo_history E) = MAX_UNDO_HISTORY ->
    0 <= undo_head E <= MAX_UNDO_HISTORY ->
    0 <= cursor_y E < num_lines E ->
    line_ok (get_line E (cursor_y E)) ->
    0 < cursor_x E <= size (get_line E (cursor_y E)) ->
    exists E', editor_undo (editor_insert_newline E) = Some E' /\
    document E' = document E /\
    cursor_y E' = cursor_y E /\ cursor_x E' = cursor_x E.
Proof.
  intros E Hlen Hhead Hy Hok Hx.
  unfold num_lines, zlen in Hy.
  destruct (lookup_lt_is_Some_2 (lines E) (Z.to_nat (cursor_y E))) as [L HL]; [lia |].
  pose proof (take_drop_middle _ _ _ HL) as Hls. symmetry in Hls.
  set (pre := take (Z.to_nat (cursor_y E)) (lines E)) in *.
  set (post := drop (Datatypes.S (Z.to_nat (cursor_y E))) (lines E)) in *.
  assert (Hpre : cursor_y E = zlen pre).
  { unfold zlen, pre. rewrite length_take. lia. }
  assert (HgL : get_line E (cursor_y E) = L) by (apply get_line_lookup; [lia | done]).
  rewrite HgL in *.
  destruct (insert_newline_lines E pre post L Hls Hpre) as (Hl1 & Hy1 & Hx1); [lia |].
  destruct (insert_newline_undo_top E Hlen Hhead) as (Hone & Htype & Huy & Hux); [lia |].
  destruct (split_join_line L (cursor_x E) Hok Hx) as (Hsz & Htxt & _).
  cbv zeta in Hsz, Htxt.
  set (NL := inserted_line (ptr_at (chars L) (cursor_x E)) (size L - cursor_x E)) in *.
  set (T := truncate_line (cursor_x E) L) in *.
  set (E1 := editor_insert_newline E) in *.
  unfold editor_undo.
  destruct (Z.eqb_spec (undo_head E1) 0) as [| _]; [lia |].
  cbv zeta. cbn [undo_history undo_head set_undo].
  rewrite Htype, Huy, Hux.
  eexists. split; [reflexivity |].
  set (E2 := set_undo (undo_history E1) (undo_head E1 - 1) E1).
  assert (Hl2 : lines E2 = pre ++ T :: NL :: post) by done.
  assert (HgNL : get_line E2 (cursor_y E + 1) = NL).
  { unfold get_line. rewrite Hl2, (cons_middle T), app_assoc.
    apply array_get_middle. rewrite Hpre. unfold zlen.
    rewrite length_app. simpl. lia. }
  rewrite HgNL.
  set (E3 := update_line (cursor_y E) _ E2).
  assert (Hl3 : lines E3 = pre ++ append_to_line T (chars NL) (size NL) :: NL :: post).
  { unfold E3. state_simpl. unfold get_line. rewrite Hl2.
    rewrite array_get_middle by done. by apply array_set_middle. }
  destruct (lines_delete_line (cursor_y E + 1) E3) as (Hl4 & _ & _).
  { unfold num_lines. rewrite Hl3. unfold zlen in *. rewrite length_app. simpl. lia. }
  set (J := append_to_line T (chars NL) (size NL)) in *.
  assert (Ht : take (Z.to_nat (cursor_y E + 1)) (pre ++ J :: NL :: post) = pre ++ [J]).
  { apply take_drop_after_middle. unfold zlen in Hpre. lia. }
  assert (Hdr : drop (Z.to_nat (cursor_y E + 1 + 1)) (pre ++ J :: NL :: post) = post).
  { rewrite (cons_middle J), app_assoc. apply take_drop_after_middle.
    unfold zlen in Hpre. rewrite length_app. simpl. lia. }
  rewrite Hl3, Ht, Hdr, <- app_assoc in Hl4. simpl in Hl4.
  match goal with
  | |- context [push_redo_action ?a ?X] =>
      destruct (push_redo_keeps_document a X) as (Hr1 & Hr2 & Hr3)
  end.
  unfold document. rewrite Hr1, Hr2, Hr3.
  cbn [lines cursor_x cursor_y set_status_message set_status]. state_simpl.
  rewrite Hl4, Hls, !map_app. cbn [map]. by rewrite Htxt.
Qed.

(** ** Undo followed by redo *)

(** C1 fails on the code. After typing the letter a in a new file that
    has been drawn, the document is the single line [a] with the cursor at
    (0, 1); one [editor_undo] followed by one [editor_redo] (all three
    calls return) leaves the line [aaa] and the cursor at (0, 2): the undo
    of an insertion inserts again, and the redo is applied at the cursor
    position instead of the position of the action. *)
Theorem undo_then_redo_is_not_a_noop :
  document <$> typed_a = Some [list_ascii_of_string "a"] /\
  (fun E => (cursor_y E, cursor_x E)) <$> typed_a = Some (0, 1) /\
  document <$> mbind editor_undo typed_a = Some [list_ascii_of_string "aa"] /\
  let E' := mbind editor_redo (mbind editor_undo typed_a) in
  document <$> E' = Some [list_ascii_of_string "aaa"] /\
  (fun E => (cursor_y E, cursor_x E)) <$> E' = Some (0, 2).
Proof. vm_compute. repeat split. Qed.

(** ** Extracting, deleting and inserting back a block *)

(** C2 fails on the code. In the file [ab; cd; ef] the range from (0, 1)
    to (1, 1) holds the text b, newline, c.  After
    [editor_delete_text_block] the document is [ad; ef]; inserting the
    extracted text back at (0, 1) with [editor_insert_text_block] gives
    [ab; cefd] and not the original: the segment after the newline is
    spliced into the existing next row instead of a new row. *)
Theorem extract_delete_insert_does_not_restore :
  let E := three_lines in
  let extracted := get_selection_content E 0 1 1 1 in
  let E' := editor_insert_text_block 0 1 (default [NUL] (fst extracted))
              (strlen (default [NUL] (fst extracted)))
              (editor_delete_text_block 0 1 1 1 E) in
  document E = map list_ascii_of_string ["ab"; "cd"; "ef"]%string /\
  extracted = (Some (list_ascii_of_string "b" ++ ["010"%char] ++
                     list_ascii_of_string "c" ++ [NUL]), 2) /\
  document (editor_delete_text_block 0 1 1 1 E) =
    map list_ascii_of_string ["ad"; "ef"]%string /\
  document E' = map list_ascii_of_string ["ab"; "cefd"]%string /\
  document E' <> document E.
Proof. vm_compute. repeat split. discriminate. Qed.

(** ** Character operations on the text of a line *)

Lemma insert_take_S {A : Type} (l : list A) (i : nat) (x : A) :
  (i < length l)%nat -> <[i := x]> (take (Datatypes.S i) l) = take i l ++ [x].
Proof.
  intros Hi. destruct (lookup_lt_is_Some_2 l i Hi) as [y Hy].
  rewrite (take_S_r _ _ y) by done.
  rewrite insert_app_r_alt by (rewrite length_take; lia).
  rewrite length_take. by replace (i - i `min` length l)%nat with 0%nat by lia.
Qed.

Lemma take_prefix_eq {A : Type} (l1 l2 : list A) (n m : nat) :
  (n <= m)%nat -> take m l1 = take m l2 -> take n l1 = take n l2.
Proof.
  intros Hn Heq.
  assert (H1 : take n l1 = take n (take m l1)) by (rewrite take_take; f_equal; lia).
  assert (H2 : take n l2 = take n (take m l2)) by (rewrite take_take; f_equal; lia).
  congruence.
Qed.

Lemma drop_line_text (line : EditorLine) (n : nat) :
  drop n (line_text line) = take (Z.to_nat (size line) - n) (drop n (chars line)).
Proof. unfold line_text. apply skipn_firstn_comm. Qed.

Lemma take_line_text (line : EditorLine) (n : nat) :
  (n <= Z.to_nat (size line))%nat -> take n (line_text line) = take n (chars line).
Proof. intros Hn. unfold line_text. rewrite take_take. f_equal. lia. Qed.

(** The buffer after the optional growth of [editor_line_insert_char]
    keeps its first cells. *)
Lemma grown_buffer (line : EditorLine) (n : Z) :
  zlen (chars line) = allocated line -> allocated line <= n ->
  chars (realloc_line n line) = chars line ++ replicate (Z.to_nat n - length (chars line)) junk_char.
Proof.
  unfold zlen. intros Hlen Hn. unfold realloc_line, realloc. cbn [chars].
  rewrite take_ge by lia. done.
Qed.

(** Size and text of a line after [editor_line_insert_char] with an index
    in range. *)
Lemma line_insert_char_spec :
  forall (line : EditorLine) (at_ c : Z) (line' : EditorLine),
    line_ok line -> 0 <= at_ <= size line ->
    editor_line_insert_char line at_ c = Some line' ->
    size line' = size line + 1 /\
    line_text line' =
      take (Z.to_nat at_) (line_text line) ++ char_of_int c ::
      drop (Z.to_nat at_) (line_text line).
Proof.
  intros line at_ c line' (Hlen & Hsz & _) Hat Hres.
  destruct (insert_char_result _ _ _ _ Hat Hres) as (Hch & Hs & _ & _).
  cbv zeta in Hch.
  set (g := grown line) in *.
  assert (Hg : size g = size line /\
               (Z.to_nat (size line) + 2 <= length (chars g))%nat /\
               take (Z.to_nat (size line) + 1) (chars g) =
               take (Z.to_nat (size line) + 1) (chars line)).
  { unfold g, grown, zlen in *.
    destruct (Z.ltb_spec (allocated line) (size line + 2)) as [Hgrow | Hroom].
    - assert ((allocated line =? 0) = false) as -> by lia.
      rewrite grown_buffer by (unfold zlen; lia).
      split; [done |]. split.
      + rewrite length_app, length_replicate. lia.
      + apply take_app_le. lia.
    - split; [done |]. split; [lia | done]. }
  destruct Hg as (Hgs & Hgl & Hgt). rewrite Hgs in Hch.
  split; [done |].
  unfold line_text at 1. rewrite Hs, Hch. clear Hch Hres.
  set (sz := Z.to_nat (size line)) in *. set (a := Z.to_nat at_).
  assert (Ha : (a <= sz)%nat) by (unfold a, sz; lia).
  replace (Z.to_nat (size line + 1)) with (Datatypes.S sz) by (unfold sz; lia).
  rewrite take_array_set_ge by (unfold sz; lia).
  unfold array_set. destruct (Z.ltb_spec at_ 0); [lia |]. fold a.
  rewrite take_insert_lt by lia.
  unfold memmove, block_read.
  replace (Z.to_nat (size line - at_ + 1)) with (Datatypes.S (sz - a))
    by (unfold sz, a; lia).
  fold a.
  set (data := take (Datatypes.S (sz - a)) (drop a (chars g))).
  assert (Hdata : length data = Datatypes.S (sz - a)).
  { unfold data. rewrite length_take, length_drop. lia. }
  rewrite (take_block_write _ _ _ (sz - a)) by lia.
  replace (Z.to_nat (at_ + 1)) with (Datatypes.S a) by (unfold a; lia).
  rewrite insert_app_l by (rewrite length_take; lia).
  rewrite insert_take_S by lia. rewrite <- app_assoc. cbn [app].
  unfold data. rewrite take_take.
  replace ((sz - a) `min` Datatypes.S (sz - a))%nat with (sz - a)%nat by lia.
  rewrite take_line_text, drop_line_text by (fold sz; lia). fold sz.
  assert (Hpre : take a (chars g) = take a (chars line)).
  { apply (take_prefix_eq _ _ a (sz + 1)); [lia | done]. }
  assert (Hsuf : take (sz - a) (drop a (chars g)) =
                 take (sz - a) (drop a (chars line))).
  { rewrite !take_drop_commute.
    replace (a + (sz - a))%nat with sz by lia.
    f_equal. apply (take_prefix_eq _ _ sz (sz + 1)); [lia | done]. }
  by rewrite Hpre, Hsuf.
Qed.

(** Size and text of a line after [editor_line_delete_char] with an index
    in range. *)
Lemma line_delete_char_spec :
  forall (line : EditorLine) (at_ : Z) (line' : EditorLine),
    line_ok line -> 0 <= at_ < size line ->
    editor_line_delete_char line at_ = Some line' ->
    size line' = size line - 1 /\
    line_text line' =
      take (Z.to_nat at_) (line_text line) ++
      drop (Datatypes.S (Z.to_nat at_)) (line_text line).
Proof.
  intros line at_ line' (Hlen & Hsz & _) Hat Hres.
  destruct (delete_char_result _ _ _ Hat Hres) as (Hch & Hs & _ & _).
  unfold zlen in *.
  split; [done |].
  unfold line_text at 1. rewrite Hs, Hch. clear Hch Hres.
  set (sz := Z.to_nat (size line)) in *. set (a := Z.to_nat at_).
  assert (Ha : (a < sz)%nat) by (unfold a, sz; lia).
  rewrite take_array_set_ge by lia.
  unfold memmove, block_read.
  replace (Z.to_nat (at_ + 1)) with (Datatypes.S a) by (unfold a; lia).
  replace (Z.to_nat (size line - at_)) with (sz - a)%nat by (unfold a, sz; lia).
  set (data := take (sz - a) (drop (Datatypes.S a) (chars line))).
  assert (Hdata : length data = (sz - a)%nat).
  { unfold data. rewrite length_take, length_drop. lia. }
  rewrite (take_block_write _ _ _ (sz - a - 1)) by (fold a; unfold sz in *; lia).
  fold a. unfold data. rewrite take_take.
  replace ((sz - a - 1) `min` (sz - a))%nat with (sz - Datatypes.S a)%nat by lia.
  rewrite take_line_text, drop_line_text by (fold sz; lia). done.
Qed.

(** ** Typing and erasing at the cursor *)

Lemma document_update_line (row : Z) (f : EditorLine -> EditorLine) (E : EditorState) :
  0 <= row < num_lines E ->
  document (update_line row f E) =
    take (Z.to_nat row) (document E) ++ line_text (f (get_line E row))
      :: drop (Datatypes.S (Z.to_nat row)) (document E) /\
  get_line (update_line row f E) row = f (get_line E row) /\
  num_lines (update_line row f E) = num_lines E.
Proof.
  unfold num_lines, zlen. intros Hrow. unfold document, update_line, get_line.
  cbn [lines set_lines]. split; [| split].
  - unfold array_set. destruct (Z.ltb_spec row 0); [lia |].
    rewrite insert_take_drop by lia.
    by rewrite map_app, firstn_map, map_cons, skipn_map.
  - apply array_get_set_eq. unfold zlen. lia.
  - by rewrite length_array_set.
Qed.

Lemma document_row (E : EditorState) (row : Z) :
  0 <= row < num_lines E ->
  document E = take (Z.to_nat row) (document E) ++ line_text (get_line E row)
                 :: drop (Datatypes.S (Z.to_nat row)) (document E).
Proof.
  unfold num_lines, zlen. intros Hrow.
  destruct (lookup_lt_is_Some_2 (lines E) (Z.to_nat row)) as [L HL]; [lia |].
  rewrite (get_line_lookup E row L) by (done || lia).
  symmetry. apply take_drop_middle. unfold document.
  change (map line_text (lines E)) with (line_text <$> lines E).
  by rewrite list_lookup_fmap, HL.
Qed.

Lemma replace_row_twice {A : Type} (doc : list A) (n : nat) (a b : A) :
  (n < length doc)%nat ->
  let doc' := take n doc ++ a :: drop (Datatypes.S n) doc in
  take n doc' ++ b :: drop (Datatypes.S n) doc' = take n doc ++ b :: drop (Datatypes.S n) doc.
Proof.
  intros Hn doc'. unfold doc'.
  rewrite take_app_length' by (rewrite length_take; lia).
  rewrite (cons_middle a), app_assoc.
  rewrite drop_app_length' by (rewrite length_app, length_take; simpl; lia).
  done.
Qed.

Lemma push_undo_keeps_num_lines (a : UndoAction) (E : EditorState) :
  num_lines (push_undo_action a E) = num_lines E /\
  forall row, get_line (push_undo_action a E) row = get_line E row.
Proof.
  destruct (push_undo_keeps_document a E) as (Hl & _).
  unfold num_lines, get_line. by rewrite Hl.
Qed.

(** A call through [on_line] that returns replaces the row. *)
Lemma on_line_spec (row : Z) (f : EditorLine -> option EditorLine) (E : EditorState)
      (line' : EditorLine) :
  f (get_line E row) = Some line' ->
  on_line row f E = Some (update_line row (fun _ => line') E).
Proof. intros Hline. unfold on_line. by rewrite Hline. Qed.

Lemma on_line_faults (row : Z) (f : EditorLine -> option EditorLine) (E : EditorState) :
  f (get_line E row) = None -> on_line row f E = None.
Proof. intros Hline. unfold on_line. by rewrite Hline. Qed.

(** The effect of [editor_insert_char] on an existing row that has its
    tag buffer, on the document and on the row itself. *)
Lemma insert_char_spec :
  forall (c : Z) (E : EditorState),
    0 <= cursor_y E < num_lines E ->
    line_ok (get_line E (cursor_y E)) ->
    hl_allocated (get_line E (cursor_y E)) ->
    0 <= cursor_x E <= size (get_line E (cursor_y E)) ->
    let t := line_text (get_line E (cursor_y E)) in
    exists E', editor_insert_char c E = Some E' /\
    document E' =
      take (Z.to_nat (cursor_y E)) (document E) ++
      (take (Z.to_nat (cursor_x E)) t ++ char_of_int c :: drop (Z.to_nat (cursor_x E)) t)
      :: drop (Datatypes.S (Z.to_nat (cursor_y E))) (document E) /\
    cursor_y E' = cursor_y E /\ cursor_x E' = cursor_x E + 1 /\
    num_lines E' = num_lines E /\ dirty E' = true /\
    line_ok (get_line E' (cursor_y E)) /\
    size (get_line E' (cursor_y E)) = size (get_line E (cursor_y E)) + 1 /\
    hl_allocated (get_line E' (cursor_y E)).
Proof.
  intros c E Hy Hok Hhl Hx t. unfold editor_insert_char.
  set (ua := mkUndoAction UNDO_DELETE_CHAR _ _ _ _ _ _).
  destruct (push_undo_keeps_document ua E) as (Hl & Hcx & Hcy).
  destruct (push_undo_keeps_num_lines ua E) as (Hn & Hg).
  set (E0 := push_undo_action ua E) in *.
  rewrite Hn, Hcy. destruct (Z.eqb_spec (cursor_y E) (num_lines E)) as [| _]; [lia |].
  rewrite ?Hcx, ?Hcy.
  destruct (insert_char_returns (get_line E (cursor_y E)) (cursor_x E) c)
    as [line' Hline']; [right; right; by apply hl_allocated_has_hl |].
  rewrite (on_line_spec _ _ _ line') by (by rewrite Hg).
  eexists. split; [reflexivity |].
  destruct (document_update_line (cursor_y E) (fun _ => line') E0)
    as (Hdoc & Hrow & Hnum); [lia |].
  destruct (line_insert_char_spec (get_line E (cursor_y E)) (cursor_x E) c line' Hok Hx
              Hline') as (Hsz & Htxt).
  assert (Hhl' : hl_allocated line').
  { apply (hl_allocated_insert_char (get_line E (cursor_y E)) (cursor_x E) c);
      [| done | done].
    destruct Hok as (_ & ? & _). lia. }
  pose proof (line_ok_insert_char _ _ _ _ Hok Hline') as Hok'.
  set (E1 := update_line _ _ E0) in *.
  assert (Hdoc0 : document E0 = document E) by (unfold document; by rewrite Hl).
  unfold document in *. unfold get_line in *. unfold num_lines in *.
  cbn [lines cursor_x cursor_y dirty mark_lines_dirty set_dirty_range set_dirty
       set_cursor_x].
  rewrite Hdoc, Hrow, Hdoc0, Hnum, Hn.
  split; [by rewrite Htxt |].
  assert (Hc1 : cursor_y E1 = cursor_y E /\ cursor_x E1 = cursor_x E).
  { unfold E1. cbn [cursor_x cursor_y update_line set_lines]. done. }
  destruct Hc1 as (-> & ->).
  done.
Qed.

(** On a row without [hl] buffer, with room for one more character,
    [editor_insert_char] faults. *)
Lemma insert_char_without_hl_faults (c : Z) (E : EditorState) :
  0 <= cursor_y E < num_lines E ->
  0 <= cursor_x E <= size (get_line E (cursor_y E)) ->
  size (get_line E (cursor_y E)) + 2 <= allocated (get_line E (cursor_y E)) ->
  hl (get_line E (cursor_y E)) = None ->
  editor_insert_char c E = None.
Proof.
  intros Hy Hx Hroom Hhl. unfold editor_insert_char.
  set (ua := mkUndoAction UNDO_DELETE_CHAR _ _ _ _ _ _).
  destruct (push_undo_keeps_document ua E) as (Hl & Hcx & Hcy).
  destruct (push_undo_keeps_num_lines ua E) as (Hn & Hg).
  set (E0 := push_undo_action ua E) in *.
  rewrite Hn, Hcy. destruct (Z.eqb_spec (cursor_y E) (num_lines E)) as [| _]; [lia |].
  rewrite ?Hcx, ?Hcy.
  rewrite on_line_faults; [done |].
  rewrite Hg. by apply insert_char_faults.
Qed.

(** With the cursor at column 0 below the last row, [editor_insert_char]
    creates a row and faults on it: the new row has no tag buffer yet. *)
Lemma insert_char_below_last_row_faults (c : Z) (E : EditorState) :
  cursor_y E = num_lines E -> cursor_x E = 0 -> editor_insert_char c E = None.
Proof.
  intros Hy Hx. unfold editor_insert_char.
  set (ua := mkUndoAction UNDO_DELETE_CHAR _ _ _ _ _ _).
  destruct (push_undo_keeps_document ua E) as (Hl & Hcx & Hcy).
  destruct (push_undo_keeps_num_lines ua E) as (Hn & Hg).
  set (E0 := push_undo_action ua E) in *.
  rewrite Hn, Hcy. destruct (Z.eqb_spec (cursor_y E) (num_lines E)) as [_ |]; [| done].
  destruct (insert_line_keeps_cursor (num_lines E) [NUL] 0 E0) as (Hcx1 & Hcy1).
  rewrite Hcx1, Hcy1, Hcx, Hcy, Hx, Hy.
  rewrite on_line_faults; [done |].
  rewrite get_line_insert_line by (rewrite Hn; unfold num_lines, zlen; lia).
  by apply insert_char_faults.
Qed.

(** A character typed on an existing row that has been drawn (it has its
    tag buffer) lands at the cursor: the call returns, the row's text gets
    the character at column [cursor_x], the other rows are unchanged, the
    cursor moves one column right and the file is marked modified. *)
Theorem insert_char_lands_at_cursor :
  forall (c : Z) (E : EditorState),
    0 <= cursor_y E < num_lines E ->
    line_ok (get_line E (cursor_y E)) ->
    hl_allocated (get_line E (cursor_y E)) ->
    0 <= cursor_x E <= size (get_line E (cursor_y E)) ->
    let t := line_text (get_line E (cursor_y E)) in
    exists E', editor_insert_char c E = Some E' /\
    document E' =
      take (Z.to_nat (cursor_y E)) (document E) ++
      (take (Z.to_nat (cursor_x E)) t ++ char_of_int c :: drop (Z.to_nat (cursor_x E)) t)
      :: drop (Datatypes.S (Z.to_nat (cursor_y E))) (document E) /\
    cursor_y E' = cursor_y E /\ cursor_x E' = cursor_x E + 1 /\
    num_lines E' = num_lines E /\ dirty E' = true /\
    line_ok (get_line E' (cursor_y E)) /\
    size (get_line E' (cursor_y E)) = size (get_line E (cursor_y E)) + 1.
Proof.
  intros c E Hy Hok Hhl Hx t. subst t.
  destruct (insert_char_spec c E Hy Hok Hhl Hx)
    as (E' & Hret & Hdoc & Hcy & Hcx & Hn & Hd & Hok' & Hsz & _).
  by exists E'.
Qed.

(** The effect of [editor_delete_char] with the cursor inside a row that
    has its tag buffer. *)
Lemma delete_char_inside_row_spec :
  forall E : EditorState,
    0 <= cursor_y E < num_lines E ->
    line_ok (get_line E (cursor_y E)) ->
    hl_allocated (get_line E (cursor_y E)) ->
    0 < cursor_x E <= size (get_line E (cursor_y E)) ->
    let t := line_text (get_line E (cursor_y E)) in
    exists E', editor_delete_char E = Some E' /\
    document E' =
      take (Z.to_nat (cursor_y E)) (document E) ++
      (take (Z.to_nat (cursor_x E - 1)) t ++ drop (Z.to_nat (cursor_x E)) t)
      :: drop (Datatypes.S (Z.to_nat (cursor_y E))) (document E) /\
    cursor_y E' = cursor_y E /\ cursor_x E' = cursor_x E - 1 /\
    num_lines E' = num_lines E /\ dirty E' = true.
Proof.
  intros E Hy Hok Hhl Hx t. unfold editor_delete_char.
  destruct (Z.eqb_spec (cursor_y E) (num_lines E)) as [| _]; [lia |].
  destruct (Z.eqb_spec (cursor_x E) 0) as [| _]; [lia |]. cbn [andb].
  set (Ed := mark_lines_dirty (cursor_y E) (cursor_y E) E).
  assert (Hd : lines Ed = lines E /\ cursor_x Ed = cursor_x E /\ cursor_y Ed = cursor_y E)
    by done.
  destruct Hd as (Hld & Hxd & Hyd). rewrite Hxd, Hyd.
  destruct (Z.ltb_spec 0 (cursor_x E)) as [_ |]; [| lia].
  set (ua := mkUndoAction UNDO_INSERT_CHAR _ _ _ _ _ _).
  destruct (push_undo_keeps_document ua Ed) as (Hl & Hcx & Hcy).
  destruct (push_undo_keeps_num_lines ua Ed) as (Hn & Hg).
  set (E0 := push_undo_action ua Ed) in *.
  rewrite Hcx, Hcy, Hxd, Hyd.
  assert (HnE : num_lines E0 = num_lines E) by (unfold num_lines in *; by rewrite Hl, Hld).
  assert (HgE : get_line E0 (cursor_y E) = get_line E (cursor_y E))
    by (unfold get_line in *; by rewrite Hl, Hld).
  destruct (delete_char_returns (get_line E (cursor_y E)) (cursor_x E - 1))
    as [line' Hline']; [right; by apply hl_allocated_has_hl |].
  rewrite (on_line_spec _ _ _ line') by (by rewrite HgE).
  eexists. split; [reflexivity |].
  destruct (document_update_line (cursor_y E) (fun _ => line') E0)
    as (Hdoc & Hrow & Hnum); [lia |].
  destruct (line_delete_char_spec (get_line E (cursor_y E)) (cursor_x E - 1) line' Hok)
    as (Hsz & Htxt); [lia | done |].
  set (E1 := update_line _ _ E0) in *.
  assert (Hdoc0 : document E0 = document E) by (unfold document; by rewrite Hl, Hld).
  unfold document in *. unfold num_lines in *.
  cbn [lines cursor_x cursor_y dirty set_dirty set_cursor_x].
  rewrite Hdoc, Hdoc0, Htxt, Hnum, HnE.
  replace (Datatypes.S (Z.to_nat (cursor_x E - 1))) with (Z.to_nat (cursor_x E)) by lia.
  assert (Hc1 : cursor_y E1 = cursor_y E /\ cursor_x E1 = cursor_x E).
  { unfold E1. cbn [cursor_x cursor_y update_line set_lines]. done. }
  destruct Hc1 as (-> & ->). done.
Qed.

(** Backspace inside a row that has been drawn (it has its tag buffer)
    returns, removes the character before the cursor and moves the cursor
    one column left; the other rows are unchanged. *)
Theorem backspace_removes_character_before_cursor :
  forall E : EditorState,
    0 <= cursor_y E < num_lines E ->
    line_ok (get_line E (cursor_y E)) ->
    hl_allocated (get_line E (cursor_y E)) ->
    0 < cursor_x E <= size (get_line E (cursor_y E)) ->
    let t := line_text (get_line E (cursor_y E)) in
    exists E', editor_delete_char E = Some E' /\
    document E' =
      take (Z.to_nat (cursor_y E)) (document E) ++
      (take (Z.to_nat (cursor_x E - 1)) t ++ drop (Z.to_nat (cursor_x E)) t)
      :: drop (Datatypes.S (Z.to_nat (cursor_y E))) (document E) /\
    cursor_y E' = cursor_y E /\ cursor_x E' = cursor_x E - 1 /\
    num_lines E' = num_lines E /\ dirty E' = true.
Proof.
  intros E Hy Hok Hhl Hx t. subst t.
  exact (delete_char_inside_row_spec E Hy Hok Hhl Hx).
Qed.

(** A character typed on a row that has been drawn (it has its tag
    buffer) and erased at once with Backspace: both calls return, and the
    document and the cursor are as they were. *)
Theorem type_then_backspace_restores :
  forall (c : Z) (E : EditorState),
    0 <= cursor_y E < num_lines E ->
    line_ok (get_line E (cursor_y E)) ->
    hl_allocated (get_line E (cursor_y E)) ->
    0 <= cursor_x E <= size (get_line E (cursor_y E)) ->
    exists E', mbind editor_delete_char (editor_insert_char c E) = Some E' /\
    document E' = document E /\
    cursor_y E' = cursor_y E /\ cursor_x E' = cursor_x E.
Proof.
  intros c E Hy Hok Hhl Hx.
  destruct (insert_char_spec c E Hy Hok Hhl Hx)
    as (E1 & Hret & Hdoc & Hcy & Hcx & Hn & _ & Hok' & Hsz' & Hhl').
  rewrite Hret. cbn [mbind option_bind].
  destruct (delete_char_inside_row_spec E1)
    as (E' & Hret2 & Hdoc2 & Hcy2 & Hcx2 & _);
    rewrite ?Hcy, ?Hcx, ?Hn, ?Hsz'; try done; try lia.
  exists E'. split; [done |].
  rewrite Hcy, Hcx in *. split; [| lia].
  rewrite Hdoc2. clear Hdoc2.
  assert (Hlen : (Z.to_nat (cursor_y E) < length (document E))%nat).
  { unfold document, num_lines, zlen in *. rewrite length_map. lia. }
  rewrite Hdoc at 1 2. rewrite (replace_row_twice (document E)) by done.
  rewrite (document_row E (cursor_y E)) at 3 by done.
  f_equal. f_equal.
  assert (Hrow1 : line_text (get_line E1 (cursor_y E)) =
                  take (Z.to_nat (cursor_x E)) (line_text (get_line E (cursor_y E))) ++
                  char_of_int c ::
                  drop (Z.to_nat (cursor_x E)) (line_text (get_line E (cursor_y E)))).
  { pose proof (document_row E1 (cursor_y E) ltac:(lia)) as Hr.
    rewrite Hdoc in Hr at 1.
    apply app_inj_1 in Hr as [_ Hr].
    - by injection Hr as <-.
    - rewrite Hdoc. rewrite take_app_length'; [done |]. rewrite length_take. lia. }
  rewrite Hrow1.
  set (t := line_text (get_line E (cursor_y E))).
  assert (Ht : (Z.to_nat (cursor_x E) <= length t)%nat).
  { unfold t, line_text. destruct Hok as (Hl & Hs & _). unfold zlen in Hl.
    rewrite length_take. lia. }
  replace (Z.to_nat (cursor_x E + 1 - 1)) with (Z.to_nat (cursor_x E)) by lia.
  replace (Z.to_nat (cursor_x E + 1)) with (Datatypes.S (Z.to_nat (cursor_x E))) by lia.
  rewrite take_app_length' by (rewrite length_take; lia).
  rewrite (cons_middle (char_of_int c)), app_assoc.
  rewrite drop_app_length' by (rewrite length_app, length_take; simpl; lia).
  apply take_drop.
Qed.

(** ** Enter and the join of two rows *)

Lemma line_text_truncate (x : Z) (line : EditorLine) :
  line_ok line -> 0 <= x <= size line ->
  line_text (truncate_line x line) = take (Z.to_nat x) (line_text line).
Proof.
  intros (Hlen & Hsz & _) Hx. unfold line_text at 1. line_simpl.
  rewrite take_array_set_ge by lia. by rewrite take_line_text by lia.
Qed.

Lemma line_text_inserted_line (s : list ascii) (len : Z) :
  0 <= len <= zlen s -> line_text (inserted_line s len) = take (Z.to_nat len) s.
Proof. intros Hlen. by destruct (inserted_line_text s len Hlen) as (Htxt & _). Qed.

(** Enter splits the text of the row at the cursor column: the part before
    the cursor stays, the part from the cursor on becomes the next row, and
    the cursor goes to the start of that row.  At column 0 this leaves an
    empty row above the text. *)
Theorem newline_splits_row_at_cursor :
  forall E : EditorState,
    0 <= cursor_y E < num_lines E ->
    line_ok (get_line E (cursor_y E)) ->
    0 <= cursor_x E <= size (get_line E (cursor_y E)) ->
    let t := line_text (get_line E (cursor_y E)) in
    let E' := editor_insert_newline E in
    document E' =
      take (Z.to_nat (cursor_y E)) (document E) ++
      take (Z.to_nat (cursor_x E)) t :: drop (Z.to_nat (cursor_x E)) t
      :: drop (Datatypes.S (Z.to_nat (cursor_y E))) (document E) /\
    cursor_y E' = cursor_y E + 1 /\ cursor_x E' = 0 /\
    num_lines E' = num_lines E + 1.
Proof.
  intros E Hy Hok Hx t E'. subst E'.
  pose proof Hy as Hy'. unfold num_lines, zlen in Hy'.
  destruct (lookup_lt_is_Some_2 (lines E) (Z.to_nat (cursor_y E))) as [L HL]; [lia |].
  pose proof (take_drop_middle _ _ _ HL) as Hls. symmetry in Hls.
  assert (HgL : get_line E (cursor_y E) = L) by (apply get_line_lookup; [lia | done]).
  subst t. rewrite HgL in *.
  assert (Hdoc : document E = map line_text (take (Z.to_nat (cursor_y E)) (lines E)) ++
                   line_text L ::
                   map line_text (drop (Datatypes.S (Z.to_nat (cursor_y E))) (lines E))).
  { unfold document. rewrite Hls at 1. by rewrite map_app. }
  assert (Htk : take (Z.to_nat (cursor_y E)) (document E) =
                map line_text (take (Z.to_nat (cursor_y E)) (lines E)))
    by (unfold document; by rewrite firstn_map).
  assert (Hdr : drop (Datatypes.S (Z.to_nat (cursor_y E))) (document E) =
                map line_text (drop (Datatypes.S (Z.to_nat (cursor_y E))) (lines E)))
    by (unfold document; by rewrite skipn_map).
  rewrite Htk, Hdr.
  set (pre := take (Z.to_nat (cursor_y E)) (lines E)) in *.
  set (post := drop (Datatypes.S (Z.to_nat (cursor_y E))) (lines E)) in *.
  assert (Hpre : cursor_y E = zlen pre).
  { unfold zlen, pre. rewrite length_take. lia. }
  destruct (Z.eq_dec (cursor_x E) 0) as [Hx0 | Hx0].
  - unfold editor_insert_newline. rewrite Hx0. cbn [Z.eqb].
    set (ua := mkUndoAction UNDO_INSERT_EMPTY_LINE _ _ _ _ _ _).
    destruct (push_undo_keeps_document ua E) as (Hl & Hcx & Hcy).
    destruct (push_undo_keeps_num_lines ua E) as (Hn & _).
    set (E0 := push_undo_action ua E) in *. rewrite Hcy.
    destruct (insert_line_keeps_cursor (cursor_y E) [NUL] 0 E0) as (Hcx1 & Hcy1).
    pose proof (lines_insert_line (cursor_y E) [NUL] 0 E0 ltac:(lia)) as Hl1.
    set (E1 := editor_insert_line (cursor_y E) [NUL] 0 E0) in *.
    unfold document, num_lines.
    cbn [lines cursor_x cursor_y mark_lines_dirty set_dirty_range set_dirty
         set_cursor_x set_cursor_y].
    rewrite Hl1, Hcy1, Hcy, Hl. fold pre.
    split; [| split; [done | split; [done |]]].
    + rewrite map_app, map_cons.
      replace (drop (Z.to_nat (cursor_y E)) (lines E)) with (L :: post)
        by (unfold post; symmetry; by apply drop_S).
      rewrite line_text_inserted_line by (unfold zlen; simpl; lia).
      done.
    + unfold zlen. rewrite length_app. cbn [length]. unfold pre.
      rewrite length_take, length_drop. lia.
  - destruct (insert_newline_lines E pre post L Hls Hpre Hx0) as (Hl1 & Hy1 & Hx1).
    rewrite Hy1, Hx1. unfold document, num_lines. rewrite Hl1.
    split; [| split; [done | split; [done |]]].
    + rewrite map_app, !map_cons. f_equal. f_equal; [| f_equal].
      * by apply line_text_truncate.
      * destruct Hok as (Hlen & Hsz & _). unfold zlen in Hlen.
        rewrite line_text_inserted_line
          by (unfold ptr_at, zlen; rewrite length_drop; lia).
        rewrite drop_line_text. unfold ptr_at. f_equal. lia.
    + unfold zlen. rewrite (f_equal length Hls), !length_app. cbn [length]. lia.
Qed.

(** The text of a line to which [n] characters and their terminator have
    been appended. *)
Lemma append_to_line_text (dst : EditorLine) (src : list ascii) (n : Z) :
  line_ok dst -> 0 <= n -> (Z.to_nat n < length src)%nat ->
  size (append_to_line dst src n) = size dst + n /\
  line_text (append_to_line dst src n) = line_text dst ++ take (Z.to_nat n) src /\
  (src !! Z.to_nat n = Some NUL -> line_ok (append_to_line dst src n)).
Proof.
  intros (Hlen & Hsz & _) Hn Hsrc. unfold append_to_line, zlen in *.
  set (grown := if allocated dst <? size dst + n + 1 then _ else dst).
  assert (Hg : size grown = size dst /\
               Z.of_nat (length (chars grown)) = allocated grown /\
               size dst + n + 1 <= allocated grown /\
               take (Z.to_nat (size dst)) (chars grown) = line_text dst).
  { unfold grown.
    destruct (Z.ltb_spec (allocated dst) (size dst + n + 1)) as [Hgrow | Hroom].
    - rewrite grown_buffer by (unfold zlen; lia). cbn [size allocated realloc_line].
      split; [done |]. split.
      + rewrite length_app, length_replicate. lia.
      + split; [lia |]. apply take_app_le. lia.
    - split; [done |]. split; [done |]. split; [lia | done]. }
  destruct Hg as (Hgs & Hgl & Hga & Hgt). cbv zeta. line_simpl. rewrite Hgs.
  set (data := block_read src 0 (n + 1)).
  assert (Hdata : length data = Z.to_nat (n + 1)).
  { unfold data. rewrite block_read_0, length_take. lia. }
  unfold memcpy. fold data.
  split; [done |]. split.
  - unfold line_text at 1. line_simpl.
    rewrite (take_block_write _ _ _ (Z.to_nat n)) by lia.
    rewrite Hgt. f_equal. unfold data. rewrite block_read_0, take_take. f_equal. lia.
  - intros Hnul. unfold line_ok. line_simpl. unfold zlen.
    rewrite length_block_write. split; [done |]. split; [lia |].
    apply array_get_lookup; [lia |].
    replace (Z.to_nat (size dst + n)) with (Z.to_nat (size dst) + Z.to_nat n)%nat by lia.
    rewrite lookup_block_write by lia.
    unfold data. rewrite block_read_0, lookup_take_lt by lia. done.
Qed.

Lemma line_ok_terminator (line : EditorLine) :
  line_ok line ->
  chars line !! Z.to_nat (size line) = Some NUL /\
  (Z.to_nat (size line) < length (chars line))%nat.
Proof.
  intros (Hlen & Hsz & Hnul). unfold zlen in Hlen. split; [| lia].
  unfold array_get in Hnul. destruct (Z.ltb_spec (size line) 0); [lia |].
  destruct (lookup_lt_is_Some_2 (chars line) (Z.to_nat (size line))) as [c Hc]; [lia |].
  rewrite Hc in Hnul. simpl in Hnul. by subst c.
Qed.

(** Backspace at column 0 of a row that has a row above it returns and
    joins the two: the row above gets the text of the current row
    appended, the current row disappears, and the cursor goes to the row
    above, where its column stays 0. *)
Theorem backspace_at_column_0_joins_rows :
  forall E : EditorState,
    1 <= cursor_y E < num_lines E -> cursor_x E = 0 ->
    line_ok (get_line E (cursor_y E - 1)) -> line_ok (get_line E (cursor_y E)) ->
    exists E', editor_delete_char E = Some E' /\
    document E' =
      take (Z.to_nat (cursor_y E - 1)) (document E) ++
      (line_text (get_line E (cursor_y E - 1)) ++ line_text (get_line E (cursor_y E)))
      :: drop (Datatypes.S (Z.to_nat (cursor_y E))) (document E) /\
    cursor_y E' = cursor_y E - 1 /\ cursor_x E' = 0 /\
    num_lines E' = num_lines E - 1 /\
    line_ok (get_line E' (cursor_y E - 1)).
Proof.
  intros E Hy Hx HokP HokC.
  pose proof Hy as Hy'. unfold num_lines, zlen in Hy'.
  set (p := Z.to_nat (cursor_y E - 1)).
  destruct (lookup_lt_is_Some_2 (lines E) p) as [P HP]; [unfold p; lia |].
  destruct (lookup_lt_is_Some_2 (lines E) (Datatypes.S p)) as [C HC]; [unfold p; lia |].
  assert (HgP : get_line E (cursor_y E - 1) = P) by (apply get_line_lookup; [lia | done]).
  assert (HgC : get_line E (cursor_y E) = C).
  { apply get_line_lookup; [lia |].
    by replace (Z.to_nat (cursor_y E)) with (Datatypes.S p) by (unfold p; lia). }
  rewrite HgP, HgC in *.
  assert (Hls : lines E = take p (lines E) ++ P :: C :: drop (Datatypes.S (Datatypes.S p)) (lines E)).
  { rewrite <- (take_drop_middle (lines E) p P HP) at 1. f_equal. f_equal.
    apply drop_S. done. }
  set (pre := take p (lines E)) in *.
  set (post := drop (Datatypes.S (Datatypes.S p)) (lines E)) in *.
  assert (Hpre : zlen pre = cursor_y E - 1).
  { unfold zlen, pre. rewrite length_take. unfold p. lia. }
  destruct (delete_char_join_lines E pre post P C Hls) as (E' & Hret & Hl2 & Hy2 & Hx2);
    [lia | done |].
  exists E'. split; [done |].
  destruct (line_ok_terminator C HokC) as (HnulC & HroomC).
  destruct (append_to_line_text P (chars C) (size C) HokP) as (Hsz & Htxt & HokJ);
    [destruct HokC as (_ & ? & _); lia | done |].
  split; [| split; [lia | split; [done | split]]].
  - assert (Htk : take p (document E) = map line_text pre)
      by (unfold document, pre; by rewrite firstn_map).
    assert (Hdr : drop (Datatypes.S (Z.to_nat (cursor_y E))) (document E) =
                  map line_text post).
    { unfold document, post. rewrite skipn_map. do 2 f_equal. unfold p. lia. }
    rewrite Htk, Hdr. unfold document.
    rewrite Hl2, map_app, map_cons, Htxt. done.
  - unfold num_lines, zlen. rewrite Hl2, (f_equal length Hls).
    rewrite !length_app. cbn [length]. lia.
  - unfold get_line. rewrite Hl2. rewrite array_get_middle by lia. by apply HokJ.
Qed.

(** ** Cursor keys *)

(** Case analysis on a condition that contains no other condition. *)
Ltac split_if :=
  match goal with
  | |- context [if ?b then _ else _] =>
      lazymatch b with
      | context [if _ then _ else _] => fail
      | context [match _ with _ => _ end] => fail
      | _ => destruct b eqn:?
      end
  end.

Lemma move_cursor_lines (key : Z) (E : EditorState) :
  lines (editor_move_cursor key E) = lines E.
Proof.
  unfold editor_move_cursor, line_at_cursor.
  repeat match goal with
         | |- context [if ?b then _ else _] => destruct b
         end; reflexivity.
Qed.

Lemma move_cursor_cursor (key : Z) (E : EditorState) :
  (cursor_y (editor_move_cursor key E), cursor_x (editor_move_cursor key E)) =
  moved_cursor key E.
Proof.
  unfold editor_move_cursor, moved_cursor, line_at_cursor, get_line, num_lines.
  cbn [lines cursor_x cursor_y mark_lines_dirty set_dirty_range].
  repeat (split_if; cbn [lines cursor_x cursor_y set_cursor_x set_cursor_y
                               mark_lines_dirty set_dirty_range]);
    reflexivity.
Qed.

(** Whatever key is given, [editor_move_cursor] leaves the text alone and
    puts the cursor inside it: on a row or on the row after the last one,
    and not beyond the end of that row. *)
Theorem move_cursor_keeps_cursor_in_text :
  forall (key : Z) (E : EditorState),
    sizes_ok E -> 0 <= cursor_y E <= num_lines E -> 0 <= cursor_x E ->
    lines (editor_move_cursor key E) = lines E /\
    cursor_ok (editor_move_cursor key E).
Proof.
  intros key E Hs Hy Hx. split; [apply move_cursor_lines |].
  pose proof (move_cursor_cursor key E) as Hc.
  unfold cursor_ok, num_lines, get_line. rewrite move_cursor_lines.
  fold (num_lines E). fold (get_line E (cursor_y (editor_move_cursor key E))).
  set (y' := cursor_y (editor_move_cursor key E)) in *.
  set (x' := cursor_x (editor_move_cursor key E)) in *.
  clearbody y' x'. unfold moved_cursor in Hc.
  pose proof (Hs (cursor_y E - 1)) as H1.
  pose proof (Hs (cursor_y E)) as H2.
  pose proof (Hs (cursor_y E + 1)) as H3.
  repeat match type of Hc with
         | context [if ?b then _ else _] =>
             lazymatch b with
             | context [if _ then _ else _] => fail
             | _ => destruct b eqn:?
             end
         end;
    injection Hc as -> ->; repeat split_if; lia.
Qed.

(** Case analysis on the conditions of a hypothesis, innermost first. *)
Ltac split_if_in H :=
  match type of H with
  | context [if ?b then _ else _] =>
      lazymatch b with
      | context [if _ then _ else _] => fail
      | _ => destruct b eqn:?
      end
  end.

Lemma moved_cursor_ext (key : Z) (E1 E2 : EditorState) :
  lines E1 = lines E2 -> cursor_y E1 = cursor_y E2 -> cursor_x E1 = cursor_x E2 ->
  moved_cursor key E1 = moved_cursor key E2.
Proof.
  intros Hl Hy Hx. unfold moved_cursor, num_lines, get_line.
  by rewrite Hl, Hy, Hx.
Qed.

Lemma move_cursor_twice (k1 k2 : Z) (E : EditorState) :
  let E1 := editor_move_cursor k1 E in
  let E2 := editor_move_cursor k2 E1 in
  (cursor_y E2, cursor_x E2) =
  moved_cursor k2 (set_cursor (fst (moved_cursor k1 E)) (snd (moved_cursor k1 E)) E).
Proof.
  intros E1 E2. unfold E2. rewrite move_cursor_cursor.
  pose proof (move_cursor_cursor k1 E) as H1. fold E1 in H1.
  apply moved_cursor_ext.
  - unfold E1. by rewrite move_cursor_lines.
  - by rewrite <- H1.
  - by rewrite <- H1.
Qed.

(** Left undoes Right and Right undoes Left, wherever the first of the two
    keys moves the cursor: Right moves it unless it is at the end of the
    last row, Left unless it is at the start of the first row. *)
Theorem left_and_right_are_inverse :
  forall E : EditorState,
    sizes_ok E -> cursor_ok E -> cursor_y E < num_lines E ->
    (cursor_x E < size (get_line E (cursor_y E)) \/ cursor_y E < num_lines E - 1 ->
     let E' := editor_move_cursor KEY_LEFT (editor_move_cursor KEY_RIGHT E) in
     cursor_y E' = cursor_y E /\ cursor_x E' = cursor_x E) /\
    (0 < cursor_x E \/ 0 < cursor_y E ->
     let E' := editor_move_cursor KEY_RIGHT (editor_move_cursor KEY_LEFT E) in
     cursor_y E' = cursor_y E /\ cursor_x E' = cursor_x E).
Proof.
  intros E Hs (Hy & Hx) Hrow.
  destruct (Z.ltb_spec (cursor_y E) (num_lines E)) as [_ | ?]; [| lia].
  pose proof (Hs (cursor_y E - 1)) as H1.
  pose proof (Hs (cursor_y E)) as H2.
  pose proof (Hs (cursor_y E + 1)) as H3.
  split; intros Hmove E'.
  - pose proof (move_cursor_twice KEY_RIGHT KEY_LEFT E) as Hc. cbv zeta in Hc.
    fold E' in Hc.
    set (y' := cursor_y E') in *. set (x' := cursor_x E') in *. clearbody y' x'.
    unfold moved_cursor, num_lines, get_line in Hc.
    cbn [lines cursor_x cursor_y set_cursor set_cursor_x set_cursor_y] in Hc.
    fold (num_lines E) in Hc.
    change (KEY_RIGHT =? KEY_LEFT) with false in Hc.
    change (KEY_RIGHT =? KEY_RIGHT) with true in Hc.
    change (KEY_LEFT =? KEY_LEFT) with true in Hc. cbv iota in Hc.
    repeat (split_if_in Hc; cbn [fst snd] in Hc);
      injection Hc as -> ->; unfold get_line in *;
      rewrite ?Z.add_simpl_r, ?Z.sub_add in *; split; lia.
  - pose proof (move_cursor_twice KEY_LEFT KEY_RIGHT E) as Hc. cbv zeta in Hc.
    fold E' in Hc.
    set (y' := cursor_y E') in *. set (x' := cursor_x E') in *. clearbody y' x'.
    unfold moved_cursor, num_lines, get_line in Hc.
    cbn [lines cursor_x cursor_y set_cursor set_cursor_x set_cursor_y] in Hc.
    fold (num_lines E) in Hc.
    change (KEY_RIGHT =? KEY_LEFT) with false in Hc.
    change (KEY_RIGHT =? KEY_RIGHT) with true in Hc.
    change (KEY_LEFT =? KEY_LEFT) with true in Hc. cbv iota in Hc.
    repeat (split_if_in Hc; cbn [fst snd] in Hc);
      injection Hc as -> ->; unfold get_line in *;
      rewrite ?Z.add_simpl_r, ?Z.sub_add in *; split; lia.
Qed.

(** ** The Delete key *)

(** Delete inside a row that has been drawn (it has its tag buffer)
    returns, removes the character under the cursor and leaves the cursor
    where it is.  Nothing is recorded for it: both logs are as before, so
    the deletion cannot be undone. *)
Theorem delete_key_removes_character_at_cursor :
  forall E : EditorState,
    0 <= cursor_y E < num_lines E ->
    line_ok (get_line E (cursor_y E)) ->
    hl_allocated (get_line E (cursor_y E)) ->
    0 <= cursor_x E < size (get_line E (cursor_y E)) ->
    let t := line_text (get_line E (cursor_y E)) in
    exists E', delete_key E = Some E' /\
    document E' =
      take (Z.to_nat (cursor_y E)) (document E) ++
      (take (Z.to_nat (cursor_x E)) t ++ drop (Datatypes.S (Z.to_nat (cursor_x E))) t)
      :: drop (Datatypes.S (Z.to_nat (cursor_y E))) (document E) /\
    cursor_y E' = cursor_y E /\ cursor_x E' = cursor_x E /\
    dirty E' = true /\
    undo_history E' = undo_history E /\ undo_head E' = undo_head E /\
    redo_history E' = redo_history E /\ redo_head E' = redo_head E.
Proof.
  intros E Hy Hok Hhl Hx t. subst t. unfold delete_key.
  destruct (Z.ltb_spec (cursor_x E) (size (get_line E (cursor_y E)))) as [_ | ?]; [| lia].
  destruct (delete_char_returns (get_line E (cursor_y E)) (cursor_x E))
    as [line' Hline']; [right; by apply hl_allocated_has_hl |].
  rewrite (on_line_spec _ _ _ line') by done.
  eexists. split; [reflexivity |].
  destruct (document_update_line (cursor_y E) (fun _ => line') E Hy) as (Hdoc & _ & _).
  destruct (line_delete_char_spec (get_line E (cursor_y E)) (cursor_x E) line' Hok Hx
              Hline') as (_ & Htxt).
  split; [| done].
  unfold document in *.
  cbn [lines mark_lines_dirty set_dirty_range set_dirty cursor_y].
  by rewrite Hdoc, Htxt.
Qed.

Lemma delete_key_join_lines (E : EditorState) (pre post : list EditorLine)
      (C Nx : EditorLine) :
  lines E = pre ++ C :: Nx :: post -> cursor_y E = zlen pre -> size C <= cursor_x E ->
  exists E', delete_key E = Some E' /\
    lines E' = pre ++ append_to_line C (chars Nx) (size Nx) :: post /\
    cursor_y E' = cursor_y E /\ cursor_x E' = cursor_x E /\
    dirty E' = true.
Proof.
  intros Hls Hy Hx. unfold delete_key.
  assert (Hn : num_lines E = zlen pre + 2 + zlen post).
  { unfold num_lines, zlen. rewrite Hls, length_app. simpl. lia. }
  pose proof (zlen_nonneg pre) as Hpre. pose proof (zlen_nonneg post) as Hpost.
  assert (HgC : get_line E (cursor_y E) = C).
  { unfold get_line. rewrite Hls. by apply array_get_middle. }
  assert (HgN : get_line E (cursor_y E + 1) = Nx).
  { unfold get_line. rewrite Hls, (cons_middle C), app_assoc. apply array_get_middle.
    rewrite Hy. unfold zlen. rewrite length_app. simpl. lia. }
  rewrite HgC, HgN.
  destruct (Z.ltb_spec (cursor_x E) (size C)) as [? | _]; [lia |].
  destruct (Z.ltb_spec (cursor_y E) (num_lines E - 1)) as [_ | ?]; [| lia].
  eexists. split; [reflexivity |].
  set (ua := mkUndoAction UNDO_JOIN_LINES _ _ _ _ _ _).
  destruct (push_undo_keeps_document ua E) as (Hl & Hcx & Hcy).
  destruct (push_undo_keeps_num_lines ua E) as (_ & Hg).
  set (E0 := push_undo_action ua E) in *.
  rewrite ?Hcy, Hg, HgN.
  set (E1 := update_line (cursor_y E) _ E0).
  assert (Hl1 : lines E1 = pre ++ append_to_line C (chars Nx) (size Nx) :: Nx :: post).
  { unfold E1. state_simpl. rewrite Hg, HgC, Hl, Hls. by apply array_set_middle. }
  assert (Hc1 : cursor_y E1 = cursor_y E /\ cursor_x E1 = cursor_x E).
  { unfold E1. state_simpl. done. }
  destruct Hc1 as (Hy1 & Hx1). rewrite Hy1.
  destruct (lines_delete_line (cursor_y E + 1) E1) as (Hl2 & Hx2 & Hy2).
  { unfold num_lines, zlen in *. rewrite Hl1, length_app. cbn [length]. lia. }
  cbn [lines cursor_x cursor_y dirty mark_lines_dirty set_dirty_range set_dirty].
  rewrite Hl2, Hy2, Hx2, Hl1, Hy1, Hx1. split; [| done].
  set (J := append_to_line C (chars Nx) (size Nx)).
  assert (Ht : take (Z.to_nat (cursor_y E + 1)) (pre ++ J :: Nx :: post) = pre ++ [J]).
  { apply take_drop_after_middle. unfold zlen in *. lia. }
  assert (Hdr : drop (Z.to_nat (cursor_y E + 1 + 1)) (pre ++ J :: Nx :: post) = post).
  { rewrite (cons_middle J), app_assoc. apply take_drop_after_middle.
    unfold zlen in *. rewrite length_app. simpl. lia. }
  rewrite Ht, Hdr. by rewrite <- app_assoc.
Qed.

(** Delete with the cursor at the end of a row that has a row below it
    returns and joins the two: the row gets the text of the next row appended, the
    next row disappears and the cursor stays where it is. *)
Theorem delete_key_at_end_joins_next_row :
  forall E : EditorState,
    0 <= cursor_y E < num_lines E - 1 ->
    size (get_line E (cursor_y E)) <= cursor_x E ->
    line_ok (get_line E (cursor_y E)) -> line_ok (get_line E (cursor_y E + 1)) ->
    exists E', delete_key E = Some E' /\
    document E' =
      take (Z.to_nat (cursor_y E)) (document E) ++
      (line_text (get_line E (cursor_y E)) ++ line_text (get_line E (cursor_y E + 1)))
      :: drop (Datatypes.S (Datatypes.S (Z.to_nat (cursor_y E)))) (document E) /\
    cursor_y E' = cursor_y E /\ cursor_x E' = cursor_x E /\
    num_lines E' = num_lines E - 1 /\ dirty E' = true /\
    line_ok (get_line E' (cursor_y E)).
Proof.
  intros E Hy Hx HokC HokN.
  pose proof Hy as Hy'. unfold num_lines, zlen in Hy'.
  set (p := Z.to_nat (cursor_y E)).
  destruct (lookup_lt_is_Some_2 (lines E) p) as [C HC]; [unfold p; lia |].
  destruct (lookup_lt_is_Some_2 (lines E) (Datatypes.S p)) as [Nx HN]; [unfold p; lia |].
  assert (HgC : get_line E (cursor_y E) = C) by (apply get_line_lookup; [lia | done]).
  assert (HgN : get_line E (cursor_y E + 1) = Nx).
  { apply get_line_lookup; [lia |].
    by replace (Z.to_nat (cursor_y E + 1)) with (Datatypes.S p) by (unfold p; lia). }
  rewrite HgC, HgN in *.
  assert (Hls : lines E = take p (lines E) ++ C :: Nx ::
                            drop (Datatypes.S (Datatypes.S p)) (lines E)).
  { rewrite <- (take_drop_middle (lines E) p C HC) at 1. f_equal. f_equal.
    apply drop_S. done. }
  assert (Htk : take p (document E) = map line_text (take p (lines E)))
    by (unfold document; by rewrite firstn_map).
  assert (Hdr : drop (Datatypes.S (Datatypes.S p)) (document E) =
                map line_text (drop (Datatypes.S (Datatypes.S p)) (lines E)))
    by (unfold document; by rewrite skipn_map).
  rewrite Htk, Hdr.
  set (pre := take p (lines E)) in *.
  set (post := drop (Datatypes.S (Datatypes.S p)) (lines E)) in *.
  assert (Hpre : cursor_y E = zlen pre).
  { unfold zlen, pre. rewrite length_take. unfold p. lia. }
  destruct (delete_key_join_lines E pre post C Nx Hls Hpre Hx)
    as (E' & Hret & Hl2 & Hy2 & Hx2 & Hd2).
  exists E'. split; [done |].
  destruct (line_ok_terminator Nx HokN) as (HnulN & HroomN).
  destruct (append_to_line_text C (chars Nx) (size Nx) HokC) as (Hsz & Htxt & HokJ);
    [destruct HokN as (_ & ? & _); lia | done |].
  split; [| split; [done | split; [done | split; [| split; [done |]]]]].
  - unfold document. by rewrite Hl2, map_app, map_cons, Htxt.
  - unfold num_lines, zlen. rewrite Hl2, (f_equal length Hls).
    rewrite !length_app. cbn [length]. lia.
  - unfold get_line. rewrite Hl2. rewrite array_get_middle by lia. by apply HokJ.
Qed.

(** ** Tabs and rendered columns *)

Lemma render_step_bounds (c : ascii) (rx : Z) :
  0 <= rx -> rx + 1 <= render_step c rx <= rx + TAB_STOP.
Proof.
  intros Hrx. unfold render_step, TAB_STOP.
  pose proof (Z.rem_bound_pos rx 4 Hrx ltac:(lia)).
  destruct (chr_eqb c TAB); lia.
Qed.

Lemma cx_to_rx_succ (row : EditorLine) (k : Z) :
  0 <= k ->
  editor_row_cx_to_rx (Some row) (k + 1) =
  render_step (array_get NUL (chars row) k) (editor_row_cx_to_rx (Some row) k).
Proof.
  intros Hk. unfold editor_row_cx_to_rx.
  replace (Z.to_nat (k + 1)) with (Datatypes.S (Z.to_nat k)) by lia.
  rewrite for_loop_snoc. f_equal. f_equal. lia.
Qed.

Lemma cx_to_rx_bounds (row : EditorLine) (k : Z) :
  0 <= k -> k <= editor_row_cx_to_rx (Some row) k <= TAB_STOP * k.
Proof.
  revert k. apply (natlike_ind (fun k => k <= editor_row_cx_to_rx (Some row) k <= TAB_STOP * k)).
  - unfold TAB_STOP. simpl. lia.
  - intros k Hk IH. unfold Z.succ. rewrite cx_to_rx_succ by done.
    pose proof (render_step_bounds (array_get NUL (chars row) k)
                  (editor_row_cx_to_rx (Some row) k) ltac:(lia)).
    unfold TAB_STOP in *. lia.
Qed.

Lemma cx_to_rx_increasing (row : EditorLine) (a b : Z) :
  0 <= a -> a < b ->
  editor_row_cx_to_rx (Some row) a < editor_row_cx_to_rx (Some row) b.
Proof.
  intros Ha Hab.
  assert (Hgen : forall d, 0 <= d ->
             editor_row_cx_to_rx (Some row) a < editor_row_cx_to_rx (Some row) (a + 1 + d)).
  { apply (natlike_ind (fun d => editor_row_cx_to_rx (Some row) a <
                                 editor_row_cx_to_rx (Some row) (a + 1 + d))).
    - rewrite Z.add_0_r, cx_to_rx_succ by done.
      pose proof (cx_to_rx_bounds row a Ha).
      pose proof (render_step_bounds (array_get NUL (chars row) a)
                    (editor_row_cx_to_rx (Some row) a) ltac:(lia)). lia.
    - intros d Hd IH.
      replace (a + 1 + Z.succ d) with ((a + 1 + d) + 1) by lia.
      rewrite cx_to_rx_succ by lia.
      pose proof (cx_to_rx_bounds row (a + 1 + d) ltac:(lia)).
      pose proof (render_step_bounds (array_get NUL (chars row) (a + 1 + d))
                    (editor_row_cx_to_rx (Some row) (a + 1 + d)) ltac:(lia)). lia. }
  replace b with (a + 1 + (b - a - 1)) by lia. apply Hgen. lia.
Qed.

Lemma rx_to_cx_loop_finds (row : EditorLine) (c : Z) (fuel : nat) :
  forall k : Z,
    0 <= k <= c -> c <= size row -> fuel = Z.to_nat (size row - k) ->
    rx_to_cx_loop fuel row (editor_row_cx_to_rx (Some row) c)
      (editor_row_cx_to_rx (Some row) k) k = c.
Proof.
  induction fuel as [| fuel IH]; intros k Hk Hc Hfuel.
  - simpl. lia.
  - cbn [rx_to_cx_loop].
    destruct (Z.ltb_spec k (size row)) as [_ | ?]; [| lia].
    rewrite <- cx_to_rx_succ by lia.
    destruct (Z.eq_dec k c) as [-> | Hne].
    + pose proof (cx_to_rx_increasing row c (c + 1) ltac:(lia) ltac:(lia)).
      destruct (Z.ltb_spec (editor_row_cx_to_rx (Some row) c)
                  (editor_row_cx_to_rx (Some row) (c + 1))); [done | lia].
    + assert (Hle : editor_row_cx_to_rx (Some row) (k + 1) <=
                    editor_row_cx_to_rx (Some row) c).
      { destruct (Z.eq_dec (k + 1) c) as [-> | ?]; [lia |].
        pose proof (cx_to_rx_increasing row (k + 1) c ltac:(lia) ltac:(lia)). lia. }
      destruct (Z.ltb_spec (editor_row_cx_to_rx (Some row) c)
                  (editor_row_cx_to_rx (Some row) (k + 1))); [lia |].
      apply IH; lia.
Qed.

(** Converting a character index of a row to its rendered column and back
    gives the index again, whatever tabs the row holds. *)
Theorem rendered_column_round_trip :
  forall (row : EditorLine) (cx : Z),
    0 <= cx <= size row ->
    editor_row_rx_to_cx (Some row) (editor_row_cx_to_rx (Some row) cx) = cx.
Proof.
  intros row cx Hcx. unfold editor_row_rx_to_cx.
  change 0 with (editor_row_cx_to_rx (Some row) 0) at 1.
  apply rx_to_cx_loop_finds; lia.
Qed.

Lemma rx_to_cx_loop_covers (row : EditorLine) (rx : Z) (fuel : nat) :
  forall k : Z,
    0 <= k <= size row -> fuel = Z.to_nat (size row - k) ->
    editor_row_cx_to_rx (Some row) k <= rx ->
    let r := rx_to_cx_loop fuel row rx (editor_row_cx_to_rx (Some row) k) k in
    k <= r <= size row /\
    editor_row_cx_to_rx (Some row) r <= rx /\
    (r < size row -> rx < editor_row_cx_to_rx (Some row) (r + 1)).
Proof.
  induction fuel as [| fuel IH]; intros k Hk Hfuel Hrx r; subst r.
  - simpl. split; [lia |]. split; [done | lia].
  - cbn [rx_to_cx_loop].
    destruct (Z.ltb_spec k (size row)) as [_ | ?]; [| lia].
    rewrite <- cx_to_rx_succ by lia.
    destruct (Z.ltb_spec rx (editor_row_cx_to_rx (Some row) (k + 1))) as [Hlt | Hge].
    + split; [lia |]. split; [done | by intros _].
    + destruct (IH (k + 1)) as (Hr & Hle & Hnext); [lia | lia | done |].
      split; [lia |]. split; [done | done].
Qed.

(** [editor_row_rx_to_cx] finds the character drawn over a rendered
    column: the index it returns is in the row, its own rendered column is
    at or before [rx], and the next character starts after [rx]; past the
    rendered end of the row it returns the size of the row. *)
Theorem rx_to_cx_finds_character_under_column :
  forall (row : EditorLine) (rx : Z),
    0 <= size row -> 0 <= rx ->
    let cx := editor_row_rx_to_cx (Some row) rx in
    0 <= cx <= size row /\
    editor_row_cx_to_rx (Some row) cx <= rx /\
    (cx < size row -> rx < editor_row_cx_to_rx (Some row) (cx + 1)).
Proof.
  intros row rx Hsize Hrx cx. subst cx. unfold editor_row_rx_to_cx.
  change (rx_to_cx_loop (Z.to_nat (size row)) row rx 0 0)
    with (rx_to_cx_loop (Z.to_nat (size row)) row rx
            (editor_row_cx_to_rx (Some row) 0) 0).
  apply rx_to_cx_loop_covers; [lia | f_equal; lia | done].
Qed.

(** ** Visual mode *)

(** A position is in the selection exactly when visual mode is on and the
    position lies between the anchor and the cursor, whichever of the two
    comes first: from the earlier one on, and before the later one. *)
Theorem selection_is_half_open_interval :
  forall (E : EditorState) (row col : Z),
    is_char_in_selection E row col = true <->
    visual_mode E = true /\
    ((pos_le (visual_start_y E) (visual_start_x E) row col /\
      pos_lt row col (cursor_y E) (cursor_x E)) \/
     (pos_le (cursor_y E) (cursor_x E) row col /\
      pos_lt row col (visual_start_y E) (visual_start_x E))).
Proof.
  intros E row col.
  unfold is_char_in_selection, get_normalized_selection_coords, pos_le, pos_lt.
  destruct (visual_mode E); cbn [negb]; [| split; [discriminate | intros (? & _); discriminate]].
  repeat (split_if; cbv beta iota zeta); cbn [orb andb] in *; lia.
Qed.

(** Toggling visual mode never leaves anything selected: switched on, the
    anchor is put on the cursor, so the selection starts empty. *)
Theorem toggle_visual_mode_selects_nothing :
  forall (E : EditorState) (row col : Z),
    is_char_in_selection (editor_toggle_visual_mode E) row col = false /\
    visual_mode (editor_toggle_visual_mode E) = negb (visual_mode E) /\
    lines (editor_toggle_visual_mode E) = lines E.
Proof.
  intros E row col. split; [| split].
  - unfold is_char_in_selection, get_normalized_selection_coords,
      editor_toggle_visual_mode.
    destruct (visual_mode E); [done |].
    cbn [negb visual_mode visual_start_x visual_start_y cursor_x cursor_y
         mark_lines_dirty set_dirty_range set_status_message set_status
         set_visual_start set_visual_mode].
    repeat (split_if; cbv beta iota zeta); cbn [orb andb] in *; lia.
  - unfold editor_toggle_visual_mode. by destruct (visual_mode E).
  - unfold editor_toggle_visual_mode. by destruct (visual_mode E).
Qed.

(** After Select All every character of the file is in the selection, and
    the text itself is unchanged. *)
Theorem select_all_selects_every_character :
  forall (E : EditorState) (row col : Z),
    0 <= row < num_lines E -> 0 <= col < size (get_line E row) ->
    is_char_in_selection (editor_select_all E) row col = true /\
    lines (editor_select_all E) = lines E.
Proof.
  intros E row col Hrow Hcol.
  assert (Hl : lines (editor_select_all E) = lines E).
  { unfold editor_select_all. by destruct (num_lines E =? 0). }
  split; [| done].
  unfold is_char_in_selection, get_normalized_selection_coords, editor_select_all.
  destruct (Z.eqb_spec (num_lines E) 0) as [? | _]; [lia |].
  cbn [negb visual_mode visual_start_x visual_start_y cursor_x cursor_y
       mark_lines_dirty set_dirty_range set_status_message set_status
       set_cursor_x set_cursor_y set_visual_start set_visual_mode].
  unfold num_lines, get_line in *.
  cbn [lines set_visual_start set_visual_mode set_cursor_y].
  destruct (Z.eq_dec row (zlen (lines E) - 1)) as [-> | ?];
    repeat (split_if; cbv beta iota zeta); cbn [orb andb] in *; lia.
Qed.

(** ** Collecting keys and leaving command mode *)

Lemma collected_append_key (key : Z) (E : EditorState) :
  0 <= cmd_length (cmd E) -> cmd_length (cmd E) + 1 < zlen (cmd_sequence (cmd E)) ->
  collected (append_key key E) = collected E ++ [char_of_int key] /\
  array_get NUL (cmd_sequence (cmd (append_key key E)))
            (cmd_length (cmd (append_key key E))) = NUL.
Proof.
  unfold zlen. intros Hlen Hroom. unfold collected, append_key.
  cbn [cmd set_cmd cmd_sequence cmd_length]. split.
  - rewrite take_array_set_ge by lia.
    replace (Z.to_nat (cmd_length (cmd E) + 1))
      with (Datatypes.S (Z.to_nat (cmd_length (cmd E)))) by lia.
    unfold array_set. destruct (Z.ltb_spec (cmd_length (cmd E)) 0); [lia |].
    rewrite (take_S_r _ _ (char_of_int key)) by (apply list_lookup_insert_eq; lia).
    by rewrite take_insert_ge by lia.
  - apply array_get_set_eq. rewrite zlen_array_set. unfold zlen. lia.
Qed.

(** A printable key pressed in time is appended to the sequence while
    fewer than [MAX_COMMAND_SEQUENCE_LENGTH - 1] keys are collected; once
    that many are collected the key is dropped and the sequence stays as
    it is.  Either way the machine stays in the mode it is in.  (The colon
    is left out: with keys collected it opens creative mode.) *)
Theorem printable_key_is_collected_until_full :
  forall (enter_creative_mode autocomplete_command execute_command_sequence
            : EditorState -> EditorState)
         (key now : Z) (E : EditorState),
    isprint key = true -> key <> code ":" ->
    1000 * (now - cmd_last_key_time (cmd E)) <= COMMAND_TIMEOUT_MS ->
    zlen (cmd_sequence (cmd E)) = MAX_COMMAND_SEQUENCE_LENGTH ->
    0 <= cmd_length (cmd E) ->
    let E' := handle_command_mode_input enter_creative_mode autocomplete_command
                execute_command_sequence key now E in
    (cmd_length (cmd E) < MAX_COMMAND_SEQUENCE_LENGTH - 1 ->
     collected E' = collected E ++ [char_of_int key] /\
     cmd_length (cmd E') = cmd_length (cmd E) + 1 /\
     array_get NUL (cmd_sequence (cmd E')) (cmd_length (cmd E')) = NUL) /\
    (MAX_COMMAND_SEQUENCE_LENGTH - 1 <= cmd_length (cmd E) ->
     cmd_sequence (cmd E') = cmd_sequence (cmd E) /\
     cmd_length (cmd E') = cmd_length (cmd E)) /\
    cmd_active (cmd E') = cmd_active (cmd E) /\
    cmd_last_key_time (cmd E') = now /\
    lines E' = lines E.
Proof.
  intros ecm ac ecs key now E Hprint Hcolon Htime Hlen Hpos E'. subst E'.
  unfold handle_command_mode_input.
  destruct (Z.ltb_spec COMMAND_TIMEOUT_MS (1000 * (now - cmd_last_key_time (cmd E))));
    [lia |].
  destruct (Z.eqb_spec key (code ":")) as [? | _]; [done |]. cbn [andb].
  assert (Hother : (key =? code "009") = false /\
                   ((key =? KEY_ENTER) || (key =? code "010")) = false /\
                   ((key =? KEY_BACKSPACE) || (key =? 127)) = false /\
                   (key =? 27) = false).
  { unfold isprint, KEY_ENTER, KEY_BACKSPACE in *.
    change (code "009") with 9. change (code "010") with 10. lia. }
  destruct Hother as (-> & -> & -> & ->). rewrite Hprint. cbn [andb].
  unfold MAX_COMMAND_SEQUENCE_LENGTH in *.
  destruct (Z.ltb_spec (cmd_length (cmd E)) (10 - 1)) as [Hroom | Hfull].
  - destruct (collected_append_key key E Hpos ltac:(lia)) as (Hcol & Hnul).
    split; [| split; [intros; lia | done]].
    intros _. split; [exact Hcol |]. split; [done | exact Hnul].
  - split; [intros; lia |]. split; [| done]. intros _. done.
Qed.

(** Command mode is left, with nothing collected and an empty status
    line, when a key arrives after the timeout, and in time on Escape, on
    Enter (after the command has run) and on Backspace with nothing
    collected.  The messages written just before about the timeout and the
    cancellation are overwritten by the empty one. *)
Theorem command_mode_exits_with_empty_status :
  forall (enter_creative_mode autocomplete_command execute_command_sequence
            : EditorState -> EditorState)
         (key now : Z) (E : EditorState),
    COMMAND_TIMEOUT_MS < 1000 * (now - cmd_last_key_time (cmd E)) \/
    key = 27 \/ key = KEY_ENTER \/ key = code "010" \/
    ((key = KEY_BACKSPACE \/ key = 127) /\ cmd_length (cmd E) = 0) ->
    let E' := handle_command_mode_input enter_creative_mode autocomplete_command
                execute_command_sequence key now E in
    cmd_active (cmd E') = false /\ cmd_length (cmd E') = 0 /\ collected E' = [] /\
    creative_mode E' = false /\ status_message E' = [].
Proof.
  intros ecm ac ecs key now E Hcase E'. subst E'.
  unfold handle_command_mode_input.
  destruct (Z.ltb_spec COMMAND_TIMEOUT_MS (1000 * (now - cmd_last_key_time (cmd E))))
    as [| Htime]; [done |].
  destruct Hcase as [? | Hkey]; [lia |].
  assert (Hother : (key =? code ":") = false /\ (key =? code "009") = false /\
                   isprint key = false).
  { unfold isprint, KEY_ENTER, KEY_BACKSPACE in *.
    change (code "010") with 10 in Hkey.
    change (code "009") with 9. change (code ":") with 58. lia. }
  destruct Hother as (-> & -> & ->). cbn [andb].
  unfold KEY_ENTER, KEY_BACKSPACE in *.
  destruct Hkey as [-> | [-> | [-> | ([-> | ->] & Hlen)]]];
    try change (code "010") with 10; cbn [Z.eqb Pos.eqb orb];
    rewrite ?Hlen; done.
Qed.

(** ** Deleting a block of text *)

Lemma line_ok_truncate (x : Z) (line : EditorLine) :
  line_ok line -> 0 <= x <= size line -> line_ok (truncate_line x line).
Proof.
  intros (Hlen & Hsz & _) Hx. unfold line_ok. line_simpl.
  rewrite zlen_array_set. split; [done |]. split; [lia |].
  apply array_get_set_eq. lia.
Qed.

(** The statements of [editor_delete_text_block] for a range inside one
    row. *)
Lemma cut_inside_row_text (line : EditorLine) (sx ex : Z) :
  line_ok line -> 0 <= sx <= ex -> ex <= size line ->
  let line' :=
    bump_revision
      (set_size (size line - (ex - sx))
         (set_chars (memmove (chars line) sx ex (size line - ex + 1)) line)) in
  line_text line' =
    take (Z.to_nat sx) (line_text line) ++ drop (Z.to_nat ex) (line_text line) /\
  line_ok line'.
Proof.
  intros Hok Hsx Hex line'. subst line'.
  destruct (line_ok_terminator line Hok) as (Hnul & Hroom).
  destruct Hok as (Hlen & Hsz & _). unfold zlen in Hlen.
  set (data := block_read (chars line) ex (size line - ex + 1)).
  assert (Hdata : length data = Z.to_nat (size line - ex + 1)).
  { unfold data, block_read. rewrite length_take, length_drop. lia. }
  split.
  - unfold line_text at 1. line_simpl. unfold memmove. fold data.
    rewrite (take_block_write _ _ _ (Z.to_nat (size line - ex))) by lia.
    rewrite take_line_text by lia. f_equal.
    unfold data, block_read. rewrite take_take, drop_line_text. f_equal. lia.
  - unfold line_ok. line_simpl. unfold memmove. fold data.
    unfold zlen. rewrite length_block_write. split; [done |]. split; [lia |].
    apply array_get_lookup; [lia |].
    replace (Z.to_nat (size line - (ex - sx)))
      with (Z.to_nat sx + Z.to_nat (size line - ex))%nat by lia.
    rewrite lookup_block_write by lia.
    unfold data, block_read. rewrite lookup_take_lt by lia.
    rewrite lookup_drop. rewrite <- Hnul. f_equal. lia.
Qed.

(** A run of [editor_delete_line] at the same index removes that many
    rows. *)
Lemma delete_rows_loop (n : nat) (at_ : Z) (E : EditorState) :
  0 <= at_ -> at_ + Z.of_nat n <= num_lines E ->
  let E' := for_loop n 0 (fun _ E => editor_delete_line at_ E) E in
  lines E' = take (Z.to_nat at_) (lines E) ++ drop (Z.to_nat at_ + n) (lines E) /\
  cursor_x E' = cursor_x E /\ cursor_y E' = cursor_y E.
Proof.
  intros Hat. revert E. generalize 0.
  induction n as [| n IH]; intros i E Hn E'; subst E'.
  - cbn [for_loop]. rewrite Nat.add_0_r, take_drop. done.
  - cbn [for_loop].
    destruct (lines_delete_line at_ E) as (Hl & Hx & Hy); [lia |].
    set (E1 := editor_delete_line at_ E) in *.
    assert (Hlen1 : num_lines E1 = num_lines E - 1).
    { unfold num_lines, zlen in *. rewrite Hl, length_app, length_take, length_drop. lia. }
    destruct (IH (i + 1) E1) as (Hl2 & Hx2 & Hy2); [lia |].
    rewrite Hl2, Hx2, Hy2, Hl. split; [| done].
    unfold num_lines, zlen in *.
    rewrite take_app_le by (rewrite length_take; lia).
    rewrite take_take. rewrite drop_app_ge by (rewrite length_take; lia).
    rewrite length_take, drop_drop. f_equal; f_equal; lia.
Qed.

(** The effect of [editor_delete_text_block] on the document, for a range
    that lies in the text. *)
Lemma delete_text_block_spec :
  forall (sy sx ey ex : Z) (E : EditorState),
    0 <= sy <= ey -> ey < num_lines E ->
    line_ok (get_line E sy) -> line_ok (get_line E ey) ->
    0 <= sx <= size (get_line E sy) -> 0 <= ex <= size (get_line E ey) ->
    (sy = ey -> sx <= ex) ->
    let E' := editor_delete_text_block sy sx ey ex E in
    document E' =
      take (Z.to_nat sy) (document E) ++
      (take (Z.to_nat sx) (line_text (get_line E sy)) ++
       drop (Z.to_nat ex) (line_text (get_line E ey)))
      :: drop (Datatypes.S (Z.to_nat ey)) (document E) /\
    num_lines E' = num_lines E - (ey - sy) /\
    cursor_y E' = cursor_y E /\ cursor_x E' = cursor_x E /\
    line_ok (get_line E' sy).
Proof.
  intros sy sx ey ex E Hsy Hey HokS HokE Hsx Hex Hsame E'. subst E'.
  unfold editor_delete_text_block.
  assert (Hguard : ((sy <? 0) || (num_lines E <=? sy) || (ey <? 0) ||
                    (num_lines E <=? ey)) = false) by lia.
  rewrite Hguard.
  destruct (Z.eqb_spec sy ey) as [<- | Hne].
  - destruct (document_update_line sy
                (fun line =>
                   bump_revision
                     (set_size (size line - (ex - sx))
                        (set_chars (memmove (chars line) sx ex (size line - ex + 1))
                           line))) E) as (Hdoc & Hrow & Hnum); [lia |].
    destruct (cut_inside_row_text (get_line E sy) sx ex HokS) as (Htxt & Hok');
      [lia | lia |].
    set (E1 := update_line sy _ E) in *.
    split; [| split; [| split; [done | split; [done |]]]].
    + unfold document in *.
      cbn [lines mark_lines_dirty set_dirty_range]. by rewrite Hdoc, Htxt.
    + unfold num_lines in *. cbn [lines mark_lines_dirty set_dirty_range]. lia.
    + unfold get_line in *. cbn [lines mark_lines_dirty set_dirty_range].
      by rewrite Hrow.
  - set (S' := append_to_line (truncate_line sx (get_line E sy))
                 (ptr_at (chars (get_line E ey)) ex) (size (get_line E ey) - ex)).
    destruct (line_ok_terminator _ HokE) as (HnulE & HroomE).
    destruct (append_to_line_text (truncate_line sx (get_line E sy))
                (ptr_at (chars (get_line E ey)) ex) (size (get_line E ey) - ex))
      as (_ & Htxt & HokJ).
    { by apply line_ok_truncate. }
    { lia. }
    { unfold ptr_at. rewrite length_drop. lia. }
    fold S' in Htxt, HokJ.
    assert (HokS' : line_ok S').
    { apply HokJ. unfold ptr_at. rewrite lookup_drop. rewrite <- HnulE. f_equal. lia. }
    assert (HtxtS' : line_text S' =
                     take (Z.to_nat sx) (line_text (get_line E sy)) ++
                     drop (Z.to_nat ex) (line_text (get_line E ey))).
    { rewrite Htxt, line_text_truncate by done. f_equal.
      rewrite drop_line_text. unfold ptr_at. f_equal. lia. }
    set (E1 := update_line sy (truncate_line sx) E).
    assert (Hg1 : get_line E1 ey = get_line E ey).
    { unfold E1, get_line. cbn [lines update_line set_lines].
      apply array_get_set_ne; lia. }
    assert (Hg1s : get_line E1 sy = truncate_line sx (get_line E sy)).
    { unfold E1, get_line. cbn [lines update_line set_lines].
      apply array_get_set_eq. unfold num_lines in *. lia. }
    rewrite Hg1.
    set (E2 := update_line sy _ E1).
    assert (Hl2 : lines E2 = array_set (lines E) sy S').
    { unfold E2. cbn [lines update_line set_lines]. rewrite Hg1s. fold S'.
      unfold E1. cbn [lines update_line set_lines].
      unfold array_set. destruct (Z.ltb_spec sy 0); [lia |].
      apply list_insert_insert_eq. }
    assert (Hn2 : num_lines E2 = num_lines E).
    { unfold num_lines. by rewrite Hl2, zlen_array_set. }
    destruct (delete_rows_loop (Z.to_nat (ey - sy)) (sy + 1) E2) as (Hl3 & Hx3 & Hy3);
      [lia | lia |].
    set (E3 := for_loop _ 0 _ E2) in *.
    assert (Hlines : lines E3 =
                     take (Z.to_nat sy) (lines E) ++ S' ::
                     drop (Datatypes.S (Z.to_nat ey)) (lines E)).
    { rewrite Hl3, Hl2. unfold array_set. destruct (Z.ltb_spec sy 0); [lia |].
      unfold num_lines, zlen in *.
      rewrite insert_take_drop by lia.
      replace (Z.to_nat (sy + 1)) with (Datatypes.S (Z.to_nat sy)) by lia.
      set (pre := take (Z.to_nat sy) (lines E)).
      set (post1 := drop (Datatypes.S (Z.to_nat sy)) (lines E)).
      assert (Hpre : Datatypes.S (Z.to_nat sy) = Datatypes.S (length pre))
        by (unfold pre; rewrite length_take; lia).
      destruct (take_drop_after_middle pre post1 S' _ Hpre) as (Ht & Hd).
      rewrite Ht, <- drop_drop, Hd. unfold post1. rewrite drop_drop.
      rewrite <- app_assoc. cbn [app]. f_equal. f_equal. f_equal. lia. }
    split; [| split; [| split; [done | split; [done |]]]].
    + unfold document. cbn [lines mark_lines_dirty set_dirty_range].
      rewrite Hlines, map_app, map_cons, firstn_map, skipn_map. by rewrite HtxtS'.
    + unfold num_lines, zlen in *. cbn [lines mark_lines_dirty set_dirty_range].
      rewrite Hlines, length_app, length_take. cbn [length]. rewrite length_drop. lia.
    + unfold get_line. cbn [lines mark_lines_dirty set_dirty_range].
      rewrite Hlines. rewrite array_get_middle; [done |].
      unfold num_lines, zlen in *. rewrite length_take. lia.
Qed.

(** [editor_delete_text_block] removes the text from [(sy, sx)] up to, not
    including, [(ey, ex)]: what is left of the rows of the range is one
    row, the start of row [sy] before column [sx] followed by the rest of
    row [ey] from column [ex] on.  The cursor is not moved. *)
Theorem delete_text_block_removes_range :
  forall (sy sx ey ex : Z) (E : EditorState),
    0 <= sy <= ey -> ey < num_lines E ->
    line_ok (get_line E sy) -> line_ok (get_line E ey) ->
    0 <= sx <= size (get_line E sy) -> 0 <= ex <= size (get_line E ey) ->
    (sy = ey -> sx <= ex) ->
    let E' := editor_delete_text_block sy sx ey ex E in
    document E' =
      take (Z.to_nat sy) (document E) ++
      (take (Z.to_nat sx) (line_text (get_line E sy)) ++
       drop (Z.to_nat ex) (line_text (get_line E ey)))
      :: drop (Datatypes.S (Z.to_nat ey)) (document E) /\
    num_lines E' = num_lines E - (ey - sy) /\
    cursor_y E' = cursor_y E /\ cursor_x E' = cursor_x E /\
    line_ok (get_line E' sy).
Proof.
  intros sy sx ey ex E Hsy Hey HokS HokE Hsx Hex Hsame E'. subst E'.
  exact (delete_text_block_spec sy sx ey ex E Hsy Hey HokS HokE Hsx Hex Hsame).
Qed.

(** ** Line commands *)

(** When the array of rows is full, [editor_duplicate_line] on an
    existing row faults: the insertion moves the array, and the row is
    read again through the pointer taken before. *)
Lemma duplicate_line_faults_when_rows_move (E : EditorState) :
  cursor_y E < num_lines E -> allocated_lines E < num_lines E + 1 ->
  editor_duplicate_line E = None.
Proof.
  intros Hy Hfull. unfold editor_duplicate_line.
  destruct (Z.leb_spec (num_lines E) (cursor_y E)) as [? | _]; [lia |].
  cbv zeta. by destruct (Z.ltb_spec (allocated_lines E) (num_lines E + 1)); [| lia].
Qed.

(** Duplicating the cursor row, when the array of rows has room for one
    more row, returns and puts a copy of the row's text right below it;
    the cursor stays on the original. *)
Theorem duplicate_line_copies_row :
  forall E : EditorState,
    0 <= cursor_y E < num_lines E ->
    num_lines E < allocated_lines E ->
    line_ok (get_line E (cursor_y E)) ->
    let t := line_text (get_line E (cursor_y E)) in
    exists E', editor_duplicate_line E = Some E' /\
    document E' =
      take (Datatypes.S (Z.to_nat (cursor_y E))) (document E) ++
      t :: drop (Datatypes.S (Z.to_nat (cursor_y E))) (document E) /\
    num_lines E' = num_lines E + 1 /\
    cursor_y E' = cursor_y E /\ cursor_x E' = cursor_x E /\
    dirty E' = true.
Proof.
  intros E Hy Hroom Hok t. subst t. unfold editor_duplicate_line.
  destruct (Z.leb_spec (num_lines E) (cursor_y E)) as [? | _]; [lia |].
  cbv zeta. destruct (Z.ltb_spec (allocated_lines E) (num_lines E + 1)); [lia |].
  eexists. split; [reflexivity |].
  set (line := get_line E (cursor_y E)) in *.
  destruct (insert_line_keeps_cursor (cursor_y E + 1) (chars line) (size line) E)
    as (Hcx & Hcy).
  pose proof (lines_insert_line (cursor_y E + 1) (chars line) (size line) E
                ltac:(lia)) as Hl.
  assert (Hd : dirty (editor_insert_line (cursor_y E + 1) (chars line) (size line) E)
               = true).
  { unfold editor_insert_line.
    assert (((cursor_y E + 1 <? 0) || (num_lines E <? cursor_y E + 1)) = false) as ->
      by lia.
    by destruct (allocated_lines E <? num_lines E + 1). }
  set (E1 := editor_insert_line _ _ _ E) in *.
  rewrite Hcy.
  set (ua := mkUndoAction UNDO_INSERT_BLOCK _ _ _ _ _ _).
  destruct (push_undo_keeps_document ua E1) as (Hl2 & Hx2 & Hy2).
  assert (Hd2 : dirty (push_undo_action ua E1) = dirty E1).
  { unfold push_undo_action. by destruct (undo_head E1 =? MAX_UNDO_HISTORY). }
  unfold document, num_lines.
  cbn [lines cursor_x cursor_y dirty set_status_message set_status].
  rewrite Hl2, Hx2, Hy2, Hd2, Hl.
  destruct (line_ok_terminator line Hok) as (_ & Hterm).
  destruct Hok as (_ & Hsz & _).
  replace (Z.to_nat (cursor_y E + 1)) with (Datatypes.S (Z.to_nat (cursor_y E))) by lia.
  split; [| split; [| done]].
  - rewrite map_app, map_cons, firstn_map, skipn_map. f_equal. f_equal.
    apply line_text_inserted_line. unfold zlen. lia.
  - unfold zlen in *. rewrite length_app, length_take. cbn [length].
    rewrite length_drop. unfold num_lines, zlen in *. lia.
Qed.

Lemma change_case_loop (f : ascii -> ascii) (cs : list ascii) (n : nat) :
  (n <= length cs)%nat ->
  for_loop n 0 (fun i cs => array_set cs i (f (array_get NUL cs i))) cs =
  map f (take n cs) ++ drop n cs.
Proof.
  induction n as [| n IH]; intros Hn; [done |].
  rewrite for_loop_snoc, IH by lia. rewrite Z.add_0_l.
  destruct (lookup_lt_is_Some_2 cs n) as [c Hc]; [lia |].
  assert (Hget : array_get NUL (map f (take n cs) ++ drop n cs) (Z.of_nat n) = c).
  { apply array_get_lookup; [lia |]. rewrite Nat2Z.id.
    rewrite lookup_app_r by (rewrite length_map, length_take; lia).
    rewrite length_map, length_take, lookup_drop.
    rewrite <- Hc. f_equal. lia. }
  rewrite Hget. rewrite (take_S_r _ _ c) by done. rewrite map_app. cbn [map].
  rewrite (drop_S cs c n) by done.
  rewrite <- app_assoc. cbn [app].
  apply array_set_middle. unfold zlen. rewrite length_map, length_take. lia.
Qed.

Lemma change_case_text (to_upper : bool) (line : EditorLine) :
  line_ok line ->
  line_text (change_case to_upper line) =
    map (if to_upper then toupper else tolower) (line_text line) /\
  size (change_case to_upper line) = size line /\
  line_ok (change_case to_upper line).
Proof.
  intros Hok. destruct (line_ok_terminator line Hok) as (Hnul & Hroom).
  destruct Hok as (Hlen & Hsz & _). unfold zlen in Hlen.
  unfold change_case. rewrite change_case_loop by lia.
  split; [| split; [done |]].
  - unfold line_text. line_simpl.
    rewrite take_app_length' by (rewrite length_map, length_take; lia). done.
  - unfold line_ok. line_simpl. unfold zlen.
    rewrite length_app, length_map, length_take, length_drop.
    split; [lia |]. split; [lia |].
    apply array_get_lookup; [lia |].
    rewrite lookup_app_r by (rewrite length_map, length_take; lia).
    rewrite length_map, length_take, lookup_drop. rewrite <- Hnul. f_equal. lia.
Qed.

(** Changing the case of the cursor row maps every character of its text
    to upper (or lower) case and nothing else: the other rows, the size of
    the row and the cursor are as before.  The modified flag is left as it
    was, although the text may have changed. *)
Theorem change_line_case_maps_row_text :
  forall (to_upper : bool) (E : EditorState),
    0 <= cursor_y E < num_lines E ->
    line_ok (get_line E (cursor_y E)) ->
    let t := line_text (get_line E (cursor_y E)) in
    let E' := editor_change_line_case to_upper E in
    document E' =
      take (Z.to_nat (cursor_y E)) (document E) ++
      map (if to_upper then toupper else tolower) t
      :: drop (Datatypes.S (Z.to_nat (cursor_y E))) (document E) /\
    cursor_y E' = cursor_y E /\ cursor_x E' = cursor_x E /\
    dirty E' = dirty E /\
    line_ok (get_line E' (cursor_y E)).
Proof.
  intros to_upper E Hy Hok t E'. subst t E'. unfold editor_change_line_case.
  destruct (Z.leb_spec (num_lines E) (cursor_y E)) as [? | _]; [lia |].
  set (ua := mkUndoAction UNDO_MODIFY_LINE_CASE _ _ _ _ _ _).
  destruct (push_undo_keeps_document ua E) as (Hl & Hcx & Hcy).
  destruct (push_undo_keeps_num_lines ua E) as (Hn & Hg).
  assert (Hd : dirty (push_undo_action ua E) = dirty E).
  { unfold push_undo_action. by destruct (undo_head E =? MAX_UNDO_HISTORY). }
  set (E0 := push_undo_action ua E) in *. rewrite Hcy.
  destruct (document_update_line (cursor_y E) (change_case to_upper) E0)
    as (Hdoc & Hrow & Hnum); [lia |].
  destruct (change_case_text to_upper (get_line E (cursor_y E)) Hok)
    as (Htxt & _ & Hok').
  assert (Hdoc0 : document E0 = document E) by (unfold document; by rewrite Hl).
  rewrite Hg in Hdoc, Hrow. rewrite Hdoc0, Htxt in Hdoc.
  set (E1 := update_line (cursor_y E) (change_case to_upper) E0) in *.
  assert (Hc1 : cursor_y E1 = cursor_y E /\ cursor_x E1 = cursor_x E /\
                dirty E1 = dirty E).
  { unfold E1. cbn [cursor_x cursor_y dirty update_line set_lines]. done. }
  destruct Hc1 as (Hy1 & Hx1 & Hd1).
  unfold document, get_line in *.
  cbn [lines cursor_x cursor_y dirty mark_lines_dirty set_dirty_range
       set_status_message set_status].
  rewrite ?Hy1. cbn [lines cursor_x cursor_y dirty mark_lines_dirty set_dirty_range].
  rewrite ?Hy1, ?Hx1, ?Hd1, Hdoc, Hrow. done.
Qed.

(** ** Recently opened files *)

Lemma shift_down_loop (m : nat) :
  forall (k : nat) (rf : list (option (list ascii))),
    (m <= k < length rf)%nat ->
    for_loop_down m (Z.of_nat k)
      (fun j rf => array_set rf j (array_get None rf (j - 1))) rf =
    take (k - m + 1) rf ++ take m (drop (k - m) rf) ++ drop (k + 1) rf.
Proof.
  induction m as [| m IH]; intros k rf Hk.
  - cbn [for_loop_down]. rewrite Nat.sub_0_r, take_0. cbn [app]. by rewrite take_drop.
  - cbn [for_loop_down].
    destruct (lookup_lt_is_Some_2 rf (k - 1)) as [x Hx]; [lia |].
    destruct (lookup_lt_is_Some_2 rf k) as [y Hy]; [lia |].
    assert (Hget : array_get None rf (Z.of_nat k - 1) = x).
    { apply array_get_lookup; [lia |].
      by replace (Z.to_nat (Z.of_nat k - 1)) with (k - 1)%nat by lia. }
    rewrite Hget. unfold array_set at 2.
    destruct (Z.ltb_spec (Z.of_nat k) 0); [lia |]. rewrite Nat2Z.id.
    replace (Z.of_nat k - 1) with (Z.of_nat (k - 1)) by lia.
    rewrite IH by (rewrite length_insert; lia).
    replace (k - 1 - m + 1)%nat with (k - m)%nat by lia.
    replace (k - 1 + 1)%nat with k by lia.
    replace (k - Datatypes.S m + 1)%nat with (k - m)%nat by lia.
    rewrite take_insert_ge by lia.
    rewrite (drop_insert_ge _ (k - 1 - m)) by lia.
    rewrite take_insert_ge by lia.
    rewrite (drop_insert_ge _ k) by lia. rewrite Nat.sub_diag.
    rewrite (drop_S rf y k Hy). cbn [insert list_insert].
    replace (k - Datatypes.S m)%nat with (k - 1 - m)%nat by lia.
    rewrite (take_S_r _ _ x).
    + replace (k + 1)%nat with (Datatypes.S k) by lia.
      by rewrite <- !app_assoc.
    + rewrite lookup_drop. rewrite <- Hx. f_equal. lia.
Qed.

Lemma shift_up_to_spec (k : Z) (rf : list (option (list ascii))) :
  0 <= k < zlen rf ->
  shift_up_to k rf = take 1 rf ++ take (Z.to_nat k) rf ++ drop (Z.to_nat k + 1) rf.
Proof.
  unfold zlen. intros Hk. unfold shift_up_to.
  rewrite <- (Z2Nat.id k) at 2 by lia.
  rewrite shift_down_loop by lia. rewrite Nat.sub_diag. done.
Qed.

Lemma find_recent_finds (filename : list ascii) (R : RecentFiles) (i : Z)
      (s : list ascii) (fuel : nat) :
  forall k : Z,
    0 <= k <= i -> i < num_recent_files R -> (Z.to_nat (i - k) < fuel)%nat ->
    recent_files R !! Z.to_nat i = Some (Some s) -> strcmp_eq s filename = true ->
    (forall j s', k <= j < i -> recent_files R !! Z.to_nat j = Some (Some s') ->
                  strcmp_eq s' filename = false) ->
    find_recent fuel k R filename = Some i.
Proof.
  induction fuel as [| fuel IH]; intros k Hk Hi Hfuel Hs Heq Hbefore; [lia |].
  cbn [find_recent]. destruct (Z.ltb_spec k (num_recent_files R)); [| lia].
  destruct (Z.eq_dec k i) as [-> | Hne].
  - rewrite (array_get_lookup None _ i (Some s)) by (done || lia). by rewrite Heq.
  - assert (Hnext : find_recent fuel (k + 1) R filename = Some i).
    { apply IH; try done; try lia. intros j s' Hj. apply Hbefore. lia. }
    unfold array_get. destruct (Z.ltb_spec k 0); [lia |].
    destruct (recent_files R !! Z.to_nat k) as [[s' |] |] eqn:Hk'; simpl;
      [| done | done].
    by rewrite (Hbefore k s') by (done || lia).
Qed.

Lemma find_recent_none (filename : list ascii) (R : RecentFiles) (fuel : nat) :
  forall k : Z,
    0 <= k ->
    (forall j s', k <= j < num_recent_files R ->
                  recent_files R !! Z.to_nat j = Some (Some s') ->
                  strcmp_eq s' filename = false) ->
    find_recent fuel k R filename = None.
Proof.
  induction fuel as [| fuel IH]; intros k Hk Hnone; [done |].
  cbn [find_recent]. destruct (Z.ltb_spec k (num_recent_files R)); [| done].
  assert (Hnext : find_recent fuel (k + 1) R filename = None).
  { apply IH; [lia |]. intros j s' Hj. apply Hnone. lia. }
  unfold array_get. destruct (Z.ltb_spec k 0); [lia |].
  destruct (recent_files R !! Z.to_nat k) as [[s' |] |] eqn:Hk'; simpl;
    [| done | done].
  by rewrite (Hnone k s') by (done || lia).
Qed.

(** A file that is already in the list is moved to the front: the entries
    before it move one place down, the others stay, and the list keeps its
    length. *)
Theorem recent_file_found_moves_to_front :
  forall (filename s : list ascii) (R : RecentFiles) (i : Z),
    zlen (recent_files R) = MAX_RECENT_FILES ->
    num_recent_files R <= MAX_RECENT_FILES ->
    0 <= i < num_recent_files R ->
    recent_files R !! Z.to_nat i = Some (Some s) -> strcmp_eq s filename = true ->
    not_listed filename R i ->
    let R' := add_to_recent_files (Some filename) R in
    recent_files R' =
      Some s :: take (Z.to_nat i) (recent_files R) ++
      drop (Z.to_nat i + 1) (recent_files R) /\
    num_recent_files R' = num_recent_files R.
Proof.
  intros filename s R i Hlen Hmax Hi Hs Heq Hbefore R'. subst R'.
  unfold add_to_recent_files.
  assert (Hfind : find_recent (Z.to_nat (num_recent_files R)) 0 R filename = Some i).
  { apply (find_recent_finds filename R i s);
      first [done | lia | intros j s' Hj; apply Hbefore; lia]. }
  rewrite Hfind. cbn [recent_files num_recent_files]. split; [| done].
  rewrite (array_get_lookup None _ i (Some s)) by (done || lia).
  rewrite shift_up_to_spec by (unfold MAX_RECENT_FILES in *; lia).
  destruct (recent_files R) as [| r0 rest] eqn:Hrf; [done |].
  cbn [take app]. done.
Qed.

(** A file that is not yet in the list is stored in slot 0.  When the list
    is full the other entries move one place down and the last one is
    dropped.  When the list is not full nothing is moved: the former first
    entry is overwritten, while the number of entries still grows by one. *)
Theorem recent_file_new_entry_takes_slot_0 :
  forall (filename : list ascii) (R : RecentFiles),
    zlen (recent_files R) = MAX_RECENT_FILES ->
    0 <= num_recent_files R <= MAX_RECENT_FILES ->
    not_listed filename R (num_recent_files R) ->
    let R' := add_to_recent_files (Some filename) R in
    (num_recent_files R = MAX_RECENT_FILES ->
     recent_files R' =
       Some (strdup filename) ::
       take (Z.to_nat (MAX_RECENT_FILES - 1)) (recent_files R) /\
     num_recent_files R' = MAX_RECENT_FILES) /\
    (num_recent_files R < MAX_RECENT_FILES ->
     recent_files R' = Some (strdup filename) :: drop 1 (recent_files R) /\
     num_recent_files R' = num_recent_files R + 1).
Proof.
  intros filename R Hlen Hn Hnone R'. subst R'. unfold add_to_recent_files.
  assert (Hfind : find_recent (Z.to_nat (num_recent_files R)) 0 R filename = None).
  { apply find_recent_none; [lia |]. intros j s' Hj. apply Hnone. lia. }
  rewrite Hfind. unfold MAX_RECENT_FILES in *.
  destruct (recent_files R) as [| r0 rest] eqn:Hrf; [done |].
  split; intros Hcase.
  - destruct (Z.eqb_spec (num_recent_files R) 10) as [_ | ?]; [| lia].
    cbn [recent_files num_recent_files]. split; [| lia].
    rewrite shift_up_to_spec by lia.
    unfold zlen in Hlen. cbn [length] in Hlen.
    change (Z.to_nat (10 - 1)) with 9%nat. cbn [take app array_set Z.ltb Z.compare].
    cbn [Z.to_nat insert list_insert]. f_equal.
    rewrite drop_ge by (cbn [length]; lia). by rewrite app_nil_r.
  - destruct (Z.eqb_spec (num_recent_files R) 10) as [? | _]; [lia |].
    rewrite Hrf. done.
Qed.

(** ** Completion of command sequences *)

Lemma tolower_nul (c : ascii) : tolower c = NUL -> c = NUL.
Proof.
  destruct c as [[] [] [] [] [] [] [] []]; vm_compute; intros H; try done;
    discriminate H.
Qed.

Lemma chr_eqb_eq (a b : ascii) : chr_eqb a b = true <-> a = b.
Proof. apply Ascii.eqb_eq. Qed.

(** A match of [strncasecmp] on [n] characters, none of them NUL in the
    second string, says that the second string spells the start of the
    first one, up to case. *)
Lemma strncasecmp_prefix (n : nat) :
  forall a b : list ascii,
    strncasecmp_eq a b n = true ->
    (n <= length b)%nat -> Forall (fun ch => ch <> NUL) (take n b) ->
    map tolower (take n b) = map tolower (take n (cstr a)) /\
    (n <= length (cstr a))%nat.
Proof.
  induction n as [| n IH]; intros a b Heq Hlen Hnn; [split; [done | lia] |].
  destruct b as [| cb b]; [cbn [length] in Hlen; lia |].
  cbn [take] in Hnn. apply Forall_cons in Hnn as (Hcb & Hnn).
  cbn [strncasecmp_eq hd tl] in Heq.
  destruct (chr_eqb (tolower (hd NUL a)) (tolower cb)) eqn:Hc; [| done].
  apply chr_eqb_eq in Hc.
  assert (Hca : tolower (hd NUL a) <> NUL).
  { rewrite Hc. intros Hn. by apply tolower_nul in Hn. }
  destruct (chr_eqb (tolower (hd NUL a)) NUL) eqn:Hz;
    [by apply chr_eqb_eq in Hz |].
  destruct a as [| ca a]; [done |]. cbn [hd tl] in *.
  assert (Hne : chr_eqb ca NUL = false).
  { destruct (chr_eqb ca NUL) eqn:Hq; [| done].
    apply chr_eqb_eq in Hq. by subst ca. }
  cbn [cstr]. rewrite Hne.
  destruct (IH a b Heq) as (Hmap & Hl); [cbn [length] in Hlen; lia | done |].
  cbn [take map length]. split; [by rewrite Hc, Hmap | lia].
Qed.

Lemma command_table_fits : Forall fits_sequence command_table.
Proof.
  unfold command_table. cbn [map].
  repeat (apply List.Forall_cons; [split; [reflexivity | vm_compute; discriminate] |]).
  apply List.Forall_nil.
Qed.

Lemma strcpy_sequence (dst c : list ascii) :
  zlen dst = MAX_COMMAND_SEQUENCE_LENGTH -> fits_sequence c ->
  take (Z.to_nat (strlen c)) (strcpy dst c) = cstr c /\
  array_get NUL (strcpy dst c) (strlen c) = NUL.
Proof.
  unfold zlen. intros Hlen (Hterm & Hfit). unfold strcpy, memcpy.
  rewrite block_read_0, Hterm.
  assert (Hs : strlen c = Z.of_nat (length (cstr c))) by done.
  split.
  - rewrite (take_block_write _ _ 0 (length (cstr c))).
    + cbn [Z.to_nat take app]. by rewrite take_app_length.
    + rewrite length_app. cbn [length Z.to_nat]. lia.
    + rewrite length_app. cbn [length]. lia.
    + cbn [Z.to_nat]. lia.
  - apply array_get_lookup; [lia |].
    replace (Z.to_nat (strlen c)) with (Z.to_nat 0 + length (cstr c))%nat by lia.
    rewrite lookup_block_write.
    + by rewrite list_lookup_middle.
    + rewrite length_app. cbn [length Z.to_nat]. lia.
    + rewrite length_app. cbn [length]. lia.
Qed.

Lemma autocomplete_loop_spec (E : EditorState) (commands : list (list ascii)) :
  let typed := cmd_sequence (cmd E) in
  let n := Z.to_nat (cmd_length (cmd E)) in
  let E' := autocomplete_loop commands E in
  lines E' = lines E /\ cmd_active (cmd E') = cmd_active (cmd E) /\
  ((exists (i : nat) (c : list ascii),
       commands !! i = Some c /\ strncasecmp_eq c typed n = true /\
       (forall (j : nat) (c' : list ascii),
           (j < i)%nat -> commands !! j = Some c' -> strncasecmp_eq c' typed n = false) /\
       cmd_sequence (cmd E') = strcpy typed c /\ cmd_length (cmd E') = strlen c) \/
   ((forall c, In c commands -> strncasecmp_eq c typed n = false) /\ cmd E' = cmd E)).
Proof.
  intros typed n. induction commands as [| c rest IH]; intros E'; subst E'.
  - cbn [autocomplete_loop]. split; [done |]. split; [done |]. right.
    split; [intros c [] | done].
  - cbn [autocomplete_loop]. fold typed n.
    destruct (strncasecmp_eq c typed n) eqn:Hm.
    + split; [done |]. split; [done |]. left. exists 0%nat, c.
      split; [done |]. split; [done |]. split; [intros j c' Hj; lia | done].
    + destruct IH as (Hl & Ha & [(i & c1 & Hi & Hm1 & Hfirst & Hseq & Hlen) | (Hnone & Hcmd)]).
      * split; [done |]. split; [done |]. left. exists (Datatypes.S i), c1.
        split; [done |]. split; [done |]. split; [| done].
        intros [| j] c' Hj Hc'; [cbn in Hc'; by injection Hc' as <- |].
        apply (Hfirst j); [lia | done].
      * split; [done |]. split; [done |]. right. split; [| done].
        intros c' [<- | Hin]; [done | by apply Hnone].
Qed.

(** Tab in command mode replaces the collected keys by the first entry of
    the command table that starts with them, up to case, and leaves the
    sequence alone when no entry does.  The completed sequence is
    NUL-terminated and the text of the file is not touched. *)
Theorem autocomplete_gives_first_matching_command :
  forall E : EditorState,
    zlen (cmd_sequence (cmd E)) = MAX_COMMAND_SEQUENCE_LENGTH ->
    0 <= cmd_length (cmd E) < MAX_COMMAND_SEQUENCE_LENGTH ->
    let typed := cmd_sequence (cmd E) in
    let n := Z.to_nat (cmd_length (cmd E)) in
    let E' := autocomplete_command E in
    lines E' = lines E /\ cmd_active (cmd E') = cmd_active (cmd E) /\
    ((exists (i : nat) (c : list ascii),
         command_table !! i = Some c /\ strncasecmp_eq c typed n = true /\
         (forall (j : nat) (c' : list ascii),
             (j < i)%nat -> command_table !! j = Some c' ->
             strncasecmp_eq c' typed n = false) /\
         collected E' = cstr c /\
         array_get NUL (cmd_sequence (cmd E')) (cmd_length (cmd E')) = NUL /\
         (Forall (fun ch => ch <> NUL) (collected E) ->
          map tolower (collected E) = map tolower (take n (collected E')))) \/
     ((forall c, In c command_table -> strncasecmp_eq c typed n = false) /\
      cmd E' = cmd E)).
Proof.
  intros E Hlen Hn typed n E'. subst E'. unfold autocomplete_command.
  destruct (autocomplete_loop_spec E command_table)
    as (Hl & Ha & [(i & c & Hi & Hm & Hfirst & Hseq & Hlen') | Hnone]).
  - split; [done |]. split; [done |]. left. exists i, c.
    assert (Hfit : fits_sequence c).
    { pose proof command_table_fits as Hall.
      rewrite Forall_lookup in Hall. by apply (Hall i). }
    destruct (strcpy_sequence (cmd_sequence (cmd E)) c Hlen Hfit) as (Htake & Hnul).
    assert (Hcol : collected (autocomplete_loop command_table E) = cstr c).
    { unfold collected. by rewrite Hseq, Hlen'. }
    split; [done |]. split; [done |]. split; [done |]. split; [done |].
    split; [by rewrite Hseq, Hlen' |].
    intros Hnn. rewrite Hcol. unfold collected in *. fold typed n in Hnn |- *.
    apply (strncasecmp_prefix n c typed Hm); [| done].
    unfold typed, n, zlen in *. lia.
  - split; [done |]. split; [done |]. by right.
Qed.

(** ** Undoing the line commands *)

(** What [editor_undo] does to the lines and the cursor for a block
    insertion on top of the log. *)
Lemma undo_insert_block (E : EditorState) :
  undo_head E <> 0 ->
  let ua := array_get null_action (undo_history E) (undo_head E - 1) in
  let E2 := set_undo (undo_history E) (undo_head E - 1) E in
  ua_type ua = UNDO_INSERT_BLOCK ->
  exists E', editor_undo E = Some E' /\
  lines E' =
    lines (editor_delete_text_block (ua_y ua) (ua_x ua)
             (ua_y ua + num_lines_affected ua - 1)
             (if num_lines_affected ua =? 1 then ua_x ua + text_len ua
              else strlen (last_line_start (text_of ua) (text_of ua))) E2) /\
  cursor_y E' = ua_y ua /\ cursor_x E' = ua_x ua.
Proof.
  intros Hhead ua E2 Htype. unfold editor_undo.
  destruct (Z.eqb_spec (undo_head E) 0) as [| _]; [done |].
  cbv zeta. cbn [undo_history undo_head set_undo]. fold ua. rewrite Htype.
  unfold block_coords. cbv zeta.
  eexists. split; [reflexivity |].
  match goal with
  | |- context [push_redo_action ?a ?X] =>
      destruct (push_redo_keeps_document a X) as (-> & -> & ->)
  end.
  done.
Qed.

(** The same for a change of case on top of the log. *)
Lemma undo_modify_line_case (E : EditorState) :
  undo_head E <> 0 ->
  let ua := array_get null_action (undo_history E) (undo_head E - 1) in
  ua_type ua = UNDO_MODIFY_LINE_CASE ->
  exists E', editor_undo E = Some E' /\
  lines E' =
    array_set (lines E) (ua_y ua)
      (replace_line_content (text_of ua) (text_len ua) (get_line E (ua_y ua))) /\
  cursor_y E' = ua_y ua /\ cursor_x E' = ua_x ua.
Proof.
  intros Hhead ua Htype. unfold editor_undo.
  destruct (Z.eqb_spec (undo_head E) 0) as [| _]; [done |].
  cbv zeta. cbn [undo_history undo_head set_undo]. fold ua. rewrite Htype.
  eexists. split; [reflexivity |].
  match goal with
  | |- context [push_redo_action ?a ?X] =>
      destruct (push_redo_keeps_document a X) as (-> & -> & ->)
  end.
  done.
Qed.

Lemma dirty_push_undo (a : UndoAction) (E : EditorState) :
  dirty (push_undo_action a E) = dirty E.
Proof. unfold push_undo_action. by destruct (undo_head E =? MAX_UNDO_HISTORY). Qed.

(** The rows and the top of the undo log after [editor_duplicate_line]. *)
Lemma duplicate_line_state (E : EditorState) :
  zlen (undo_history E) = MAX_UNDO_HISTORY ->
  0 <= undo_head E <= MAX_UNDO_HISTORY ->
  0 <= cursor_y E < num_lines E ->
  num_lines E < allocated_lines E ->
  let L := get_line E (cursor_y E) in
  exists E1, editor_duplicate_line E = Some E1 /\
  lines E1 =
    take (Datatypes.S (Z.to_nat (cursor_y E))) (lines E) ++
    inserted_line (chars L) (size L) ::
    drop (Datatypes.S (Z.to_nat (cursor_y E))) (lines E) /\
  1 <= undo_head E1 /\
  array_get null_action (undo_history E1) (undo_head E1 - 1) =
    stored (mkUndoAction UNDO_INSERT_BLOCK (cursor_y E + 1) 0 NUL
              (Some (strdup (chars L))) (size L) 1).
Proof.
  intros Hlen Hhead Hy Hroom L. unfold editor_duplicate_line.
  destruct (Z.leb_spec (num_lines E) (cursor_y E)) as [? | _]; [lia |].
  cbv zeta. destruct (Z.ltb_spec (allocated_lines E) (num_lines E + 1)); [lia |].
  eexists. split; [reflexivity |].
  fold L.
  destruct (insert_line_keeps_cursor (cursor_y E + 1) (chars L) (size L) E)
    as (Hcx & Hcy).
  destruct (insert_line_keeps_undo_log (cursor_y E + 1) (chars L) (size L) E)
    as (Hh & Hn).
  pose proof (lines_insert_line (cursor_y E + 1) (chars L) (size L) E
                ltac:(lia)) as Hl.
  set (E0 := editor_insert_line _ _ _ E) in *. rewrite Hcy.
  set (ua := mkUndoAction UNDO_INSERT_BLOCK _ _ _ _ _ _).
  destruct (push_undo_keeps_document ua E0) as (Hl2 & _ & _).
  destruct (push_undo_top ua E0) as (Hone & Htop); [by rewrite Hh | by rewrite Hn |].
  cbn [lines undo_history undo_head set_status_message set_status].
  rewrite Hl2, Hl.
  replace (Z.to_nat (cursor_y E + 1)) with (Datatypes.S (Z.to_nat (cursor_y E))) by lia.
  done.
Qed.

(** Undo after a duplication (done when the array of rows has room for
    one more row, so that it returns) does not remove the copy: it empties
    it.  The action recorded is the insertion of a block of one row, and
    its undo deletes the characters of the row, so an empty row stays
    below the original and the cursor lands at its start. *)
Theorem undo_of_duplicate_leaves_empty_row :
  forall E : EditorState,
    zlen (undo_history E) = MAX_UNDO_HISTORY ->
    0 <= undo_head E <= MAX_UNDO_HISTORY ->
    0 <= cursor_y E < num_lines E ->
    num_lines E < allocated_lines E ->
    line_ok (get_line E (cursor_y E)) ->
    exists E', mbind editor_undo (editor_duplicate_line E) = Some E' /\
    document E' =
      take (Datatypes.S (Z.to_nat (cursor_y E))) (document E) ++
      [] :: drop (Datatypes.S (Z.to_nat (cursor_y E))) (document E) /\
    num_lines E' = num_lines E + 1 /\
    cursor_y E' = cursor_y E + 1 /\ cursor_x E' = 0.
Proof.
  intros E Hlen Hhead Hy Hfree Hok.
  destruct (duplicate_line_state E Hlen Hhead Hy Hfree) as (E1 & Hret & Hl1 & Hone & Htop).
  rewrite Hret. cbn [mbind option_bind].
  set (L := get_line E (cursor_y E)) in *.
  set (D := inserted_line (chars L) (size L)) in *.
  destruct (undo_insert_block E1) as (E' & Hret' & Hl & Hcy & Hcx);
    [lia | by rewrite Htop |].
  exists E'. split; [done |].
  rewrite Htop in Hl, Hcy, Hcx.
  cbn [stored ua_y ua_x num_lines_affected text_len] in Hl, Hcy, Hcx.
  change (1 =? 1) with true in Hl. cbv iota in Hl.
  replace (cursor_y E + 1 + 1 - 1) with (cursor_y E + 1) in Hl by lia.
  rewrite Z.add_0_l in Hl.
  set (E2 := set_undo (undo_history E1) (undo_head E1 - 1) E1) in *.
  assert (Hl2 : lines E2 = lines E1) by done.
  pose proof Hy as Hy'. unfold num_lines, zlen in Hy'.
  set (pre := take (Datatypes.S (Z.to_nat (cursor_y E))) (lines E)) in *.
  set (post := drop (Datatypes.S (Z.to_nat (cursor_y E))) (lines E)) in *.
  assert (Hpre : cursor_y E + 1 = zlen pre).
  { unfold zlen, pre. rewrite length_take. lia. }
  assert (HgD : get_line E2 (cursor_y E + 1) = D).
  { unfold get_line. rewrite Hl2, Hl1. by apply array_get_middle. }
  destruct (line_ok_terminator L Hok) as (_ & Hroom).
  assert (HokD : line_ok D).
  { apply line_ok_inserted_line. destruct Hok as (_ & ? & _). lia. }
  assert (HsD : size D = size L) by done.
  assert (Hn2 : num_lines E2 = num_lines E + 1).
  { unfold num_lines, zlen. rewrite Hl2, Hl1, length_app. cbn [length].
    unfold pre, post. rewrite length_take, length_drop. lia. }
  assert (Hsz : 0 <= size L) by (destruct Hok as (_ & ? & _); lia).
  destruct (delete_text_block_spec (cursor_y E + 1) 0 (cursor_y E + 1) (size L) E2)
    as (Hdoc & Hnum & _); rewrite ?HgD, ?HsD; try done; try lia.
  rewrite HgD in Hdoc.
  assert (HtD : line_text D = line_text L).
  { apply line_text_inserted_line. destruct Hok as (_ & ? & _). unfold zlen. lia. }
  assert (Hdoc2 : document E2 =
                  take (Datatypes.S (Z.to_nat (cursor_y E))) (document E) ++
                  line_text L :: drop (Datatypes.S (Z.to_nat (cursor_y E))) (document E)).
  { unfold document. rewrite Hl2, Hl1, map_app, map_cons, firstn_map, skipn_map.
    by rewrite HtD. }
  split; [| split; [| done]].
  - unfold document at 1. rewrite Hl. fold (document (editor_delete_text_block
      (cursor_y E + 1) 0 (cursor_y E + 1) (size L) E2)).
    rewrite Hdoc, Hdoc2, HtD.
    set (dpre := take (Datatypes.S (Z.to_nat (cursor_y E))) (document E)).
    set (dpost := drop (Datatypes.S (Z.to_nat (cursor_y E))) (document E)).
    assert (Hdpre : Z.to_nat (cursor_y E + 1) = length dpre).
    { unfold dpre, document. rewrite length_take, length_map. lia. }
    rewrite Hdpre, take_app_length.
    destruct (take_drop_after_middle dpre dpost (line_text L) _ eq_refl) as (_ & ->).
    rewrite take_0. cbn [app]. f_equal. f_equal.
    apply drop_ge. unfold line_text. rewrite length_take. lia.
  - unfold num_lines at 1. rewrite Hl.
    fold (num_lines (editor_delete_text_block (cursor_y E + 1) 0 (cursor_y E + 1)
                       (size L) E2)). lia.
Qed.

Lemma cstr_app_nul (t rest : list ascii) :
  Forall (fun ch => ch <> NUL) t -> cstr (t ++ NUL :: rest) = t.
Proof.
  induction t as [| c t IH]; intros Hnn; [done |].
  apply Forall_cons in Hnn as (Hc & Hnn). cbn [app cstr].
  destruct (chr_eqb c NUL) eqn:Hq; [by apply chr_eqb_eq in Hq |].
  by rewrite IH.
Qed.

Lemma cstr_no_nul (s : list ascii) : Forall (fun ch => ch <> NUL) (cstr s).
Proof.
  induction s as [| c s IH]; [constructor |]. cbn [cstr].
  destruct (chr_eqb c NUL) eqn:Hq; [constructor |].
  constructor; [| done]. intros ->. by rewrite (proj2 (chr_eqb_eq NUL NUL)) in Hq.
Qed.

Lemma cstr_strdup (s : list ascii) : cstr (strdup s) = cstr s.
Proof. unfold strdup. apply cstr_app_nul, cstr_no_nul. Qed.

(** The C string held by a well-formed line whose text contains no NUL is
    that text. *)
Lemma cstr_chars (line : EditorLine) :
  line_ok line -> Forall (fun ch => ch <> NUL) (line_text line) ->
  cstr (chars line) = line_text line.
Proof.
  intros Hok Hnn. destruct (line_ok_terminator line Hok) as (Hnul & _).
  rewrite <- (take_drop_middle (chars line) _ NUL Hnul) at 1.
  by apply cstr_app_nul.
Qed.

(** The rows and the top of the undo log after [editor_change_line_case]. *)
Lemma change_line_case_state (to_upper : bool) (E : EditorState) :
  zlen (undo_history E) = MAX_UNDO_HISTORY ->
  0 <= undo_head E <= MAX_UNDO_HISTORY ->
  0 <= cursor_y E < num_lines E ->
  let L := get_line E (cursor_y E) in
  let E1 := editor_change_line_case to_upper E in
  lines E1 = array_set (lines E) (cursor_y E) (change_case to_upper L) /\
  1 <= undo_head E1 /\
  array_get null_action (undo_history E1) (undo_head E1 - 1) =
    stored (mkUndoAction UNDO_MODIFY_LINE_CASE (cursor_y E) 0 NUL
              (Some (strdup (chars L))) (size L) 1).
Proof.
  intros Hlen Hhead Hy L E1. subst E1. unfold editor_change_line_case.
  destruct (Z.leb_spec (num_lines E) (cursor_y E)) as [? | _]; [lia |].
  fold L. set (ua := mkUndoAction UNDO_MODIFY_LINE_CASE _ _ _ _ _ _).
  destruct (push_undo_keeps_document ua E) as (Hl & _ & Hcy).
  destruct (push_undo_keeps_num_lines ua E) as (_ & Hg).
  destruct (push_undo_top ua E Hlen Hhead) as (Hone & Htop).
  set (E0 := push_undo_action ua E) in *.
  cbn [lines undo_history undo_head set_status_message set_status mark_lines_dirty
       set_dirty_range update_line set_lines].
  by rewrite Hcy, Hg, Hl.
Qed.

(** Undo after a change of case returns and gives the text back, for a
    row whose text holds no NUL character; the cursor is put at the start
    of the row. *)
Theorem undo_of_change_case_restores_text :
  forall (to_upper : bool) (E : EditorState),
    zlen (undo_history E) = MAX_UNDO_HISTORY ->
    0 <= undo_head E <= MAX_UNDO_HISTORY ->
    0 <= cursor_y E < num_lines E ->
    line_ok (get_line E (cursor_y E)) ->
    Forall (fun ch => ch <> NUL) (line_text (get_line E (cursor_y E))) ->
    exists E', editor_undo (editor_change_line_case to_upper E) = Some E' /\
    document E' = document E /\
    cursor_y E' = cursor_y E /\ cursor_x E' = 0.
Proof.
  intros to_upper E Hlen Hhead Hy Hok Hnn.
  destruct (change_line_case_state to_upper E Hlen Hhead Hy) as (Hl1 & Hone & Htop).
  set (L := get_line E (cursor_y E)) in *.
  set (E1 := editor_change_line_case to_upper E) in *.
  destruct (undo_modify_line_case E1) as (E' & Hret & Hl & Hcy & Hcx);
    [lia | by rewrite Htop |].
  exists E'. split; [done |].
  rewrite Htop in Hl, Hcy, Hcx.
  cbn [stored ua_y ua_x text_len] in Hl, Hcy, Hcx.
  split; [| done].
  unfold text_of in Hl. cbn [stored text_content fmap option_fmap option_map default
                             from_option id] in Hl.
  set (R := replace_line_content _ _ _) in Hl.
  assert (HtR : line_text R = line_text L).
  { unfold R, line_text, replace_line_content. cbn [chars size].
    unfold strdup at 1. rewrite !cstr_strdup, (cstr_chars L Hok Hnn).
    apply take_app_length'. unfold line_text. rewrite length_take.
    destruct (line_ok_terminator L Hok). lia. }
  unfold document. rewrite Hl, Hl1.
  unfold array_set. destruct (Z.ltb_spec (cursor_y E) 0); [lia |].
  rewrite list_insert_insert_eq.
  unfold num_lines, zlen in Hy.
  rewrite insert_take_drop by lia.
  rewrite map_app, map_cons, HtR.
  rewrite <- map_cons, <- map_app. f_equal.
  apply take_drop_middle.
  destruct (lookup_lt_is_Some_2 (lines E) (Z.to_nat (cursor_y E))) as [L0 HL0]; [lia |].
  rewrite HL0. f_equal. symmetry. apply get_line_lookup; [lia | done].
Qed.

(** ** Inserting a block of text without line breaks *)

Lemma strchr_none (seg rest : list ascii) (c : ascii) :
  c <> NUL -> Forall (fun ch => ch <> c) seg ->
  strchr (seg ++ NUL :: rest) c = None.
Proof.
  intros Hc. induction seg as [| d seg IH]; intros Hseg.
  - cbn [app strchr].
    destruct (chr_eqb NUL c) eqn:Hq; [apply chr_eqb_eq in Hq; by subst c |].
    by rewrite (proj2 (chr_eqb_eq NUL NUL)).
  - apply Forall_cons in Hseg as (Hd & Hseg). cbn [app strchr].
    destruct (chr_eqb d c) eqn:Hq; [by apply chr_eqb_eq in Hq |].
    rewrite IH by done. by destruct (chr_eqb d NUL).
Qed.

(** [splice_into_line] at the end of a line appends the segment. *)
Lemma splice_at_end_text (line : EditorLine) (seg : list ascii) (len : Z) :
  line_ok line -> 0 <= len -> (Z.to_nat len <= length seg)%nat ->
  let line' := splice_into_line (size line) seg len line in
  line_text line' = line_text line ++ take (Z.to_nat len) seg /\
  size line' = size line + len /\ line_ok line'.
Proof.
  intros (Hlen & Hsz & _) Hl Hseg line'. subst line'.
  unfold splice_into_line, zlen in *.
  set (grown := if allocated line <? size line + len + 1 then _ else line).
  assert (Hg : size grown = size line /\
               Z.of_nat (length (chars grown)) = allocated grown /\
               size line + len + 1 <= allocated grown /\
               take (Z.to_nat (size line)) (chars grown) = line_text line).
  { unfold grown.
    destruct (Z.ltb_spec (allocated line) (size line + len + 1)) as [Hgrow | Hroom].
    - rewrite grown_buffer by (unfold zlen; lia). cbn [size allocated realloc_line].
      split; [done |]. split.
      + rewrite length_app, length_replicate. lia.
      + split; [lia |]. apply take_app_le. lia.
    - split; [done |]. split; [done |]. split; [lia | done]. }
  destruct Hg as (Hgs & Hgl & Hga & Hgt). cbv zeta. line_simpl. rewrite Hgs.
  set (moved := memmove (chars grown) (size line + len) (size line)
                        (size line - size line + 1)).
  assert (Hmoved : length moved = length (chars grown) /\
                   take (Z.to_nat (size line)) moved = line_text line).
  { unfold moved, memmove. rewrite length_block_write. split; [done |].
    rewrite <- Hgt. unfold block_write.
    rewrite take_take.
    rewrite take_app_le by (rewrite length_take; lia).
    rewrite take_take. f_equal. lia. }
  destruct Hmoved as (Hml & Hmt).
  set (data := block_read seg 0 len).
  assert (Hdata : length data = Z.to_nat len /\ data = take (Z.to_nat len) seg).
  { unfold data. rewrite block_read_0, length_take. split; [lia | done]. }
  destruct Hdata as (Hdl & Hde).
  unfold memcpy. fold data.
  split; [| split; [done |]].
  - unfold line_text at 1. line_simpl.
    rewrite take_array_set_ge by lia.
    rewrite (take_block_write _ _ _ (Z.to_nat len)) by lia.
    rewrite Hmt, Hde. f_equal. apply take_ge. rewrite length_take. lia.
  - unfold line_ok. line_simpl. rewrite zlen_array_set. unfold zlen.
    rewrite length_block_write, Hml. split; [done |]. split; [lia |].
    apply array_get_set_eq. unfold zlen. rewrite length_block_write. lia.
Qed.

(** One segment without a line break is handled by one iteration of the
    loop of [editor_insert_text_block]. *)
Lemma insert_segments_single (fuel : nat) (seg rest : list ascii) (y x : Z)
      (E : EditorState) :
  seg <> [] -> Forall (fun ch => ch <> NUL /\ ch <> "010"%char) seg ->
  y < num_lines E ->
  insert_segments (Datatypes.S fuel) (seg ++ NUL :: rest) y x E =
  (y, x + zlen seg,
   update_line y (splice_into_line x (seg ++ NUL :: rest) (zlen seg)) E).
Proof.
  intros Hne Hseg Hy.
  assert (Hnn : Forall (fun ch => ch <> NUL) seg)
    by (eapply Forall_impl; [exact Hseg | by intros ? (? & _)]).
  assert (Hnl : Forall (fun ch => ch <> "010"%char) seg)
    by (eapply Forall_impl; [exact Hseg | by intros ? (_ & ?)]).
  cbn [insert_segments].
  destruct seg as [| c seg']; [done |].
  apply Forall_cons in Hnn as (Hc & Hnn').
  assert (Hfirst : chr_eqb (array_get NUL ((c :: seg') ++ NUL :: rest) 0) NUL = false).
  { cbn. destruct (chr_eqb c NUL) eqn:Hq; [by apply chr_eqb_eq in Hq | done]. }
  rewrite Hfirst.
  rewrite strchr_none by done.
  assert (Hlen : strlen ((c :: seg') ++ NUL :: rest) = zlen (c :: seg')).
  { unfold strlen. rewrite cstr_app_nul; [done |]. by constructor. }
  rewrite Hlen.
  destruct (Z.leb_spec (num_lines E) y) as [? | _]; [lia |].
  assert (Hptr : ptr_at ((c :: seg') ++ NUL :: rest) (zlen (c :: seg')) = NUL :: rest).
  { unfold ptr_at, zlen. rewrite Nat2Z.id. by rewrite drop_app_length. }
  rewrite Hptr.
  destruct fuel as [| fuel]; [done |].
  cbn [insert_segments array_get Z.ltb Z.compare Z.to_nat lookup list_lookup default
       from_option id].
  reflexivity.
Qed.

Lemma lines_update_line_twice (y : Z) (f g : EditorLine -> EditorLine) (E : EditorState) :
  0 <= y < num_lines E ->
  lines (update_line y f (update_line y g E)) =
  lines (update_line y (fun l => f (g l)) E).
Proof.
  intros Hy. unfold update_line, get_line. cbn [lines set_lines].
  rewrite array_get_set_eq by done.
  unfold array_set. destruct (Z.ltb_spec y 0); [lia |].
  apply list_insert_insert_eq.
Qed.

Lemma same_lines (E1 E2 : EditorState) :
  lines E1 = lines E2 ->
  document E1 = document E2 /\ num_lines E1 = num_lines E2 /\
  forall row, get_line E1 row = get_line E2 row.
Proof. intros Hl. unfold document, num_lines, get_line. by rewrite Hl. Qed.

(** The C string that starts at column [x] of a line whose text holds no
    NUL is the rest of the text. *)
Lemma cstr_ptr_at (line : EditorLine) (x : Z) :
  line_ok line -> Forall (fun ch => ch <> NUL) (line_text line) ->
  0 <= x <= size line ->
  cstr (ptr_at (chars line) x) = drop (Z.to_nat x) (line_text line).
Proof.
  intros Hok Hnn Hx. destruct (line_ok_terminator line Hok) as (Hnul & Hroom).
  unfold ptr_at.
  rewrite <- (take_drop_middle (chars line) _ NUL Hnul) at 1.
  fold (line_text line).
  rewrite drop_app_le by (unfold line_text; rewrite length_take; lia).
  apply cstr_app_nul. by apply Forall_drop.
Qed.

(** The row that [editor_insert_text_block] leaves at [y] when the text is
    one segment: the row is cut at [x], the segment is spliced in at its
    end and the part cut off is appended again. *)
Lemma insert_segment_into_row (line : EditorLine) (x : Z) (seg rest : list ascii) :
  line_ok line -> 0 <= x <= size line ->
  Forall (fun ch => ch <> NUL) (line_text line) ->
  let text := seg ++ NUL :: rest in
  let spliced l := splice_into_line x text (zlen seg) l in
  let r := strdup (ptr_at (chars line) x) in
  let line' :=
    if x <? size line
    then append_to_line (spliced (truncate_line x line)) r (strlen r)
    else spliced line in
  line_text line' =
    take (Z.to_nat x) (line_text line) ++ seg ++ drop (Z.to_nat x) (line_text line) /\
  line_ok line'.
Proof.
  intros Hok Hx Hnn text spliced r line'. subst line'.
  assert (Htake : take (Z.to_nat (zlen seg)) text = seg).
  { unfold text, zlen. rewrite Nat2Z.id. by rewrite take_app_length. }
  assert (Hfit : (Z.to_nat (zlen seg) <= length text)%nat).
  { unfold text, zlen. rewrite Nat2Z.id, length_app. lia. }
  pose proof (zlen_nonneg seg) as Hseg.
  destruct (Z.ltb_spec x (size line)) as [Hlt | Hge].
  - pose proof (line_ok_truncate x line Hok Hx) as HokT.
    pose proof (line_text_truncate x line Hok Hx) as HtT.
    assert (HsT : size (truncate_line x line) = x) by done.
    destruct (splice_at_end_text (truncate_line x line) text (zlen seg) HokT Hseg Hfit)
      as (HtS & HsS & HokS).
    rewrite HsT in HtS, HsS, HokS. fold (spliced (truncate_line x line)) in HtS, HsS, HokS.
    assert (Hr : r = drop (Z.to_nat x) (line_text line) ++ [NUL]).
    { unfold r, strdup. by rewrite cstr_ptr_at. }
    assert (Hrl : strlen r = size line - x).
    { unfold strlen, r. rewrite cstr_strdup, cstr_ptr_at by done.
      unfold zlen, line_text. rewrite length_drop, length_take.
      destruct (line_ok_terminator line Hok). lia. }
    assert (Hdl : length (drop (Z.to_nat x) (line_text line)) = Z.to_nat (size line - x)).
    { unfold line_text. rewrite length_drop, length_take.
      destruct (line_ok_terminator line Hok). lia. }
    destruct (append_to_line_text (spliced (truncate_line x line)) r (strlen r) HokS)
      as (_ & HtJ & HokJ).
    { lia. }
    { rewrite Hrl, Hr, length_app. cbn [length]. lia. }
    split.
    + rewrite HtJ, HtS, HtT, Htake, Hrl, Hr.
      rewrite <- Hdl, take_app_length. by rewrite <- app_assoc.
    + apply HokJ. rewrite Hrl, Hr, <- Hdl. by rewrite list_lookup_middle.
  - assert (Hxe : x = size line) by lia.
    destruct (splice_at_end_text line text (zlen seg) Hok Hseg Hfit) as (HtS & _ & HokS).
    rewrite <- Hxe in HtS, HokS. fold (spliced line) in HtS, HokS.
    split; [| done].
    rewrite HtS, Htake.
    rewrite (take_ge (line_text line)), (drop_ge (line_text line))
      by (unfold line_text; rewrite length_take; lia).
    by rewrite app_nil_r.
Qed.

(** The lines after [editor_insert_text_block] for a text of one segment. *)
Lemma insert_text_block_segment_lines (y x : Z) (seg rest : list ascii)
      (E : EditorState) :
  0 <= y < num_lines E -> 0 <= x ->
  seg <> [] -> Forall (fun ch => ch <> NUL /\ ch <> "010"%char) seg ->
  let L := get_line E y in
  let text := seg ++ NUL :: rest in
  let temp := seg ++ [NUL] in
  let r := strdup (ptr_at (chars L) x) in
  let E' := editor_insert_text_block y x text (zlen seg) E in
  (x < size L -> 0 < strlen r ->
   lines E' =
     lines (update_line y
              (fun l => append_to_line
                          (splice_into_line x temp (zlen seg) (truncate_line x l))
                          r (strlen r)) E)) /\
  (size L <= x ->
   lines E' = lines (update_line y (splice_into_line x temp (zlen seg)) E)) /\
  cursor_y E' = cursor_y E /\ cursor_x E' = cursor_x E.
Proof.
  intros Hy Hx Hne Hseg L text temp r E'. subst E'.
  assert (Hnn : Forall (fun ch => ch <> NUL) seg)
    by (eapply Forall_impl; [exact Hseg | by intros ? (? & _)]).
  unfold editor_insert_text_block.
  assert (Hlen : 0 < zlen seg).
  { unfold zlen. destruct seg; [done | cbn [length]; lia]. }
  destruct (Z.eqb_spec (zlen seg) 0) as [? | _]; [lia |].
  assert (Htemp : strdup text = temp).
  { unfold strdup, text. by rewrite cstr_app_nul. }
  rewrite Htemp. fold L.
  assert (Hfuel : length temp = Datatypes.S (length seg)).
  { unfold temp. rewrite length_app. cbn [length]. lia. }
  rewrite Hfuel.
  destruct (Z.ltb_spec y (num_lines E)) as [_ | ?]; [| lia]. cbn [andb].
  destruct (Z.ltb_spec x (size L)) as [Hlt | Hge].
  - fold r. cbv beta iota zeta.
    set (Ea := update_line y (truncate_line x) E).
    assert (Hna : num_lines Ea = num_lines E).
    { unfold Ea, num_lines. cbn [lines update_line set_lines]. apply zlen_array_set. }
    unfold temp. rewrite insert_segments_single by (done || lia). fold temp.
    cbv beta iota zeta.
    set (Eb := update_line y (splice_into_line x temp (zlen seg)) Ea).
    assert (Hnb : num_lines Eb = num_lines E).
    { unfold Eb, num_lines. cbn [lines update_line set_lines].
      rewrite zlen_array_set. apply Hna. }
    split; [| split; [intros; lia |]].
    + intros _ Hr. destruct (Z.ltb_spec 0 (strlen r)) as [_ | ?]; [| lia].
      destruct (Z.leb_spec (num_lines Eb) y) as [? | _]; [lia |].
      cbn [lines mark_lines_dirty set_dirty_range].
      unfold Eb. rewrite lines_update_line_twice by lia.
      unfold Ea. by rewrite lines_update_line_twice by lia.
    + destruct (0 <? strlen r); [| done].
      destruct (Z.leb_spec (num_lines Eb) y) as [? | _]; [lia | done].
  - cbv beta iota zeta.
    unfold temp. rewrite insert_segments_single by (done || lia). fold temp.
    cbv beta iota zeta. split; [intros; lia |]. split; [| done].
    intros _. done.
Qed.

Lemma strlen_remainder (line : EditorLine) (x : Z) :
  line_ok line -> Forall (fun ch => ch <> NUL) (line_text line) ->
  0 <= x <= size line ->
  strlen (strdup (ptr_at (chars line) x)) = size line - x.
Proof.
  intros Hok Hnn Hx. unfold strlen. rewrite cstr_strdup, cstr_ptr_at by done.
  unfold zlen, line_text. rewrite length_drop, length_take.
  destruct (line_ok_terminator line Hok). lia.
Qed.

(** The effect of [editor_insert_text_block] for a text of one segment. *)
Lemma insert_text_block_segment_spec (y x : Z) (seg rest : list ascii)
      (E : EditorState) :
  0 <= y < num_lines E ->
  line_ok (get_line E y) -> 0 <= x <= size (get_line E y) ->
  seg <> [] -> Forall (fun ch => ch <> NUL /\ ch <> "010"%char) seg ->
  Forall (fun ch => ch <> NUL) (line_text (get_line E y)) ->
  let t := line_text (get_line E y) in
  let E' := editor_insert_text_block y x (seg ++ NUL :: rest) (zlen seg) E in
  document E' =
    take (Z.to_nat y) (document E) ++
    (take (Z.to_nat x) t ++ seg ++ drop (Z.to_nat x) t)
    :: drop (Datatypes.S (Z.to_nat y)) (document E) /\
  num_lines E' = num_lines E /\ line_ok (get_line E' y) /\
  cursor_y E' = cursor_y E /\ cursor_x E' = cursor_x E.
Proof.
  intros Hy Hok Hx Hne Hseg Hnn t E'. subst t E'.
  destruct (insert_text_block_segment_lines y x seg rest E Hy ltac:(lia) Hne Hseg)
    as (Hlt & Hge & Hcy & Hcx).
  destruct (insert_segment_into_row (get_line E y) x seg [] Hok Hx Hnn) as (Htxt & Hok').
  cbv zeta in Htxt, Hok'.
  pose proof (strlen_remainder (get_line E y) x Hok Hnn Hx) as Hrl.
  set (E' := editor_insert_text_block y x (seg ++ NUL :: rest) (zlen seg) E) in *.
  assert (Hlines : exists F : EditorLine -> EditorLine,
             lines E' = lines (update_line y F E) /\
             line_text (F (get_line E y)) =
               take (Z.to_nat x) (line_text (get_line E y)) ++ seg ++
               drop (Z.to_nat x) (line_text (get_line E y)) /\
             line_ok (F (get_line E y))).
  { destruct (Z.ltb_spec x (size (get_line E y))) as [Hcase | Hcase].
    - eexists. split; [apply Hlt; lia |]. cbv beta. split; [exact Htxt | exact Hok'].
    - eexists. split; [apply Hge; lia |]. split; [exact Htxt | exact Hok']. }
  destruct Hlines as (F & Hl & HtF & HokF).
  destruct (same_lines _ _ Hl) as (Hdoc & Hnum & Hget).
  destruct (document_update_line y F E Hy) as (Hdoc2 & Hrow & Hnum2).
  split; [| split; [| split; [| done]]].
  - by rewrite Hdoc, Hdoc2, HtF.
  - by rewrite Hnum, Hnum2.
  - by rewrite Hget, Hrow.
Qed.

(** A text of one segment, without line break, is inserted at column [x]
    of row [y]: the row's text becomes its part before [x], the segment,
    and its part from [x] on; nothing else changes. *)
Theorem insert_text_block_inserts_segment :
  forall (y x : Z) (seg rest : list ascii) (E : EditorState),
    0 <= y < num_lines E ->
    line_ok (get_line E y) -> 0 <= x <= size (get_line E y) ->
    seg <> [] -> Forall (fun ch => ch <> NUL /\ ch <> "010"%char) seg ->
    Forall (fun ch => ch <> NUL) (line_text (get_line E y)) ->
    let t := line_text (get_line E y) in
    let E' := editor_insert_text_block y x (seg ++ NUL :: rest) (zlen seg) E in
    document E' =
      take (Z.to_nat y) (document E) ++
      (take (Z.to_nat x) t ++ seg ++ drop (Z.to_nat x) t)
      :: drop (Datatypes.S (Z.to_nat y)) (document E) /\
    num_lines E' = num_lines E /\ line_ok (get_line E' y) /\
    cursor_y E' = cursor_y E /\ cursor_x E' = cursor_x E.
Proof.
  intros y x seg rest E Hy Hok Hx Hne Hseg Hnn t E'. subst t E'.
  exact (insert_text_block_segment_spec y x seg rest E Hy Hok Hx Hne Hseg Hnn).
Qed.

(** ** Extracting, deleting and inserting inside one row *)

(** [get_selection_content] for a range of one row with at least one
    character: the characters from [sx] up to [ex], NUL-terminated. *)
Lemma get_selection_content_one_row (E : EditorState) (y sx ex : Z) :
  0 <= y < num_lines E -> line_ok (get_line E y) ->
  0 <= sx < ex -> ex <= size (get_line E y) ->
  get_selection_content E y sx y ex =
  (Some (take (Z.to_nat (ex - sx)) (drop (Z.to_nat sx) (line_text (get_line E y)))
         ++ [NUL]), 1).
Proof.
  intros Hy Hok Hsx Hex. unfold get_selection_content.
  assert (Hguard : ((y <? 0) || (num_lines E <=? y) || (y <? 0) ||
                    (num_lines E <=? y)) = false) by lia.
  rewrite Hguard. replace (y - y + 1) with 1 by lia.
  change (Z.to_nat 1) with 1%nat. cbn [for_loop].
  unfold selection_cols. rewrite Z.eqb_refl.
  destruct (Z.ltb_spec ex sx) as [? | _]; [lia |].
  rewrite Z.ltb_irrefl. cbv beta iota zeta.
  destruct (Z.eqb_spec (0 + (ex - sx)) 0) as [? | _]; [lia |].
  f_equal. f_equal.
  destruct (line_ok_terminator _ Hok) as (_ & Hroom).
  set (len := ex - sx).
  set (data := block_read (ptr_at (chars (get_line E y)) sx) 0 len).
  assert (Hdata : data = take (Z.to_nat len)
                           (drop (Z.to_nat sx) (line_text (get_line E y)))).
  { unfold data. rewrite block_read_0, drop_line_text, take_take. unfold ptr_at.
    f_equal. unfold len. lia. }
  assert (Hdl : length data = Z.to_nat len).
  { unfold data. rewrite block_read_0, length_take. unfold ptr_at.
    rewrite length_drop. unfold len. lia. }
  assert (Hlen : 0 < len) by (unfold len; lia). clearbody len.
  unfold memcpy. fold data. rewrite block_write_fits
    by (rewrite length_malloc; lia).
  change (Z.to_nat 0) with 0%nat. rewrite take_0. cbn [app Nat.add].
  unfold array_set. destruct (Z.ltb_spec (0 + len) 0); [lia |].
  rewrite insert_app_r_alt by lia.
  replace (Z.to_nat (0 + len) - length data)%nat with 0%nat by lia.
  unfold malloc. replace (Z.to_nat (0 + len + 1)) with (length data + 1)%nat by lia.
  rewrite drop_replicate.
  replace (length data + 1 - length data)%nat with 1%nat by lia.
  cbn [replicate insert list_insert]. by rewrite Hdata.
Qed.

(** Inside one row the three block operations do fit together: the text
    extracted from a non-empty range of a row, deleted and inserted again
    at the start of the range gives the document back.  The row must hold
    no NUL and no line break in its text. *)
Theorem extract_delete_insert_restores_inside_row :
  forall (y sx ex : Z) (E : EditorState),
    0 <= y < num_lines E -> line_ok (get_line E y) ->
    0 <= sx < ex -> ex <= size (get_line E y) ->
    Forall (fun ch => ch <> NUL /\ ch <> "010"%char) (line_text (get_line E y)) ->
    exists content : list ascii,
      fst (get_selection_content E y sx y ex) = Some content /\
      cstr content =
        take (Z.to_nat (ex - sx)) (drop (Z.to_nat sx) (line_text (get_line E y))) /\
      document (editor_insert_text_block y sx content (strlen content)
                  (editor_delete_text_block y sx y ex E)) = document E.
Proof.
  intros y sx ex E Hy Hok Hsx Hex Hchars.
  set (t := line_text (get_line E y)) in *.
  set (seg := take (Z.to_nat (ex - sx)) (drop (Z.to_nat sx) t)).
  assert (Hnn : Forall (fun ch => ch <> NUL) t)
    by (eapply Forall_impl; [exact Hchars | by intros ? (? & _)]).
  assert (Hlt : length t = Z.to_nat (size (get_line E y))).
  { unfold t, line_text. rewrite length_take.
    destruct (line_ok_terminator _ Hok). lia. }
  assert (Hsegl : length seg = Z.to_nat (ex - sx)).
  { unfold seg. rewrite length_take, length_drop. lia. }
  assert (Hseg : Forall (fun ch => ch <> NUL /\ ch <> "010"%char) seg).
  { unfold seg. by apply Forall_take, Forall_drop. }
  assert (Hsegn : Forall (fun ch => ch <> NUL) seg)
    by (eapply Forall_impl; [exact Hseg | by intros ? (? & _)]).
  exists (seg ++ [NUL]).
  split; [by rewrite get_selection_content_one_row |].
  split; [by apply cstr_app_nul |].
  assert (Hstrlen : strlen (seg ++ [NUL]) = zlen seg).
  { unfold strlen. by rewrite cstr_app_nul. }
  rewrite Hstrlen.
  destruct (delete_text_block_spec y sx y ex E) as (Hdoc1 & Hn1 & _ & _ & Hok1);
    try done; try lia.
  set (E1 := editor_delete_text_block y sx y ex E) in *.
  fold t in Hdoc1.
  set (t1 := take (Z.to_nat sx) t ++ drop (Z.to_nat ex) t) in *.
  assert (Hrow1 : line_text (get_line E1 y) = t1).
  { pose proof (document_row E1 y ltac:(lia)) as Hr.
    rewrite Hdoc1 in Hr at 1.
    apply app_inj_1 in Hr as (_ & Hr); [by injection Hr as <- |].
    rewrite !length_take. unfold document. rewrite !length_map.
    unfold num_lines, zlen in *. lia. }
  assert (Hlt1 : length (take (Z.to_nat sx) t) = Z.to_nat sx)
    by (rewrite length_take; lia).
  assert (Hsz1 : size (get_line E1 y) = size (get_line E y) - (ex - sx)).
  { destruct (line_ok_terminator _ Hok1) as (_ & Hroom1).
    assert (Hl : length (line_text (get_line E1 y)) = Z.to_nat (size (get_line E1 y))).
    { unfold line_text. rewrite length_take. lia. }
    rewrite Hrow1 in Hl. unfold t1 in Hl.
    rewrite length_app, Hlt1, length_drop in Hl.
    destruct Hok1 as (_ & ? & _). lia. }
  destruct (insert_text_block_segment_spec y sx seg [] E1) as (Hdoc2 & _);
    rewrite ?Hrow1; try done; try lia.
  { destruct seg; [cbn [length] in Hsegl; lia | done]. }
  { unfold t1. apply Forall_app. split; [by apply Forall_take | by apply Forall_drop]. }
  rewrite Hrow1 in Hdoc2. rewrite Hdoc2, Hdoc1.
  assert (Hlen : (Z.to_nat y < length (document E))%nat).
  { unfold document, num_lines, zlen in *. rewrite length_map. lia. }
  rewrite (replace_row_twice (document E)) by done.
  rewrite (document_row E y) at 3 by done. fold t.
  f_equal. f_equal. unfold t1.
  rewrite take_app_length' by done.
  rewrite drop_app_length' by done.
  unfold seg.
  rewrite <- (take_drop (Z.to_nat sx) t) at 4. f_equal.
  rewrite <- (take_drop (Z.to_nat (ex - sx)) (drop (Z.to_nat sx) t)) at 2.
  f_equal. rewrite drop_drop. f_equal. lia.
Qed.

End Editor.

(** ** The theorems at concrete inputs

    Fresh cells are given the character 255 and the tag [HL_NORMAL]. *)

Lemma push_undo_at_capacity_witness :
  let E := full_history "255" in
  let action := mkUndoAction UNDO_DELETE_CHAR 0 100 "b" None 0 0 in
  let E' := push_undo_action action E in
  undo_head E = MAX_UNDO_HISTORY /\
  redo_log E' = [] /\
  undo_head E' = MAX_UNDO_HISTORY /\
  undo_log E' = drop 1 (undo_log E) ++ [stored action].
Proof.
  intros E action E'.
  destruct (push_undo_bounded_evicts_oldest_clears_redo action E)
    as (_ & Hredo & Hhead & _ & _ & Hfull).
  - vm_compute. reflexivity.
  - vm_compute. split; discriminate.
  - split; [vm_compute; reflexivity |].
    split; [exact Hredo |].
    split; [vm_compute; reflexivity |].
    apply Hfull. vm_compute. reflexivity.
Defined.

Lemma normalized_selection_example :
  get_normalized_selection_coords
    (mkEditorState [] 0 7 2 false [] false 0 0 (mkCommandState [] 0 0 false false)
                   false false true 3 5 [] 0 [] 0) = (2, 7, 5, 3).
Proof. reflexivity. Qed.

Lemma split_then_join_witness :
  let E := hello_at_2 "255" in
  document (editor_insert_newline "255" E) =
    map list_ascii_of_string ["he"; "llo"]%string /\
  exists E', editor_delete_char "255" HL_NORMAL (editor_insert_newline "255" E) = Some E' /\
    line_text (get_line E' 0) = list_ascii_of_string "hello" /\
    size (get_line E' 0) = 5 /\
    num_lines E' = 1.
Proof.
  intros E.
  destruct (split_then_join_restores_line "255"%char HL_NORMAL E)
    as (E' & Hret & Htext & Hsize & Hn & _).
  - vm_compute. split; [discriminate | reflexivity].
  - vm_compute. repeat split; discriminate.
  - vm_compute. split; [reflexivity | discriminate].
  - split; [vm_compute; reflexivity |].
    exists E'. split; [exact Hret |].
    split; [exact Htext |]. split; [exact Hsize | exact Hn].
Defined.


Lemma index_errors_witness :
  let E := three_lines "255" in
  let line := get_line E 0 in
  editor_line_insert_char "255" HL_NORMAL line 3 (code "x") = Some line /\
  editor_line_delete_char line 2 = Some line /\
  editor_insert_line "255" 4 [NUL] 0 E = E /\
  editor_delete_line (-1) E = E.
Proof.
  intros E line.
  destruct (index_errors_leave_everything_unchanged "255"%char HL_NORMAL line E 3
              (code "x") [NUL] 0) as (Hins & _ & _ & _).
  destruct (index_errors_leave_everything_unchanged "255"%char HL_NORMAL line E 2
              (code "x") [NUL] 0) as (_ & Hdel & _ & _).
  destruct (index_errors_leave_everything_unchanged "255"%char HL_NORMAL line E 4
              (code "x") [NUL] 0) as (_ & _ & Hinsl & _).
  destruct (index_errors_leave_everything_unchanged "255"%char HL_NORMAL line E (-1)
              (code "x") [NUL] 0) as (_ & _ & _ & Hdell).
  split; [apply Hins; right; vm_compute; reflexivity |].
  split; [apply Hdel; right; vm_compute; discriminate |].
  split; [apply Hinsl; right; vm_compute; reflexivity |].
  apply Hdell. left. lia.
Defined.

Lemma backspace_witness :
  let E := one_key_collected "255" in
  let E' := handle_command_mode_input id id id KEY_BACKSPACE 1 E in
  collected E = ["S"%char] /\
  collected E' = [] /\
  cmd_length (cmd E') = 0 /\
  cmd_active (cmd E') = true.
Proof.
  intros E E'.
  destruct (backspace_removes_last_key_and_stays_active id id id KEY_BACKSPACE 1 E)
    as (Hdrop & _).
  - left. reflexivity.
  - vm_compute. discriminate.
  - vm_compute. reflexivity.
  - destruct Hdrop as (Hlen & Hcol & _ & Hact).
    + vm_compute. split; [discriminate | reflexivity].
    + unfold E'. split; [vm_compute; reflexivity |].
      split; [rewrite Hcol; vm_compute; reflexivity |].
      split; [rewrite Hlen; vm_compute; reflexivity |].
      rewrite Hact. vm_compute. reflexivity.
Defined.

(** C8 as the specification states it fails: with the single key S
    collected, Backspace empties the sequence and the machine is still in
    command mode. *)
Lemma backspace_emptying_stays_in_command_mode :
  ~ backspace_as_specified (handle_command_mode_input id id id) KEY_BACKSPACE 1
      (one_key_collected "255").
Proof.
  unfold backspace_as_specified. intros [_ Hidle].
  specialize (Hidle eq_refl). vm_compute in Hidle. discriminate.
Qed.

Lemma delete_char_at_start_witness :
  let E := new_file "255" false in
  (cursor_x E, cursor_y E) = (0, 0) /\ editor_delete_char "255" HL_NORMAL E = Some E.
Proof.
  intros E. split; [reflexivity |].
  apply (delete_char_at_edges_is_noop "255"%char HL_NORMAL E).
  left. split; reflexivity.
Defined.

Lemma nul_termination_witness :
  let E := highlighted HL_NORMAL (three_lines "255") in
  let line := get_line E 0 in
  line_ok line /\ hl_allocated line /\
  (exists line', editor_line_insert_char "255" HL_NORMAL line 1 (code "x") = Some line' /\
                 line_ok line') /\
  (exists line', editor_line_delete_char line 1 = Some line' /\ line_ok line') /\
  line_ok (get_line (editor_insert_line "255" 1 (list_ascii_of_string "new") 3 E) 1).
Proof.
  intros E line.
  assert (Hok : line_ok line) by (vm_compute; repeat split; discriminate).
  assert (Hhl : hl_allocated line) by (vm_compute; discriminate).
  destruct (line_mutations_keep_nul_termination "255"%char HL_NORMAL line E 1 (code "x")
              (list_ascii_of_string "new") 3) as (Hins & Hdel & Hnew).
  destruct (Hins Hok Hhl) as (line1 & Hline1 & _ & _ & Hok1 & _).
  destruct (Hdel Hok Hhl) as (line2 & Hline2 & _ & _ & Hok2 & _).
  split; [exact Hok |]. split; [exact Hhl |].
  split; [exists line1; split; [exact Hline1 | exact Hok1] |].
  split; [exists line2; split; [exact Hline2 | exact Hok2] |].
  destruct Hnew as (_ & _ & Hl & _).
  - vm_compute. split; discriminate.
  - lia.
  - exact Hl.
Defined.

Lemma plain_text_witness :
  let E := three_lines "255" in
  tag_at (update_highlighting HL_COMMENT 1 E) 1 0 = Some HL_NORMAL /\
  tag_at (update_highlighting HL_COMMENT 1 E) 1 1 = Some HL_NORMAL.
Proof.
  intros E.
  destruct (plain_text_rows_are_normal HL_COMMENT E 1) as (_ & Htags).
  - vm_compute. reflexivity.
  - vm_compute. split; [discriminate | reflexivity].
  - vm_compute. repeat split; discriminate.
  - vm_compute. exact I.
  - split; apply Htags; vm_compute; split; (discriminate || reflexivity).
Defined.


Lemma undo_of_split_witness :
  let E := hello_at_2 "255" in
  exists E', editor_undo "255" HL_NORMAL (editor_insert_newline "255" E) = Some E' /\
    document E' = [list_ascii_of_string "hello"] /\
    (cursor_y E', cursor_x E') = (0, 2).
Proof.
  intros E.
  destruct (undo_of_split_restores_document_and_cursor "255"%char HL_NORMAL E)
    as (E' & Hret & Hdoc & Hy & Hx).
  - vm_compute. reflexivity.
  - vm_compute. split; discriminate.
  - vm_compute. split; [discriminate | reflexivity].
  - vm_compute. repeat split; discriminate.
  - vm_compute. split; [reflexivity | discriminate].
  - exists E'. split; [exact Hret |].
    rewrite Hdoc, Hy, Hx. vm_compute. split; reflexivity.
Defined.

(** Typing X with the cursor at column 2 of hello, once the row has been
    drawn. *)
Lemma insert_char_witness :
  let E := highlighted HL_NORMAL (hello_at_2 "255") in
  exists E', editor_insert_char "255" HL_NORMAL (code "X") E = Some E' /\
    document E' = [list_ascii_of_string "heXllo"] /\ cursor_y E' = 0 /\ cursor_x E' = 3.
Proof.
  intros E.
  pose proof (insert_char_lands_at_cursor "255"%char HL_NORMAL (code "X") E) as H.
  cbv zeta in H. destruct H as (E' & Hret & Hdoc & Hy & Hx & _).
  - vm_compute. split; [discriminate | reflexivity].
  - vm_compute. repeat split; discriminate.
  - vm_compute. discriminate.
  - vm_compute. split; discriminate.
  - exists E'. split; [exact Hret |].
    split; [rewrite Hdoc | split; [rewrite Hy | rewrite Hx]];
      vm_compute; reflexivity.
Defined.

(** Backspace with the cursor at column 2 of hello, once the row has been
    drawn. *)
Lemma backspace_char_witness :
  let E := highlighted HL_NORMAL (hello_at_2 "255") in
  exists E', editor_delete_char "255" HL_NORMAL E = Some E' /\
    document E' = [list_ascii_of_string "hllo"] /\ cursor_y E' = 0 /\ cursor_x E' = 1.
Proof.
  intros E.
  pose proof (backspace_removes_character_before_cursor "255"%char HL_NORMAL E) as H.
  cbv zeta in H. destruct H as (E' & Hret & Hdoc & Hy & Hx & _).
  - vm_compute. split; [discriminate | reflexivity].
  - vm_compute. repeat split; discriminate.
  - vm_compute. discriminate.
  - vm_compute. split; [reflexivity | discriminate].
  - exists E'. split; [exact Hret |].
    split; [rewrite Hdoc | split; [rewrite Hy | rewrite Hx]];
      vm_compute; reflexivity.
Defined.

(** Typing X at column 2 of hello, once the row has been drawn, and
    erasing it again. *)
Lemma type_then_backspace_witness :
  let E := highlighted HL_NORMAL (hello_at_2 "255") in
  exists E', mbind (editor_delete_char "255" HL_NORMAL)
                   (editor_insert_char "255" HL_NORMAL (code "X") E) = Some E' /\
    document E' = [list_ascii_of_string "hello"] /\ cursor_y E' = 0 /\ cursor_x E' = 2.
Proof.
  intros E.
  pose proof (type_then_backspace_restores "255"%char HL_NORMAL (code "X") E) as H.
  cbv zeta in H. destruct H as (E' & Hret & Hdoc & Hy & Hx).
  - vm_compute. split; [discriminate | reflexivity].
  - vm_compute. repeat split; discriminate.
  - vm_compute. discriminate.
  - vm_compute. split; discriminate.
  - exists E'. split; [exact Hret |].
    split; [rewrite Hdoc | split; [rewrite Hy | rewrite Hx]];
      vm_compute; reflexivity.
Defined.

(** Enter with the cursor at column 2 of hello. *)
Lemma newline_witness :
  let E' := editor_insert_newline "255" (hello_at_2 "255") in
  document E' = map list_ascii_of_string ["he"; "llo"]%string /\
  cursor_y E' = 1 /\ cursor_x E' = 0.
Proof.
  intros E'.
  pose proof (newline_splits_row_at_cursor "255"%char (hello_at_2 "255")) as H.
  cbv zeta in H. destruct H as (Hdoc & Hy & Hx & _).
  - vm_compute. split; [discriminate | reflexivity].
  - vm_compute. repeat split; discriminate.
  - vm_compute. split; discriminate.
  - unfold E'. split; [rewrite Hdoc | split; [rewrite Hy | rewrite Hx]];
      vm_compute; reflexivity.
Defined.

(** Backspace at the start of the second of the rows ab, cd, ef. *)
Lemma join_rows_witness :
  let E := set_cursor 1 0 (three_lines "255") in
  exists E', editor_delete_char "255" HL_NORMAL E = Some E' /\
    document E' = map list_ascii_of_string ["abcd"; "ef"]%string /\
    cursor_y E' = 0 /\ cursor_x E' = 0.
Proof.
  intros E.
  pose proof (backspace_at_column_0_joins_rows "255"%char HL_NORMAL E) as H.
  cbv zeta in H. destruct H as (E' & Hret & Hdoc & Hy & Hx & _).
  - vm_compute. split; [discriminate | reflexivity].
  - reflexivity.
  - vm_compute. repeat split; discriminate.
  - vm_compute. repeat split; discriminate.
  - exists E'. split; [exact Hret |].
    split; [rewrite Hdoc | split; [rewrite Hy | rewrite Hx]];
      vm_compute; reflexivity.
Defined.

Lemma three_lines_sizes_ok (y x : Z) : sizes_ok (set_cursor y x (three_lines "255")).
Proof.
  intros row Hrow.
  replace (num_lines (set_cursor y x (three_lines "255"))) with 3 in Hrow
    by (vm_compute; reflexivity).
  assert (Hcases : row = 0 \/ row = 1 \/ row = 2) by lia.
  destruct Hcases as [-> | [-> | ->]]; vm_compute; discriminate.
Defined.

(** Down from a column beyond the end of the first of the rows ab, cd, ef. *)
Lemma move_cursor_witness :
  let E := set_cursor 0 5 (three_lines "255") in
  lines (editor_move_cursor KEY_DOWN E) = lines E /\
  cursor_ok (editor_move_cursor KEY_DOWN E) /\
  cursor_y (editor_move_cursor KEY_DOWN E) = 1 /\
  cursor_x (editor_move_cursor KEY_DOWN E) = 2.
Proof.
  intros E.
  destruct (move_cursor_keeps_cursor_in_text KEY_DOWN E) as (Hl & Hc).
  - apply three_lines_sizes_ok.
  - vm_compute. split; discriminate.
  - vm_compute. discriminate.
  - split; [exact Hl |]. split; [exact Hc |]. split; vm_compute; reflexivity.
Defined.

(** Right then Left, and Left then Right, from the start of the second of
    the rows ab, cd, ef. *)
Lemma left_and_right_witness :
  let E := set_cursor 1 0 (three_lines "255") in
  let E1 := editor_move_cursor KEY_LEFT (editor_move_cursor KEY_RIGHT E) in
  let E2 := editor_move_cursor KEY_RIGHT (editor_move_cursor KEY_LEFT E) in
  (cursor_y (editor_move_cursor KEY_RIGHT E), cursor_x (editor_move_cursor KEY_RIGHT E))
    = (1, 1) /\
  (cursor_y (editor_move_cursor KEY_LEFT E), cursor_x (editor_move_cursor KEY_LEFT E))
    = (0, 2) /\
  (cursor_y E1 = 1 /\ cursor_x E1 = 0) /\ (cursor_y E2 = 1 /\ cursor_x E2 = 0).
Proof.
  intros E E1 E2.
  destruct (left_and_right_are_inverse E) as (HRL & HLR).
  - apply three_lines_sizes_ok.
  - vm_compute. repeat split; discriminate.
  - vm_compute. reflexivity.
  - split; [vm_compute; reflexivity |]. split; [vm_compute; reflexivity |]. split.
    + apply HRL. left. vm_compute. reflexivity.
    + apply HLR. right. vm_compute. reflexivity.
Defined.

(** Delete with the cursor at column 2 of hello, once the row has been
    drawn. *)
Lemma delete_key_witness :
  let E := highlighted HL_NORMAL (hello_at_2 "255") in
  exists E', delete_key "255" HL_NORMAL E = Some E' /\
    document E' = [list_ascii_of_string "helo"] /\ cursor_y E' = 0 /\ cursor_x E' = 2 /\
    undo_head E' = 0.
Proof.
  intros E.
  pose proof (delete_key_removes_character_at_cursor "255"%char HL_NORMAL E) as H.
  cbv zeta in H. destruct H as (E' & Hret & Hdoc & Hy & Hx & _ & _ & Hhead & _).
  - vm_compute. split; [discriminate | reflexivity].
  - vm_compute. repeat split; discriminate.
  - vm_compute. discriminate.
  - vm_compute. split; [discriminate | reflexivity].
  - exists E'. split; [exact Hret |].
    split; [rewrite Hdoc | split; [rewrite Hy | split; [rewrite Hx | rewrite Hhead]]];
      vm_compute; reflexivity.
Defined.

(** Delete at the end of the first of the rows ab, cd, ef. *)
Lemma delete_key_join_witness :
  let E := set_cursor 0 2 (three_lines "255") in
  exists E', delete_key "255" HL_NORMAL E = Some E' /\
    document E' = map list_ascii_of_string ["abcd"; "ef"]%string /\
    cursor_y E' = 0 /\ cursor_x E' = 2.
Proof.
  intros E.
  pose proof (delete_key_at_end_joins_next_row "255"%char HL_NORMAL E) as H.
  cbv zeta in H. destruct H as (E' & Hret & Hdoc & Hy & Hx & _).
  - vm_compute. split; [discriminate | reflexivity].
  - vm_compute. discriminate.
  - vm_compute. repeat split; discriminate.
  - vm_compute. repeat split; discriminate.
  - exists E'. split; [exact Hret |].
    split; [rewrite Hdoc | split; [rewrite Hy | rewrite Hx]];
      vm_compute; reflexivity.
Defined.

(** The b after the tab is drawn at column 4, and column 4 is the b. *)
Lemma rendered_column_round_trip_witness :
  editor_row_cx_to_rx (Some tabbed_row) 2 = 4 /\
  editor_row_rx_to_cx (Some tabbed_row) (editor_row_cx_to_rx (Some tabbed_row) 2) = 2.
Proof.
  split; [vm_compute; reflexivity |].
  apply (rendered_column_round_trip tabbed_row 2).
  vm_compute. split; discriminate.
Defined.

(** Column 2 is inside the tab, the character of index 1. *)
Lemma rx_to_cx_witness :
  editor_row_rx_to_cx (Some tabbed_row) 2 = 1 /\
  editor_row_cx_to_rx (Some tabbed_row) (editor_row_rx_to_cx (Some tabbed_row) 2) <= 2 /\
  2 < editor_row_cx_to_rx (Some tabbed_row) (editor_row_rx_to_cx (Some tabbed_row) 2 + 1).
Proof.
  split; [vm_compute; reflexivity |].
  pose proof (rx_to_cx_finds_character_under_column tabbed_row 2) as H.
  cbv zeta in H. destruct H as (_ & Hle & Hlt).
  - vm_compute. discriminate.
  - lia.
  - split; [exact Hle |]. apply Hlt. vm_compute. reflexivity.
Defined.

(** The d of the rows ab, cd, ef is selected by Select All. *)
Lemma select_all_witness :
  is_char_in_selection (editor_select_all (three_lines "255")) 1 1 = true /\
  document (editor_select_all (three_lines "255")) =
    map list_ascii_of_string ["ab"; "cd"; "ef"]%string.
Proof.
  destruct (select_all_selects_every_character (three_lines "255") 1 1) as (Hsel & Hl).
  - vm_compute. split; [discriminate | reflexivity].
  - vm_compute. split; [discriminate | reflexivity].
  - split; [exact Hsel |]. unfold document. rewrite Hl. vm_compute. reflexivity.
Defined.

(** The key A pressed after the key S. *)
Lemma printable_key_witness :
  let E := one_key_collected "255" in
  let E' := handle_command_mode_input id id id (code "A") 1 E in
  collected E' = list_ascii_of_string "SA" /\ cmd_length (cmd E') = 2 /\
  cmd_active (cmd E') = true.
Proof.
  intros E E'.
  pose proof (printable_key_is_collected_until_full id id id (code "A") 1 E) as H.
  cbv zeta in H. destruct H as (Hroom & _ & Hact & _).
  - reflexivity.
  - vm_compute. discriminate.
  - vm_compute. discriminate.
  - reflexivity.
  - vm_compute. discriminate.
  - destruct Hroom as (Hcol & Hlen & _); [vm_compute; reflexivity |].
    unfold E'. split; [rewrite Hcol | split; [rewrite Hlen | rewrite Hact]];
      vm_compute; reflexivity.
Defined.

(** Escape pressed after the key S. *)
Lemma command_mode_exit_witness :
  let E' := handle_command_mode_input id id id 27 1 (one_key_collected "255") in
  cmd_active (cmd (one_key_collected "255")) = true /\
  cmd_active (cmd E') = false /\ collected E' = [] /\ status_message E' = [].
Proof.
  intros E'.
  pose proof (command_mode_exits_with_empty_status id id id 27 1
                (one_key_collected "255")) as H.
  cbv zeta in H. destruct H as (Hact & _ & Hcol & _ & Hst).
  - right. left. reflexivity.
  - split; [vm_compute; reflexivity |]. unfold E'.
    split; [exact Hact |]. split; [exact Hcol | exact Hst].
Defined.

(** The block from (0, 1) to (1, 1) of the rows ab, cd, ef. *)
Lemma delete_text_block_witness :
  let E' := editor_delete_text_block "255" HL_NORMAL 0 1 1 1 (three_lines "255") in
  document E' = map list_ascii_of_string ["ad"; "ef"]%string /\ num_lines E' = 2.
Proof.
  intros E'.
  pose proof (delete_text_block_removes_range "255"%char HL_NORMAL 0 1 1 1
                (three_lines "255")) as H.
  cbv zeta in H. destruct H as (Hdoc & Hn & _).
  - lia.
  - vm_compute. reflexivity.
  - vm_compute. repeat split; discriminate.
  - vm_compute. repeat split; discriminate.
  - vm_compute. split; discriminate.
  - vm_compute. split; discriminate.
  - intros Heq. discriminate Heq.
  - unfold E'. split; [rewrite Hdoc | rewrite Hn]; vm_compute; reflexivity.
Defined.

(** Duplicating the second of the rows ab, cd, ef; the array of rows has
    16 cells. *)
Lemma duplicate_line_witness :
  let E := set_cursor 1 1 (three_lines "255") in
  (num_lines E, allocated_lines E) = (3, 16) /\
  exists E', editor_duplicate_line "255" E = Some E' /\
    document E' = map list_ascii_of_string ["ab"; "cd"; "cd"; "ef"]%string /\
    cursor_y E' = 1 /\ cursor_x E' = 1.
Proof.
  intros E. split; [vm_compute; reflexivity |].
  pose proof (duplicate_line_copies_row "255"%char E) as H.
  cbv zeta in H. destruct H as (E' & Hret & Hdoc & _ & Hy & Hx & _).
  - vm_compute. split; [discriminate | reflexivity].
  - vm_compute. reflexivity.
  - vm_compute. repeat split; discriminate.
  - exists E'. split; [exact Hret |].
    split; [rewrite Hdoc | split; [rewrite Hy | rewrite Hx]];
      vm_compute; reflexivity.
Defined.

(** The row hello in upper case. *)
Lemma change_line_case_witness :
  let E' := editor_change_line_case true (hello_at_2 "255") in
  document E' = [list_ascii_of_string "HELLO"] /\ dirty E' = false.
Proof.
  intros E'.
  pose proof (change_line_case_maps_row_text true (hello_at_2 "255")) as H.
  cbv zeta in H. destruct H as (Hdoc & _ & _ & Hd & _).
  - vm_compute. split; [discriminate | reflexivity].
  - vm_compute. repeat split; discriminate.
  - unfold E'. split; [rewrite Hdoc | rewrite Hd]; vm_compute; reflexivity.
Defined.

(** Opening the file c again when the list is a, b, c. *)
Lemma recent_file_found_witness :
  let R' := add_to_recent_files (Some (list_ascii_of_string "c")) recent_abc in
  recent_files R' =
    map (fun s => Some (strdup (list_ascii_of_string s))) ["c"; "a"; "b"]%string
    ++ replicate 7 None /\
  num_recent_files R' = 3.
Proof.
  intros R'.
  pose proof (recent_file_found_moves_to_front (list_ascii_of_string "c")
                (strdup (list_ascii_of_string "c")) recent_abc 2) as H.
  cbv zeta in H. destruct H as (Hrf & Hn).
  - reflexivity.
  - vm_compute. discriminate.
  - vm_compute. split; [discriminate | reflexivity].
  - reflexivity.
  - reflexivity.
  - intros j s Hj Hs.
    assert (Hcases : j = 0 \/ j = 1) by lia.
    destruct Hcases as [-> | ->]; vm_compute in Hs; injection Hs as <-; reflexivity.
  - unfold R'. split; [rewrite Hrf | rewrite Hn]; reflexivity.
Defined.

(** Opening the file b when the list holds only a: the entry a is gone,
    and the list counts two entries. *)
Lemma recent_file_new_entry_witness :
  let R' := add_to_recent_files (Some (list_ascii_of_string "b")) recent_a in
  recent_files R' = Some (strdup (list_ascii_of_string "b")) :: replicate 9 None /\
  num_recent_files R' = 2.
Proof.
  intros R'.
  pose proof (recent_file_new_entry_takes_slot_0 (list_ascii_of_string "b") recent_a) as H.
  cbv zeta in H. destruct H as (_ & Hroom).
  - reflexivity.
  - vm_compute. split; discriminate.
  - intros j s Hj Hs.
    assert (Hcase : j = 0) by (change (num_recent_files recent_a) with 1 in Hj; lia).
    subst j. vm_compute in Hs. injection Hs as <-. reflexivity.
  - destruct Hroom as (Hrf & Hn); [vm_compute; reflexivity |].
    unfold R'. split; [rewrite Hrf | rewrite Hn]; reflexivity.
Defined.

(** Tab after the key l completes to LN, the first entry that starts with
    an l in either case. *)
Lemma autocomplete_witness :
  let E := l_key_collected "255" in
  let E' := autocomplete_command E in
  collected E = list_ascii_of_string "l" /\
  collected E' = list_ascii_of_string "LN" /\
  lines E' = lines E /\ cmd_active (cmd E') = true.
Proof.
  intros E E'.
  pose proof (autocomplete_gives_first_matching_command E) as H.
  cbv zeta in H. destruct H as (Hl & Ha & _).
  - reflexivity.
  - vm_compute. split; [discriminate | reflexivity].
  - split; [vm_compute; reflexivity |]. split; [vm_compute; reflexivity |].
    split; [exact Hl |]. unfold E'. rewrite Ha. vm_compute. reflexivity.
Defined.

(** Duplicating the second of the rows ab, cd, ef and undoing it. *)
Lemma undo_of_duplicate_witness :
  let E := set_cursor 1 1 (three_lines "255") in
  exists E', mbind (editor_undo "255" HL_NORMAL) (editor_duplicate_line "255" E) = Some E' /\
    document E' = map list_ascii_of_string ["ab"; "cd"; ""; "ef"]%string /\
    document E' <> document E /\
    (cursor_y E', cursor_x E') = (2, 0).
Proof.
  intros E.
  pose proof (undo_of_duplicate_leaves_empty_row "255"%char HL_NORMAL E) as H.
  cbv zeta in H. destruct H as (E' & Hret & Hdoc & _ & Hy & Hx).
  - vm_compute. reflexivity.
  - vm_compute. split; discriminate.
  - vm_compute. split; [discriminate | reflexivity].
  - vm_compute. reflexivity.
  - vm_compute. repeat split; discriminate.
  - exists E'. split; [exact Hret |].
    rewrite Hdoc, Hy, Hx.
    split; [vm_compute; reflexivity |]. split; [vm_compute; discriminate |].
    vm_compute. reflexivity.
Defined.

(** The row hello put in upper case, then undo. *)
Lemma undo_of_change_case_witness :
  let E := hello_at_2 "255" in
  document (editor_change_line_case true E) = [list_ascii_of_string "HELLO"] /\
  exists E', editor_undo "255" HL_NORMAL (editor_change_line_case true E) = Some E' /\
    document E' = [list_ascii_of_string "hello"] /\
    (cursor_y E', cursor_x E') = (0, 0).
Proof.
  intros E.
  pose proof (undo_of_change_case_restores_text "255"%char HL_NORMAL true E) as H.
  cbv zeta in H. destruct H as (E' & Hret & Hdoc & Hy & Hx).
  - vm_compute. reflexivity.
  - vm_compute. split; discriminate.
  - vm_compute. split; [discriminate | reflexivity].
  - vm_compute. repeat split; discriminate.
  - vm_compute. repeat (constructor; [discriminate |]). constructor.
  - split; [vm_compute; reflexivity |].
    exists E'. split; [exact Hret |].
    rewrite Hdoc, Hy, Hx. split; vm_compute; reflexivity.
Defined.

(** The text XY inserted at column 2 of hello. *)
Lemma insert_text_block_witness :
  let E' := editor_insert_text_block "255" HL_NORMAL 0 2
              (list_ascii_of_string "XY" ++ [NUL]) 2 (hello_at_2 "255") in
  document E' = [list_ascii_of_string "heXYllo"] /\ num_lines E' = 1.
Proof.
  intros E'.
  pose proof (insert_text_block_inserts_segment "255"%char HL_NORMAL 0 2
                (list_ascii_of_string "XY") [] (hello_at_2 "255")) as H.
  cbv zeta in H. destruct H as (Hdoc & Hn & _).
  - vm_compute. split; [discriminate | reflexivity].
  - vm_compute. repeat split; discriminate.
  - vm_compute. split; discriminate.
  - discriminate.
  - vm_compute. repeat (constructor; [split; discriminate |]). constructor.
  - vm_compute. repeat (constructor; [discriminate |]). constructor.
  - unfold E'. split; [| exact Hn].
    change (list_ascii_of_string "XY" ++ [NUL])
      with (list_ascii_of_string "XY" ++ NUL :: []).
    change 2 with (zlen (list_ascii_of_string "XY")) at 2.
    rewrite Hdoc. vm_compute. reflexivity.
Defined.

(** The characters ell of hello extracted, deleted and inserted again. *)
Lemma extract_delete_insert_witness :
  let E := hello_at_2 "255" in
  exists content : list ascii,
    fst (get_selection_content "255" E 0 1 0 4) = Some content /\
    cstr content = list_ascii_of_string "ell" /\
    document (editor_delete_text_block "255" HL_NORMAL 0 1 0 4 E) =
      [list_ascii_of_string "ho"] /\
    document (editor_insert_text_block "255" HL_NORMAL 0 1 content (strlen content)
                (editor_delete_text_block "255" HL_NORMAL 0 1 0 4 E)) =
      [list_ascii_of_string "hello"].
Proof.
  intros E.
  destruct (extract_delete_insert_restores_inside_row "255"%char HL_NORMAL 0 1 4 E)
    as (content & Hsel & Hstr & Hdoc).
  - vm_compute. split; [discriminate | reflexivity].
  - vm_compute. repeat split; discriminate.
  - lia.
  - vm_compute. discriminate.
  - vm_compute. repeat (constructor; [split; discriminate |]). constructor.
  - exists content. split; [exact Hsel |]. split; [rewrite Hstr; vm_compute; reflexivity |].
    split; [vm_compute; reflexivity |]. rewrite Hdoc. vm_compute. reflexivity.
Defined.
